(** * Vercel deployments tray indicator: model and verified properties

    A shallow embedding of the logic of the [vercel_menu_indicator] package:
    the API client ([api.py]), the configuration loader ([config.py]) and the
    refresh / notification loop of the indicator ([indicator.py]).

    Python values coming from JSON are modelled by the type [json]; Python
    exceptions by the error monad [result]; attributes of [VercelIndicator]
    and the GLib main loop by explicit state. *)

From Stdlib Require Import ZArith String Ascii PrimFloat.
From stdpp Require Import gmap strings list fin_maps sorting pretty.

Local Open Scope string_scope.
Local Open Scope Z_scope.

(** ** Python values and exceptions *)

Module Py.

(** The exception classes the modelled code can raise.  All of them derive
    from [Exception], so [except Exception] catches every one. *)
Inductive exn :=
  | AttributeError
  | TypeError
  | ValueError
  | OverflowError
  | IndexError
  | PermissionError
  | HTTPError
  | ConnectionError
  | OSError.

Inductive result (A : Type) :=
  | Ok (a : A)
  | Raise (e : exn).
Arguments Ok {A} a.
Arguments Raise {A} e.

#[global] Instance result_ret : MRet result := fun A a => Ok a.
#[global] Instance result_bind : MBind result := fun A B f r =>
  match r with
  | Ok a => f a
  | Raise e => Raise e
  end.

#[global] Instance result_fmap : FMap result := fun A B f r =>
  match r with
  | Ok a => Ok (f a)
  | Raise e => Raise e
  end.

Definition is_ok {A} (r : result A) : bool :=
  match r with Ok _ => true | Raise _ => false end.

(** What [json.loads] / [Response.json()] produce: [None], [bool], [int],
    [float], [str], [list] and [dict] with string keys. *)
#[warnings="-register-all"]
Inductive json :=
  | JNull
  | JBool (b : bool)
  | JInt (n : Z)
  | JFloat (f : float)
  | JStr (s : string)
  | JList (l : list json)
  | JObj (m : gmap string json).

(** Python truth value testing. *)
Definition truthy (v : json) : bool :=
  match v with
  | JNull => false
  | JBool b => b
  | JInt n => negb (Z.eqb n 0)
  | JFloat f => negb (PrimFloat.eqb f 0%float)
  | JStr s => negb (String.eqb s "")
  | JList l => negb (Nat.eqb (length l) 0)
  | JObj m => negb (Nat.eqb (size m) 0)
  end.

(** [a or b] where [b] is evaluated only when [a] is falsy. *)
Definition or_else (a : json) (b : result json) : result json :=
  if truthy a then Ok a else b.

(** [obj.get(k)]: only a [dict] has the method; a missing key gives [None]. *)
Definition get (obj : json) (k : string) : result json :=
  match obj with
  | JObj m => Ok (default JNull (m !! k))
  | _ => Raise AttributeError
  end.

(** [obj.get(k, d)]. *)
Definition get_default (obj : json) (k : string) (d : json) : result json :=
  match obj with
  | JObj m => Ok (default d (m !! k))
  | _ => Raise AttributeError
  end.

(** [obj.get(k1) or obj.get(k2) or ... or dflt]. *)
Fixpoint get_first (obj : json) (keys : list string) (dflt : json) : result json :=
  match keys with
  | [] => Ok dflt
  | k :: ks => v ← get obj k; or_else v (get_first obj ks dflt)
  end.

(** [str.lower()].  Strings are byte strings (UTF-8); the letters [A]-[Z] are
    mapped to [a]-[z].  The only character outside ASCII whose lower case is an
    ASCII letter is the Kelvin sign (lowered to [k]); no literal compared
    against a lowered string in this program contains a [k]. *)
Definition lower_ascii (c : ascii) : ascii :=
  let n := nat_of_ascii c in
  if (65 <=? n)%nat && (n <=? 90)%nat then ascii_of_nat (n + 32) else c.

Fixpoint lower (s : string) : string :=
  match s with
  | EmptyString => EmptyString
  | String c s' => String (lower_ascii c) (lower s')
  end.

(** [v.lower()] on an arbitrary value: only [str] has the method. *)
Definition py_lower (v : json) : result string :=
  match v with
  | JStr s => Ok (lower s)
  | _ => Raise AttributeError
  end.

(** Points in time ([datetime] objects carrying the UTC zone), as
    microseconds since the epoch: such objects are ordered by instant. *)
Definition datetime := Z.

(** Library functions whose results on the remaining values this development
    does not depend on. *)
Class Builtins := {
  (** [str(v)] for [v] that is not already a [str] *)
  str_other : json → string;
  (** [int(v)] for [v] a [str] or a [float] *)
  int_other : json → result Z;
  (** [datetime.fromtimestamp(n / 1000, tz=timezone.utc)] *)
  fromtimestamp_ms : Z → result datetime;
  (** [s.strip()] *)
  strip : string → string;
  (** [s.splitlines()] *)
  splitlines : string → list string;
  (** [dt.astimezone()]: the instant in the local time zone; it raises where
      the local time leaves the range of [datetime] *)
  astimezone : datetime → result datetime;
  (** [dt.strftime(fmt)] on such a local time *)
  strftime : datetime → string → string;
  (** [GLib.DateTime.new_from_unix_local(int(dt.timestamp())).format("%Y-%m-%d")]:
      GLib answers [None] for an instant it cannot represent, and [.format]
      raises on it *)
  local_day : datetime → result string;
  (** [GLib.DateTime.new_now_local().format("%Y-%m-%d")], and the same after
      [.add_days(-1)]: what the clock reads.  Only the texts of labels and
      notifications depend on the readings, and no state does. *)
  today : string;
  yesterday : string;
}.

Section WithBuiltins.
Context `{Builtins}.

Definition py_str (v : json) : string :=
  match v with
  | JStr s => s
  | _ => str_other v
  end.

Definition py_int (v : json) : result Z :=
  match v with
  | JInt n => Ok n
  | JBool b => Ok (Z.b2z b)
  | JNull | JList _ | JObj _ => Raise TypeError
  | JStr _ | JFloat _ => int_other v
  end.

Definition py_strip (v : json) : result string :=
  match v with
  | JStr s => Ok (strip s)
  | _ => Raise AttributeError
  end.
End WithBuiltins.

(** Iteration ([for item in v]): the elements of a list, the keys of a dict,
    the characters of a string. *)
Fixpoint chars (s : string) : list json :=
  match s with
  | EmptyString => []
  | String c s' => JStr (String c EmptyString) :: chars s'
  end.

Definition py_iter (v : json) : result (list json) :=
  match v with
  | JList l => Ok l
  | JObj m => Ok ((λ kv, JStr kv.1) <$> map_to_list m)
  | JStr s => Ok (chars s)
  | _ => Raise TypeError
  end.

(** [l[:k]]: a negative [k] counts from the end. *)
Definition slice_to {A} (k : Z) (l : list A) : list A :=
  if 0 <=? k then take (Z.to_nat k) l
  else take (length l - Z.to_nat (- k)) l.

End Py.
Import Py.

(** ** [api.py] *)

Module Api.

Record Deployment := {
  id : string;
  name : string;
  url : string;
  status : string;
  created_at : datetime;
  branch : string;
  commit_sha : string;
  commit_message : string;
  author : string;
  target : string;
}.

Record VercelClient := {
  token : string;
  team_id : option string;
  base_url_candidates : list string;
}.

(** [VercelClient.__init__] (the [requests] session is the [transport]
    argument of [list_deployments]). *)
Definition new_client `{Builtins} (tok : string) (team : option string) : VercelClient :=
  {| token := strip tok;
     team_id := (let t := strip (default "" team) in
                 if String.eqb t "" then None else Some t);
     base_url_candidates := ["https://api.vercel.com/v13"; "https://api.vercel.com/v6"] |}.

(** The [status_map] literal of [_parse_deployment]. *)
Definition status_map : gmap string string :=
  list_to_map
    [ ("ready", "ready");
      ("building", "building");
      ("queued", "building");
      ("initializing", "building");
      ("error", "error");
      ("failed", "error");
      ("canceled", "error");
      ("cancelled", "error") ].

(** [status_map.get(ready_state, "unknown")] *)
Definition status_map_get (ready_state : string) : string :=
  default "unknown" (status_map !! ready_state).

(** [(raw.get("readyState") or raw.get("state") or "")]: the value that is
    lowered. *)
Definition state_value (raw : json) : result json :=
  get_first raw ["readyState"; "state"] (JStr "").

(** [ready_state] of [_parse_deployment]. *)
Definition ready_state_of (raw : json) : result string :=
  v ← state_value raw; py_lower v.

Section WithBuiltins.
Context `{Builtins}.

Definition _extract_git_meta (raw : json) : result (string * string * string * string) :=
  m ← get raw "meta";
  let meta := if truthy m then m else JObj ∅ in
  branch ← get_first meta
    ["githubCommitRef"; "gitlabCommitRef"; "bitbucketCommitRef"; "branch"; "commitRef"]
    (JStr "");
  sha ← get_first meta
    ["githubCommitSha"; "gitlabCommitSha"; "bitbucketCommitSha"; "commitSha"; "sha"]
    (JStr "");
  message ← get_first meta
    ["githubCommitMessage"; "gitlabCommitMessage"; "bitbucketCommitMessage"; "commitMessage"]
    (JStr "");
  author ← get_first meta
    ["githubCommitAuthorName"; "gitlabCommitAuthorName"; "bitbucketCommitAuthorName";
     "commitAuthorName"]
    (JStr "");
  c ← get raw "creator";
  let creator := if truthy c then c else JObj ∅ in
  author ← (if truthy author then Ok author
            else get_first creator ["name"; "username"; "email"] (JStr ""));
  Ok (py_str branch, py_str sha, py_str message, py_str author).

(** [now] is what [datetime.now(tz=timezone.utc)] reads when the payload
    carries no creation time. *)
Definition _parse_deployment (now : datetime) (raw : json) : result Deployment :=
  dep_id ← get_first raw ["id"; "uid"] (JStr "");
  n ← get raw "name";
  nm ← or_else n
        (p ← get_default raw "project" (JObj ∅);
         pn ← get p "name";
         or_else pn (Ok (JStr "")));
  u ← get_first raw ["url"; "inspectorUrl"] (JStr "");
  created ← get_first raw ["createdAt"; "created_at"] (JInt 0);
  created_at ← (if truthy created
                then ms ← py_int created; fromtimestamp_ms ms
                else Ok now);
  ready_state ← ready_state_of raw;
  let status := status_map_get ready_state in
  '(branch, sha, message, author) ← _extract_git_meta raw;
  tg ← get_first raw ["target"; "environment"] (JStr "");
  Ok {| id := py_str dep_id;
        name := (let s := py_str nm in if String.eqb s "" then "(unknown)" else s);
        url := py_str u;
        status := status;
        created_at := created_at;
        branch := branch;
        commit_sha := sha;
        commit_message := message;
        author := author;
        target := py_str tg |}.
End WithBuiltins.

(** *** [list_deployments] *)

Record request := {
  req_url : string;
  req_limit : Z;
  req_teamId : option string;
}.

Record response := {
  status_code : Z;
  json_body : result json;   (* [res.json()] *)
}.

(** [session.get]: the network, which answers or raises. *)
Definition transport := request → result response.

(** [res.raise_for_status()] *)
Definition raise_for_status (res : response) : result unit :=
  if (400 <=? status_code res) && (status_code res <? 600) then Raise HTTPError else Ok tt.

(** [parsed.sort(key=lambda d: d.created_at, reverse=True)]: a stable sort,
    latest first; entries with equal keys keep their order. *)
Fixpoint insert_desc (d : Deployment) (l : list Deployment) : list Deployment :=
  match l with
  | [] => [d]
  | x :: l' => if created_at x <=? created_at d then d :: x :: l' else x :: insert_desc d l'
  end.

Definition sort_desc (l : list Deployment) : list Deployment :=
  foldr insert_desc [] l.

Section WithBuiltins.
Context `{Builtins}.

(** The list comprehension [[self._parse_deployment(item) for item in ...]];
    [clock i] is the time read while item number [i] is parsed. *)
Fixpoint parse_all (clock : nat → datetime) (i : nat) (items : list json)
    : result (list Deployment) :=
  match items with
  | [] => Ok []
  | item :: rest =>
      d ← _parse_deployment (clock i) item;
      ds ← parse_all clock (S i) rest;
      Ok (d :: ds)
  end.

Definition params (self : VercelClient) (limit : Z) (base : string) : request :=
  {| req_url := base +:+ "/deployments";
     req_limit := Z.max 1 (Z.min limit 50);
     req_teamId := match team_id self with
                   | Some t => if String.eqb t "" then None else Some t
                   | None => None
                   end |}.

(** The [try] block from the status check to the list comprehension: the
    local [parsed]. *)
Definition parsed_of (clock : nat → datetime) (res : response) : result (list Deployment) :=
  if status_code res =? 401 then Raise PermissionError else
  _ ← raise_for_status res;
  body ← json_body res;
  let data := if truthy body then body else JObj ∅ in
  d ← get data "deployments";
  let deployments_raw := if truthy d then d else data in
  items ← py_iter deployments_raw;
  parse_all clock 0 items.

(** The body of the [try] block for one base URL. *)
Definition fetch_from (self : VercelClient) (session : transport) (clock : nat → datetime)
    (limit : Z) (base : string) : result (list Deployment) :=
  res ← session (params self limit base);
  parsed ← parsed_of clock res;
  Ok (slice_to limit (sort_desc parsed)).

(** The [for base in self.base_url_candidates] loop; the first component
    lists the requests sent, in order. *)
Fixpoint try_candidates (self : VercelClient) (session : transport)
    (clock : nat → datetime) (limit : Z) (bases : list string) (last_error : option exn)
    : list request * result (list Deployment) :=
  match bases with
  | [] => ([], match last_error with Some e => Raise e | None => Ok [] end)
  | base :: rest =>
      match fetch_from self session clock limit base with
      | Ok ds => ([params self limit base], Ok ds)
      | Raise e =>
          let '(sent, r) := try_candidates self session clock limit rest (Some e) in
          (params self limit base :: sent, r)
      end
  end.

Definition list_deployments (self : VercelClient) (session : transport)
    (clock : nat → datetime) (limit : Z) : list request * result (list Deployment) :=
  try_candidates self session clock limit (base_url_candidates self) None.
End WithBuiltins.

End Api.
Import Api.

(** ** [config.py] *)

Module Config.

(** [asdict(AppConfig())], in field order. *)
Definition default_items : list (string * json) :=
  [ ("token", JStr "");
    ("team_id", JStr "");
    ("refresh_interval", JInt 30);
    ("max_items", JInt 10);
    ("notify_prod_events", JBool true) ].

Definition defaults : json := JObj (list_to_map default_items).

Definition config_keys : list string := default_items.*1.

(** What the operating system answers to the three file operations of
    [load_config]. *)
Record filesystem := {
  (** [_config_path()]: resolves the home directory and creates the
      configuration directory ([mkdir(parents=True, exist_ok=True)]) *)
  fs_config_path : result unit;
  (** [p.exists()] *)
  fs_exists : result bool;
  (** [p.read_text(encoding="utf-8")] *)
  fs_read_text : result string;
}.

(** [data.setdefault(k, v)], returning the updated [data]. *)
Definition setdefault (data : json) (k : string) (v : json) : result json :=
  match data with
  | JObj m => Ok (JObj (match m !! k with Some _ => m | None => <[k := v]> m end))
  | _ => Raise AttributeError
  end.

(** [for k, v in defaults.items(): data.setdefault(k, v)] *)
Fixpoint fill_defaults (data : json) (items : list (string * json)) : result json :=
  match items with
  | [] => Ok data
  | (k, v) :: rest => d ← setdefault data k v; fill_defaults d rest
  end.

(** [json_loads] is [json.loads]. *)
Definition load_config (json_loads : string → result json) (fs : filesystem) : result json :=
  _ ← fs_config_path fs;
  e ← fs_exists fs;
  if negb e then Ok defaults
  else
    match (txt ← fs_read_text fs; data ← json_loads txt; fill_defaults data default_items) with
    | Ok data => Ok data
    | Raise _ => Ok defaults
    end.

End Config.
Import Config.

(** *** [save_config] *)

Module ConfigWrite.

Section WithBuiltins.
Context `{Builtins}.

(** [asdict(cfg)] for the [AppConfig] that [save_config] builds from [data];
    the keyword arguments are evaluated in order. *)
Definition config_of (data : json) : result json :=
  tok ← get_first data ["token"] (JStr "");
  team ← get_first data ["team_id"] (JStr "");
  ri ← (v ← get data "refresh_interval"; py_int (if truthy v then v else JInt 30));
  mi ← (v ← get data "max_items"; py_int (if truthy v then v else JInt 10));
  npe ← get data "notify_prod_events";
  Ok (JObj (list_to_map
              [ ("token", JStr (py_str tok));
                ("team_id", JStr (py_str team));
                ("refresh_interval", JInt ri);
                ("max_items", JInt mi);
                ("notify_prod_events",
                 JBool match npe with
                       | JNull => true
                       | v => truthy v
                       end) ])).

(** [save_config(data)]: [json_dumps] is [json.dumps(..., ensure_ascii=False,
    indent=2)], [write] what [p.write_text] answers; a failing [os.chmod] is
    ignored.  The result is the file system after the call, in which the file
    exists and holds the text written. *)
Definition save_config (json_dumps : json → string) (data : json) (fs : filesystem)
    (write : result unit) : result filesystem :=
  cfg ← config_of data;
  _ ← fs_config_path fs;
  let txt := json_dumps cfg in
  _ ← write;
  Ok {| fs_config_path := fs_config_path fs;
        fs_exists := Ok true;
        fs_read_text := Ok txt |}.
End WithBuiltins.

End ConfigWrite.
Import ConfigWrite.

(** ** [indicator.py] *)

Module Indicator.

(** Desktop notifications, recorded in the order they are shown. *)
Inductive notification :=
  | OverallStatus (overall : string)     (* "Overall status: ..." *)
  | ProductionEvent (d : Deployment)     (* [_send_prod_notification] *)
  | FetchFailed (e : exn).               (* "Failed to fetch deployments: ..." *)

(** Calls queued with [GLib.idle_add]. *)
Inductive idle_callback :=
  | CallApplyUpdate (deployments : list Deployment)
  | CallSetIcon (st : string)
  | CallOpenPreferences.

(** The attributes of [VercelIndicator] that the refresh logic reads and
    writes, together with the part of the process they interact with: the
    GLib timeout sources registered by the indicator, the worker threads that
    are still fetching, the idle queue and the notifications shown.  Menus,
    dialogs and the icon are widgets only and carry no state here. *)
Record state := {
  _refresh_timer_id : option nat;
  _refresh_in_progress : bool;
  _last_overall_status : option string;
  _prod_seen : gmap string string;
  _prod_seen_bootstrapped : bool;
  refresh_interval : Z;
  max_items : Z;
  client : VercelClient;
  notify_prod_events : bool;
  timers : gmap nat Z;          (* active timeout sources: id, interval in seconds *)
  next_source : nat;            (* the id GLib hands out next *)
  workers : nat;                (* threads running [worker] that have not finished *)
  idle : list idle_callback;
  shown : list notification;
}.

Definition set_refresh_timer_id v s :=
  {| _refresh_timer_id := v; _refresh_in_progress := _refresh_in_progress s;
     _last_overall_status := _last_overall_status s; _prod_seen := _prod_seen s;
     _prod_seen_bootstrapped := _prod_seen_bootstrapped s;
     refresh_interval := refresh_interval s; max_items := max_items s; client := client s;
     notify_prod_events := notify_prod_events s; timers := timers s;
     next_source := next_source s; workers := workers s; idle := idle s; shown := shown s |}.

Definition set_refresh_in_progress v s :=
  {| _refresh_timer_id := _refresh_timer_id s; _refresh_in_progress := v;
     _last_overall_status := _last_overall_status s; _prod_seen := _prod_seen s;
     _prod_seen_bootstrapped := _prod_seen_bootstrapped s;
     refresh_interval := refresh_interval s; max_items := max_items s; client := client s;
     notify_prod_events := notify_prod_events s; timers := timers s;
     next_source := next_source s; workers := workers s; idle := idle s; shown := shown s |}.

Definition set_last_overall_status v s :=
  {| _refresh_timer_id := _refresh_timer_id s; _refresh_in_progress := _refresh_in_progress s;
     _last_overall_status := v; _prod_seen := _prod_seen s;
     _prod_seen_bootstrapped := _prod_seen_bootstrapped s;
     refresh_interval := refresh_interval s; max_items := max_items s; client := client s;
     notify_prod_events := notify_prod_events s; timers := timers s;
     next_source := next_source s; workers := workers s; idle := idle s; shown := shown s |}.

Definition set_prod_seen v s :=
  {| _refresh_timer_id := _refresh_timer_id s; _refresh_in_progress := _refresh_in_progress s;
     _last_overall_status := _last_overall_status s; _prod_seen := v;
     _prod_seen_bootstrapped := _prod_seen_bootstrapped s;
     refresh_interval := refresh_interval s; max_items := max_items s; client := client s;
     notify_prod_events := notify_prod_events s; timers := timers s;
     next_source := next_source s; workers := workers s; idle := idle s; shown := shown s |}.

Definition set_prod_seen_bootstrapped v s :=
  {| _refresh_timer_id := _refresh_timer_id s; _refresh_in_progress := _refresh_in_progress s;
     _last_overall_status := _last_overall_status s; _prod_seen := _prod_seen s;
     _prod_seen_bootstrapped := v;
     refresh_interval := refresh_interval s; max_items := max_items s; client := client s;
     notify_prod_events := notify_prod_events s; timers := timers s;
     next_source := next_source s; workers := workers s; idle := idle s; shown := shown s |}.

Definition set_refresh_interval v s :=
  {| _refresh_timer_id := _refresh_timer_id s; _refresh_in_progress := _refresh_in_progress s;
     _last_overall_status := _last_overall_status s; _prod_seen := _prod_seen s;
     _prod_seen_bootstrapped := _prod_seen_bootstrapped s;
     refresh_interval := v; max_items := max_items s; client := client s;
     notify_prod_events := notify_prod_events s; timers := timers s;
     next_source := next_source s; workers := workers s; idle := idle s; shown := shown s |}.

Definition set_max_items v s :=
  {| _refresh_timer_id := _refresh_timer_id s; _refresh_in_progress := _refresh_in_progress s;
     _last_overall_status := _last_overall_status s; _prod_seen := _prod_seen s;
     _prod_seen_bootstrapped := _prod_seen_bootstrapped s;
     refresh_interval := refresh_interval s; max_items := v; client := client s;
     notify_prod_events := notify_prod_events s; timers := timers s;
     next_source := next_source s; workers := workers s; idle := idle s; shown := shown s |}.

Definition set_client v s :=
  {| _refresh_timer_id := _refresh_timer_id s; _refresh_in_progress := _refresh_in_progress s;
     _last_overall_status := _last_overall_status s; _prod_seen := _prod_seen s;
     _prod_seen_bootstrapped := _prod_seen_bootstrapped s;
     refresh_interval := refresh_interval s; max_items := max_items s; client := v;
     notify_prod_events := notify_prod_events s; timers := timers s;
     next_source := next_source s; workers := workers s; idle := idle s; shown := shown s |}.

Definition set_notify_prod_events v s :=
  {| _refresh_timer_id := _refresh_timer_id s; _refresh_in_progress := _refresh_in_progress s;
     _last_overall_status := _last_overall_status s; _prod_seen := _prod_seen s;
     _prod_seen_bootstrapped := _prod_seen_bootstrapped s;
     refresh_interval := refresh_interval s; max_items := max_items s; client := client s;
     notify_prod_events := v; timers := timers s;
     next_source := next_source s; workers := workers s; idle := idle s; shown := shown s |}.

Definition set_timers v n s :=
  {| _refresh_timer_id := _refresh_timer_id s; _refresh_in_progress := _refresh_in_progress s;
     _last_overall_status := _last_overall_status s; _prod_seen := _prod_seen s;
     _prod_seen_bootstrapped := _prod_seen_bootstrapped s;
     refresh_interval := refresh_interval s; max_items := max_items s; client := client s;
     notify_prod_events := notify_prod_events s; timers := v;
     next_source := n; workers := workers s; idle := idle s; shown := shown s |}.

Definition set_workers v s :=
  {| _refresh_timer_id := _refresh_timer_id s; _refresh_in_progress := _refresh_in_progress s;
     _last_overall_status := _last_overall_status s; _prod_seen := _prod_seen s;
     _prod_seen_bootstrapped := _prod_seen_bootstrapped s;
     refresh_interval := refresh_interval s; max_items := max_items s; client := client s;
     notify_prod_events := notify_prod_events s; timers := timers s;
     next_source := next_source s; workers := v; idle := idle s; shown := shown s |}.

Definition set_idle v s :=
  {| _refresh_timer_id := _refresh_timer_id s; _refresh_in_progress := _refresh_in_progress s;
     _last_overall_status := _last_overall_status s; _prod_seen := _prod_seen s;
     _prod_seen_bootstrapped := _prod_seen_bootstrapped s;
     refresh_interval := refresh_interval s; max_items := max_items s; client := client s;
     notify_prod_events := notify_prod_events s; timers := timers s;
     next_source := next_source s; workers := workers s; idle := v; shown := shown s |}.

Definition set_shown v s :=
  {| _refresh_timer_id := _refresh_timer_id s; _refresh_in_progress := _refresh_in_progress s;
     _last_overall_status := _last_overall_status s; _prod_seen := _prod_seen s;
     _prod_seen_bootstrapped := _prod_seen_bootstrapped s;
     refresh_interval := refresh_interval s; max_items := max_items s; client := client s;
     notify_prod_events := notify_prod_events s; timers := timers s;
     next_source := next_source s; workers := workers s; idle := idle s; shown := v |}.

(** Methods run on the state and may raise; what they changed before raising
    stays changed. *)
Definition action (A : Type) : Type := state → state * result A.

#[global] Instance action_ret : MRet action := fun A a s => (s, Ok a).
#[global] Instance action_bind : MBind action := fun A B f m s =>
  match m s with
  | (s', Ok a) => f a s'
  | (s', Raise e) => (s', Raise e)
  end.

Definition read : action state := fun s => (s, Ok s).
Definition modify (f : state → state) : action unit := fun s => (f s, Ok tt).
Definition lift {A} (r : result A) : action A := fun s => (s, r).
Definition exec {A} (m : action A) (s : state) : state := (m s).1.

Fixpoint for_each {A} (l : list A) (body : A → action unit) : action unit :=
  match l with
  | [] => mret tt
  | x :: rest => body x ;; for_each rest body
  end.

(** *** GLib and libnotify *)

(** [GLib.timeout_add_seconds(interval, callback)]: the interval is a C
    [guint]; a value outside its range is refused. *)
Definition timeout_add_seconds (interval : Z) : action nat := fun s =>
  if (0 <=? interval) && (interval <? 2 ^ 32)
  then (set_timers (<[next_source s := interval]> (timers s)) (S (next_source s)) s,
        Ok (next_source s))
  else (s, Raise OverflowError).

(** [GLib.source_remove(i)] *)
Definition source_remove (i : nat) : action unit :=
  modify (λ s, set_timers (delete i (timers s)) (next_source s) s).

(** [GLib.idle_add(callback, ...)] *)
Definition idle_add (cb : idle_callback) : action unit :=
  modify (λ s, set_idle (idle s ++ [cb]) s).

(** [Notify.Notification.new("Vercel", ..., None).show()]; like the other
    calls into the desktop (GTK, the browser) it is taken to return. *)
Definition show (n : notification) : action unit :=
  modify (λ s, set_shown (shown s ++ [n]) s).

(** [threading.Thread(target=worker, daemon=True).start()] *)
Definition start_worker : action unit :=
  modify (λ s, set_workers (S (workers s)) s).

(** *** Methods of [VercelIndicator] *)

Definition _overall_status (deployments : list Deployment) : string :=
  if existsb (λ d, String.eqb (status d) "building") deployments then "building"
  else if existsb (λ d, String.eqb (status d) "error") deployments then "error"
  else "ready".

Definition _spawn_refresh_thread : action unit :=
  s ← read;
  if _refresh_in_progress s then mret tt
  else
    modify (set_refresh_in_progress true) ;;
    start_worker.

Definition _refresh_timeout_cb : action bool :=
  _spawn_refresh_thread ;;
  mret true.

Definition _schedule_refresh (immediate : bool) : action unit :=
  s ← read;
  match _refresh_timer_id s with
  | Some i => source_remove i ;; modify (set_refresh_timer_id None)
  | None => mret tt
  end ;;
  (if immediate then _spawn_refresh_thread else mret tt) ;;
  s ← read;
  i ← timeout_add_seconds (refresh_interval s);
  modify (set_refresh_timer_id (Some i)).

Definition _manual_refresh : action unit :=
  _schedule_refresh true.

Section WithBuiltins.
Context `{Builtins}.

(** [_humanize_time]: the time of a deployment as the menu and the
    notifications word it. *)
Definition _humanize_time (dt_utc : datetime) : result string :=
  local ← astimezone dt_utc;
  the_day ← local_day dt_utc;
  if String.eqb the_day today then
    t ← astimezone dt_utc; Ok ("today at " +:+ strftime t "%H:%M")
  else if String.eqb the_day yesterday then
    t ← astimezone dt_utc; Ok ("yesterday at " +:+ strftime t "%H:%M")
  else
    t ← astimezone dt_utc; Ok (strftime t "%b %d, %H:%M").

(** [_rebuild_dynamic_items]: the menu is rebuilt with one item for each of
    [deployments[: self.max_items]].  The widgets carry no state here and the
    calls into GTK are taken to return; what is left of an item is the
    computation of its time label. *)
Definition _rebuild_dynamic_items (deployments : list Deployment) : action unit :=
  s ← read;
  for_each (slice_to (max_items s) deployments) (λ dep,
    when ← lift (_humanize_time (created_at dep));
    mret tt).

(** [msg] of [_send_prod_notification] before it is shortened:
    [(d.commit_message or "").strip().splitlines()[0] if d.commit_message else ""] *)
Definition message_line (d : Deployment) : result string :=
  if String.eqb (commit_message d) "" then Ok ""
  else match splitlines (strip (commit_message d)) with
       | [] => Raise IndexError
       | line :: _ => Ok line
       end.

(** [_send_prod_notification]: the time label and the message line are
    computed before the [try] block is entered.  The text is put together
    from them and from fields of [d] by operations that return; the
    notification shown is recorded as [ProductionEvent d]. *)
Definition _send_prod_notification (d : Deployment) : action unit :=
  when ← lift (_humanize_time (created_at d));
  msg ← lift (message_line d);
  show (ProductionEvent d).

Definition is_production (d : Deployment) : bool :=
  String.eqb (lower (target d)) "production".

Definition _notify_production_events (deployments : list Deployment) : action unit :=
  let production := filter (λ d, is_production d = true) deployments in
  s ← read;
  if negb (_prod_seen_bootstrapped s) then
    for_each production (λ d,
      modify (λ s, set_prod_seen (<[id d := status d]> (_prod_seen s)) s)) ;;
    modify (set_prod_seen_bootstrapped true)
  else
    for_each production (λ d,
      s ← read;
      let previous := _prod_seen s !! id d in
      if match previous with
         | None => true
         | Some p => negb (String.eqb p (status d))
         end
      then
        _send_prod_notification d ;;
        modify (λ s, set_prod_seen (<[id d := status d]> (_prod_seen s)) s)
      else mret tt).

Definition _apply_update (deployments : list Deployment) : action unit :=
  modify (set_refresh_in_progress false) ;;
  _rebuild_dynamic_items deployments ;;
  let overall :=
    match deployments with
    | [] => "error"
    | _ => _overall_status deployments
    end in
  s ← read;
  (if match _last_overall_status s with
      | None => false
      | Some l => negb (String.eqb overall l)
      end
   then show (OverallStatus overall)
   else mret tt) ;;
  modify (set_last_overall_status (Some overall)) ;;
  s ← read;
  if notify_prod_events s then _notify_production_events deployments else mret tt.

(** The thread body [worker], from the moment [list_deployments] has answered
    with [r]. *)
Definition worker (r : result (list Deployment)) : action unit :=
  deployments ← (match r with
                 | Ok ds => mret ds
                 | Raise e =>
                     idle_add (CallSetIcon "error") ;;
                     show (FetchFailed e) ;;
                     mret []
                 end);
  idle_add (CallApplyUpdate deployments).

(** [cfg] is what [load_config()] returned or raised. *)
Definition _reconfigure (cfg : result json) : action unit :=
  cfg ← lift cfg;
  ri ← lift (v ← get cfg "refresh_interval"; py_int (if truthy v then v else JInt 30));
  modify (set_refresh_interval ri) ;;
  mi ← lift (v ← get cfg "max_items"; py_int (if truthy v then v else JInt 10));
  modify (set_max_items mi) ;;
  tok ← lift (get_first cfg ["token"] (JStr ""));
  team ← lift (get_first cfg ["team_id"] (JStr ""));
  let team_id := py_str team in
  modify (set_client
            (new_client (py_str tok) (if String.eqb team_id "" then None else Some team_id))) ;;
  val ← lift (get cfg "notify_prod_events");
  modify (set_notify_prod_events
            match val with
            | JNull => true
            | v => truthy v
            end).

Definition _on_prefs_saved (cfg : result json) : action unit :=
  _reconfigure cfg ;;
  _schedule_refresh true.

(** The attributes assigned at the top of [__init__], before
    [_reconfigure] gives the configured ones their values. *)
Definition blank : state :=
  {| _refresh_timer_id := None; _refresh_in_progress := false;
     _last_overall_status := None; _prod_seen := ∅;
     _prod_seen_bootstrapped := false;
     refresh_interval := 0; max_items := 0; client := new_client "" None;
     notify_prod_events := true; timers := ∅;
     next_source := 1; workers := 0; idle := []; shown := [] |}.

(** [VercelIndicator.__init__]; [cfg1] and [cfg2] are the results of its two
    calls of [load_config()]. *)
Definition __init__ (cfg1 cfg2 : result json) : action unit :=
  _reconfigure cfg1 ;;
  cfg ← lift cfg2;
  tok ← lift (v ← get_first cfg ["token"] (JStr ""); py_strip v);
  if String.eqb tok "" then idle_add CallOpenPreferences
  else _schedule_refresh true.

(** *** The main loop *)

Inductive event :=
  | ManualRefresh                                 (* "Refresh now" activated *)
  | PrefsSaved (cfg : result json)                (* the dialog's [on_save] *)
  | TimerFires (i : nat)                          (* GLib dispatches source [i] *)
  | WorkerDone (r : result (list Deployment))     (* a worker thread runs to its end *)
  | IdleRuns (k : nat).                           (* GLib dispatches a queued call *)

Definition run_idle (cb : idle_callback) : action unit :=
  match cb with
  | CallApplyUpdate deployments => _apply_update deployments
  | CallSetIcon _ => mret tt
  | CallOpenPreferences => mret tt
  end.

(** One turn of the process; [None] when the event cannot happen in [s].  An
    exception escaping a callback is reported by the main loop, which goes
    on. *)
Definition step (e : event) (s : state) : option state :=
  match e with
  | ManualRefresh => Some (exec _manual_refresh s)
  | PrefsSaved cfg => Some (exec (_on_prefs_saved cfg) s)
  | TimerFires i =>
      match timers s !! i with
      | Some _ => Some (exec _refresh_timeout_cb s)
      | None => None
      end
  | WorkerDone r =>
      match workers s with
      | S n => Some (exec (worker r) (set_workers n s))
      | O => None
      end
  | IdleRuns k =>
      match idle s !! k with
      | Some cb => Some (exec (run_idle cb) (set_idle (delete k (idle s)) s))
      | None => None
      end
  end.

Fixpoint run (es : list event) (s : state) : option state :=
  match es with
  | [] => Some s
  | e :: rest =>
      match step e s with
      | Some s' => run rest s'
      | None => None
      end
  end.

(** The state in which the main loop starts, when the constructor returns. *)
Definition start (cfg1 cfg2 : result json) : option state :=
  match __init__ cfg1 cfg2 blank with
  | (s, Ok _) => Some s
  | (_, Raise _) => None
  end.

(** The states the running indicator can be in. *)
Definition reachable (s : state) : Prop :=
  ∃ cfg1 cfg2 s0 es, start cfg1 cfg2 = Some s0 ∧ run es s0 = Some s.
End WithBuiltins.

(** Fetches that were started and whose update has not been applied yet:
    running workers, and updates waiting in the idle queue. *)
Definition is_update (cb : idle_callback) : bool :=
  match cb with CallApplyUpdate _ => true | _ => false end.

Definition outstanding (s : state) : nat :=
  (workers s + length (filter (λ cb, is_update cb = true) (idle s)))%nat.

End Indicator.
Import Indicator.

(** ** Concrete builtins and payloads

    The theorems below hold for every [Builtins]; this instance, which agrees
    with Python on the values used here, serves to evaluate the model on
    concrete payloads. *)

Module Samples.

Definition is_space (c : ascii) : bool :=
  let n := nat_of_ascii c in
  ((9 <=? n)%nat && (n <=? 13)%nat) || ((28 <=? n)%nat && (n <=? 32)%nat).

Fixpoint lstrip (s : string) : string :=
  match s with
  | String c s' => if is_space c then lstrip s' else s
  | EmptyString => EmptyString
  end.

Definition sample_strip (s : string) : string :=
  String.rev (lstrip (String.rev (lstrip s))).

(** [str.splitlines] on ASCII text: the line breaks are LF, VT, FF, CR,
    CR LF, FS, GS and RS, and a text that ends in one has no empty line
    after it. *)
Definition is_line_break (c : ascii) : bool :=
  let n := nat_of_ascii c in
  ((10 <=? n)%nat && (n <=? 13)%nat) || ((28 <=? n)%nat && (n <=? 30)%nat).

Fixpoint sample_lines (after_cr : bool) (line s : string) : list string :=
  match s with
  | EmptyString => if String.eqb line "" then [] else [line]
  | String c s' =>
      if after_cr && Ascii.eqb c "010" then sample_lines false line s'
      else if is_line_break c then line :: sample_lines (Ascii.eqb c "013") "" s'
      else sample_lines false (line +:+ String c "") s'
  end.

(** A local zone one hour east of UTC, and a clock that reads the evening of
    2023-11-15 there.  Year, month and day of a day number counted from
    1970-01-01, in the proleptic Gregorian calendar: *)
Definition civil_from_days (z : Z) : Z * Z * Z :=
  let z := z + 719468 in
  let era := z / 146097 in
  let doe := z - era * 146097 in
  let yoe := (doe - doe / 1460 + doe / 36524 - doe / 146096) / 365 in
  let doy := doe - (365 * yoe + yoe / 4 - yoe / 100) in
  let mp := (5 * doy + 2) / 153 in
  let m := if mp <? 10 then mp + 3 else mp - 9 in
  (if m <=? 2 then yoe + era * 400 + 1 else yoe + era * 400, m, doy - (153 * mp + 2) / 5 + 1).

Definition local_seconds (t : datetime) : Z := t / 1000000 + 3600.

Definition two_digits (n : Z) : string :=
  if n <? 10 then "0" +:+ pretty n else pretty n.

Definition month_names : list string :=
  ["Jan"; "Feb"; "Mar"; "Apr"; "May"; "Jun"; "Jul"; "Aug"; "Sep"; "Oct"; "Nov"; "Dec"].

Definition sample_astimezone (t : datetime) : result datetime :=
  if (-62135596800 <=? local_seconds t) && (local_seconds t <=? 253402300799)
  then Ok t else Raise OverflowError.

Definition sample_strftime (t : datetime) (fmt : string) : string :=
  let '(_, m, d) := civil_from_days (local_seconds t / 86400) in
  let clock := two_digits (local_seconds t `mod` 86400 / 3600) +:+ ":"
               +:+ two_digits (local_seconds t `mod` 3600 / 60) in
  if String.eqb fmt "%H:%M" then clock
  else if String.eqb fmt "%b %d, %H:%M"
  then default "" (month_names !! Z.to_nat (m - 1)) +:+ " " +:+ two_digits d +:+ ", " +:+ clock
  else fmt.

Definition sample_local_day (t : datetime) : result string :=
  let '(y, m, d) := civil_from_days (local_seconds t / 86400) in
  if (1 <=? y) && (y <=? 9999)
  then Ok (pretty y +:+ "-" +:+ two_digits m +:+ "-" +:+ two_digits d)
  else Raise AttributeError.

Definition sample_builtins : Builtins :=
  {| str_other v :=
       match v with
       | JNull => "None"
       | JBool true => "True"
       | JBool false => "False"
       | JInt n => pretty n
       | _ => ""
       end;
     int_other _ := Raise ValueError;
     fromtimestamp_ms n :=
       if (0 <=? n) && (n <? 253402300800000) then Ok (n * 1000) else Raise OverflowError;
     strip := sample_strip;
     splitlines := sample_lines false "";
     astimezone := sample_astimezone;
     strftime := sample_strftime;
     local_day := sample_local_day;
     today := "2023-11-15";
     yesterday := "2023-11-14" |}.

Definition obj (items : list (string * json)) : json := JObj (list_to_map items).

(** A deployment as the v13 endpoint lists it. *)
Definition fields_ready : gmap string json :=
  list_to_map
    [ ("uid", JStr "dpl_1"); ("name", JStr "site"); ("url", JStr "site.vercel.app");
      ("createdAt", JInt 1700000000000); ("readyState", JStr "READY");
      ("target", JStr "production");
      ("meta", obj [ ("githubCommitRef", JStr "");
                     ("gitlabCommitRef", JStr "main");
                     ("githubCommitSha", JStr "0123456789abcdef");
                     ("commitMessage", JStr "fix") ]);
      ("creator", obj [ ("username", JStr "dani"); ("email", JStr "dani@example.org") ]) ].

Definition fields_queued : gmap string json :=
  list_to_map
    [ ("uid", JStr "dpl_2"); ("name", JStr "site"); ("createdAt", JInt 1700000100000);
      ("state", JStr "Queued") ].

(** A payload whose [readyState] is a number. *)
Definition fields_numeric_state : gmap string json :=
  list_to_map [ ("uid", JStr "dpl_3"); ("name", JStr "site"); ("readyState", JInt 5) ].

(** A payload whose [meta] is a string. *)
Definition fields_text_meta : gmap string json :=
  list_to_map [ ("uid", JStr "dpl_4"); ("readyState", JStr "READY"); ("meta", JStr "main") ].

(** The outcome of [_parse_deployment] on [raw] whatever the builtins and the
    clock are. *)
Definition parse_raises (raw : json) (e : exn) : Prop :=
  ∀ (B : Builtins) (now : datetime), _parse_deployment now raw = Raise e.

Definition extract_raises (raw : json) (e : exn) : Prop :=
  ∀ (B : Builtins), _extract_git_meta raw = Raise e.

End Samples.
Import Samples.

(** ** Vocabulary of the statements *)

(** The value that [a.get(k1) or ... or dflt] picks, described without
    reference to the evaluation: the value under the first key of [keys] whose
    value is truthy, or [dflt] when there is none. *)
Definition value_of (m : gmap string json) (k : string) : json := default JNull (m !! k).

Inductive picks (m : gmap string json) (dflt : json) : list string → json → Prop :=
  | picks_default : picks m dflt [] dflt
  | picks_here k ks : truthy (value_of m k) = true → picks m dflt (k :: ks) (value_of m k)
  | picks_later k ks v :
      truthy (value_of m k) = false → picks m dflt ks v → picks m dflt (k :: ks) v.

(** The four values of [Deployment.status] and the keys of [status_map]. *)
Definition statuses : list string := ["ready"; "building"; "error"; "unknown"].

Definition status_keys : list string :=
  ["ready"; "building"; "queued"; "initializing"; "error"; "failed"; "canceled"; "cancelled"].

(** A field that is absent, [null] or a string / an object. *)
Definition str_or_none (o : option json) : Prop :=
  match o with
  | None | Some JNull | Some (JStr _) => True
  | _ => False
  end.

Definition obj_or_none (o : option json) : Prop :=
  match o with
  | None | Some JNull | Some (JObj _) => True
  | _ => False
  end.

(** A deployment object typed as the API documents it, as far as
    [_parse_deployment] depends on the types: the two state fields are
    strings, [project], [meta] and [creator] are objects, and the creation
    time is an integer that [datetime.fromtimestamp] accepts. *)
Record well_typed `{Builtins} (raw : gmap string json) : Prop := {
  wt_readyState : str_or_none (raw !! "readyState");
  wt_state : str_or_none (raw !! "state");
  wt_project : match raw !! "project" with
               | None | Some (JObj _) => True
               | _ => False
               end;
  wt_created : ∀ k, k ∈ ["createdAt"; "created_at"] →
               match raw !! k with
               | None | Some JNull => True
               | Some (JInt n) => is_ok (fromtimestamp_ms n) = true
               | _ => False
               end;
  wt_meta : obj_or_none (raw !! "meta");
  wt_creator : obj_or_none (raw !! "creator");
}.

(** The object stored under [k], or the empty object when the field is
    absent, [null] or not an object ([raw.get(k) or {}]). *)
Definition dict_or_empty (raw : gmap string json) (k : string) : gmap string json :=
  match raw !! k with
  | Some (JObj m) => m
  | _ => ∅
  end.

(** The priority orders of [_extract_git_meta]: GitHub, GitLab, Bitbucket,
    then the provider-independent keys. *)
Definition branch_keys : list string :=
  ["githubCommitRef"; "gitlabCommitRef"; "bitbucketCommitRef"; "branch"; "commitRef"].
Definition sha_keys : list string :=
  ["githubCommitSha"; "gitlabCommitSha"; "bitbucketCommitSha"; "commitSha"; "sha"].
Definition message_keys : list string :=
  ["githubCommitMessage"; "gitlabCommitMessage"; "bitbucketCommitMessage"; "commitMessage"].
Definition author_keys : list string :=
  ["githubCommitAuthorName"; "gitlabCommitAuthorName"; "bitbucketCommitAuthorName";
   "commitAuthorName"].
Definition creator_keys : list string := ["name"; "username"; "email"].

(** Latest first. *)
Definition descending (l : list Deployment) : Prop :=
  StronglySorted (λ a b, created_at b ≤ created_at a) l.

(** A server that lists the two sample deployments under the v13 endpoint. *)
Definition sample_session : transport := λ q,
  if String.eqb (req_url q) "https://api.vercel.com/v13/deployments"
  then Ok {| status_code := 200;
             json_body := Ok (obj [ ("deployments",
                                     JList [JObj fields_ready; JObj fields_queued]) ]) |}
  else Raise ConnectionError.

(** [json.loads(p.read_text(encoding="utf-8"))] *)
Definition parsed_file (json_loads : string → result json) (fs : filesystem) : result json :=
  txt ← fs_read_text fs; json_loads txt.

Definition default_map : gmap string json := list_to_map default_items.

(** The outcome of [load_config] whatever [json.loads] does. *)
Definition load_config_raises (fs : filesystem) (e : exn) : Prop :=
  ∀ json_loads, load_config json_loads fs = Raise e.

(** A home directory in which the configuration directory cannot be
    created. *)
Definition fs_read_only : filesystem :=
  {| fs_config_path := Raise PermissionError;
     fs_exists := Ok false;
     fs_read_text := Raise OSError |}.

(** A configuration file holding the empty object, and a parser for it. *)
Definition fs_empty_object : filesystem :=
  {| fs_config_path := Ok tt; fs_exists := Ok true; fs_read_text := Ok "{}" |}.

Definition sample_loads (txt : string) : result json :=
  if String.eqb txt "{}" then Ok (JObj ∅)
  else if String.eqb txt "[]" then Ok (JList [])
  else Raise ValueError.

(** The deployments of a poll whose target is production. *)
Definition production_of (deployments : list Deployment) : list Deployment :=
  filter (λ d, is_production d = true) deployments.

(** The statuses last seen, after each deployment of [l] has been recorded in
    turn under its id. *)
Definition record_all (l : list Deployment) (seen : gmap string string) : gmap string string :=
  foldl (λ m d, <[id d := status d]> m) seen l.

(** [d] is new to [seen], or its status differs from the one seen. *)
Definition changed (seen : gmap string string) (d : Deployment) : Prop :=
  seen !! id d ≠ Some (status d).

#[global] Instance changed_dec seen d : Decision (changed seen d).
Proof. unfold changed. apply _. Defined.

(** The deployments of [l] that are [changed] when their turn comes, that is
    with respect to [seen] updated by the deployments before them. *)
Fixpoint events_from (seen : gmap string string) (l : list Deployment) : list Deployment :=
  match l with
  | [] => []
  | d :: rest =>
      (if decide (changed seen d) then [d] else [])
      ++ events_from (<[id d := status d]> seen) rest
  end.

(** The overall status [_apply_update] computes. *)
Definition overall_of (deployments : list Deployment) : string :=
  if decide (deployments = []) then "error" else _overall_status deployments.

(** The condition under which [_apply_update] announces the overall status. *)
Definition overall_changed (last : option string) (overall : string) : Prop :=
  last ≠ None ∧ last ≠ Some overall.

#[global] Instance overall_changed_dec last overall : Decision (overall_changed last overall).
Proof. unfold overall_changed. apply _. Defined.

(** One iteration of the loop of [_notify_production_events] after the
    bootstrap, as a function on the state, for a deployment whose
    notification can be shown. *)
Definition notify_step (d : Deployment) (s : state) : state :=
  if decide (changed (_prod_seen s) d)
  then set_prod_seen (<[id d := status d]> (_prod_seen s))
         (set_shown (shown s ++ [ProductionEvent d]) s)
  else s.

(** The deployments the menu lists. *)
Definition listed (s : state) (deployments : list Deployment) : list Deployment :=
  slice_to (max_items s) deployments.

(** [_humanize_time] on the creation time of each deployment in turn. *)
Fixpoint humanize_all `{Builtins} (l : list Deployment) : result unit :=
  match l with
  | [] => Ok tt
  | d :: rest => _ ← _humanize_time (created_at d); humanize_all rest
  end.

(** What [_send_prod_notification] computes before it shows anything. *)
Definition composed `{Builtins} (d : Deployment) : result unit :=
  _ ← _humanize_time (created_at d); _ ← message_line d; Ok tt.

(** The text of the production notification for [d] can be put together:
    the creation time can be worded, and the commit message is empty or has
    a line. *)
Definition composes `{Builtins} (d : Deployment) : Prop := composed d = Ok tt.

(** The loop of [_notify_production_events] after the bootstrap, on what was
    seen: the deployments notified, the statuses seen afterwards, and how the
    loop ends.  It ends at the first deployment that is due a notification
    whose text cannot be put together. *)
Fixpoint notify_loop `{Builtins} (seen : gmap string string) (l : list Deployment)
    : list Deployment * gmap string string * result unit :=
  match l with
  | [] => ([], seen, Ok tt)
  | d :: rest =>
      if decide (changed seen d) then
        match composed d with
        | Ok _ =>
            let '(events, seen', r) := notify_loop (<[id d := status d]> seen) rest in
            (d :: events, seen', r)
        | Raise e => ([], seen, Raise e)
        end
      else notify_loop seen rest
  end.

(** The production part of [_apply_update]: the deployments notified, the
    statuses seen afterwards, and how it ends. *)
Definition production_outcome `{Builtins} (s : state) (deployments : list Deployment)
    : list Deployment * gmap string string * result unit :=
  if notify_prod_events s then
    if _prod_seen_bootstrapped s
    then notify_loop (_prod_seen s) (production_of deployments)
    else ([], record_all (production_of deployments) (_prod_seen s), Ok tt)
  else ([], _prod_seen s, Ok tt).

(** Deployments as [_parse_deployment] builds them, for the examples. *)
Definition dep (i st tg : string) : Deployment :=
  {| id := i; name := "site"; url := ""; status := st; created_at := 0;
     branch := ""; commit_sha := ""; commit_message := ""; author := ""; target := tg |}.

(** A production deployment in error, created in the last second of
    [datetime]'s range (9999-12-31 23:59:59 UTC), and one whose commit
    message is a single space. *)
Definition far_dated : Deployment :=
  {| id := "far"; name := "site"; url := ""; status := "error";
     created_at := 253402300799000000;
     branch := ""; commit_sha := ""; commit_message := ""; author := "";
     target := "production" |}.

Definition blank_message : Deployment :=
  {| id := "blank"; name := "site"; url := ""; status := "error"; created_at := 0;
     branch := ""; commit_sha := ""; commit_message := " "; author := "";
     target := "production" |}.

(** The indicator right after its attributes were initialised. *)
Definition fresh : state := @blank sample_builtins.

(** The indicator after a first poll that saw nothing. *)
Definition polled : state :=
  set_prod_seen_bootstrapped true (set_last_overall_status (Some "ready") fresh).

(** The same with the default number of menu items. *)
Definition configured : state := set_max_items 10 polled.

(** At most one fetch is outstanding, and none while the flag is clear. *)
Definition fetch_inv (s : state) : Prop :=
  (outstanding s ≤ 1)%nat ∧ (_refresh_in_progress s = false → outstanding s = 0%nat).

(** The only active timeout source is the one [_refresh_timer_id] names, and
    GLib has handed out its id already. *)
Definition timer_inv (s : state) : Prop :=
  match _refresh_timer_id s with
  | Some i => (∃ n, timers s = {[ i := n ]}) ∧ (i < next_source s)%nat
  | None => timers s = ∅
  end.

(** [s'] differs from [s] at most in the configured attributes and in what
    was seen and shown. *)
Definition same_loop (s s' : state) : Prop :=
  timers s' = timers s ∧ _refresh_timer_id s' = _refresh_timer_id s ∧
  next_source s' = next_source s ∧ workers s' = workers s ∧ idle s' = idle s ∧
  _refresh_in_progress s' = _refresh_in_progress s.

(** The intervals [GLib.timeout_add_seconds] accepts. *)
Definition valid_interval (n : Z) : Prop := 0 ≤ n < 2 ^ 32.

(** A configuration with a token, and a run of the indicator started from
    it: the timer fires, the fetch completes, its update is applied, and the
    user asks for a refresh. *)
Definition cfg_with_token : json :=
  obj [ ("token", JStr "tok"); ("team_id", JStr ""); ("refresh_interval", JInt 30);
        ("max_items", JInt 10); ("notify_prod_events", JBool true) ].

Definition sample_events : list event :=
  [ TimerFires 1; WorkerDone (Ok [dep "a" "ready" "production"]); IdleRuns 0; ManualRefresh ].

Definition sample_start : state :=
  default fresh (@start sample_builtins (Ok cfg_with_token) (Ok cfg_with_token)).

Definition sample_state : state :=
  default fresh (@run sample_builtins sample_events sample_start).

(** The indicator after preferences with a negative interval were saved. *)
Definition refused_interval : state :=
  default fresh
    (@run sample_builtins
       [PrefsSaved (Ok (obj [("token", JStr "tok"); ("refresh_interval", JInt (-5))]))]
       sample_start).

(** ** Vocabulary of the further properties *)

(** A deployment created at time [t]. *)
Definition dep_at (i : string) (t : datetime) : Deployment :=
  {| id := i; name := "site"; url := ""; status := "ready"; created_at := t;
     branch := ""; commit_sha := ""; commit_message := ""; author := ""; target := "" |}.

(** A server whose v13 endpoint is gone and whose v6 endpoint lists one
    deployment. *)
Definition legacy_session : transport := λ q,
  if String.eqb (req_url q) "https://api.vercel.com/v6/deployments"
  then Ok {| status_code := 200;
             json_body := Ok (obj [ ("deployments", JList [JObj fields_queued]) ]) |}
  else Ok {| status_code := 404; json_body := Raise ValueError |}.

(** A server that rejects the token on v13 and cannot be reached on v6. *)
Definition rejecting_session : transport := λ q,
  if String.eqb (req_url q) "https://api.vercel.com/v13/deployments"
  then Ok {| status_code := 401; json_body := Ok (JObj ∅) |}
  else Raise ConnectionError.

(** A numeric setting as [_reconfigure] and [save_config] read it:
    [int(v or dflt)] for [v] an integer, absent or [null]. *)
Definition int_setting (v : json) (dflt : Z) : option Z :=
  match v with
  | JNull => Some dflt
  | JInt n => Some (if Z.eqb n 0 then dflt else n)
  | _ => None
  end.

(** The flag as they read it: [True if val is None else bool(val)]. *)
Definition flag_setting (v : json) : bool :=
  match v with
  | JNull => true
  | v => truthy v
  end.

(** A parser and a printer that agree on one document. *)
Definition one_document (cfg : json) : (json → string) * (string → result json) :=
  (λ _, "cfg", λ txt, if String.eqb txt "cfg" then Ok cfg else Raise ValueError).

Definition fs_missing : filesystem :=
  {| fs_config_path := Ok tt; fs_exists := Ok false; fs_read_text := Raise OSError |}.

(** A text setting: [str(v or "")] for [v] a string, absent or [null]. *)
Definition str_setting (v : json) : option string :=
  match v with
  | JStr t => Some t
  | JNull => Some ""
  | _ => None
  end.

(** * Properties *)

(** ** Python values *)

Lemma truthy_str (s : string) : truthy (JStr s) = true ↔ s ≠ "".
Proof.
  simpl. destruct (String.eqb_spec s ""); simpl; split; congruence.
Qed.

Lemma get_first_picks (m : gmap string json) (keys : list string) (dflt : json) :
  ∃ v, get_first (JObj m) keys dflt = Ok v ∧ picks m dflt keys v.
Proof.
  induction keys as [|k ks IH]; simpl.
  - eexists; split; [reflexivity | constructor].
  - unfold mbind, result_bind, or_else. fold (value_of m k).
    destruct (truthy (value_of m k)) eqn:Ht.
    + eexists; split; [reflexivity | by constructor].
    + destruct IH as (v & -> & Hp). eexists; split; [reflexivity | by constructor].
Qed.

Lemma picks_fun (m : gmap string json) dflt keys v w :
  picks m dflt keys v → picks m dflt keys w → v = w.
Proof.
  induction 1; inversion 1; subst; try congruence; auto.
Qed.

(** [picks] in terms of positions: every key before the chosen one has a
    falsy value. *)
Lemma picks_position (m : gmap string json) dflt keys v :
  picks m dflt keys v ↔
    (∃ i k, keys !! i = Some k ∧ v = value_of m k ∧ truthy v = true ∧
            ∀ j k', (j < i)%nat → keys !! j = Some k' → truthy (value_of m k') = false)
    ∨ (v = dflt ∧ ∀ k, k ∈ keys → truthy (value_of m k) = false).
Proof.
  split.
  - induction 1 as [|k ks Ht|k ks v Hf Hp IH].
    + right. split; [done|]. intros k Hk. by apply elem_of_nil in Hk.
    + left. exists 0%nat, k. repeat split; try done. lia.
    + destruct IH as [(i & k' & Hi & -> & Ht & Hbefore)|[-> Hall]].
      * left. exists (S i), k'. repeat split; try done.
        intros [|j] k'' Hj Hl; simpl in Hl.
        -- by injection Hl as <-.
        -- eapply Hbefore; [|done]. lia.
      * right. split; [done|]. intros k' [->|Hk]%elem_of_cons; auto.
  - revert v. induction keys as [|k ks IH]; intros v.
    + intros [(i & k & Hi & _)|[-> _]]; [done | constructor].
    + intros [(i & k' & Hi & -> & Ht & Hbefore)|[-> Hall]].
      * destruct i as [|i]; simpl in Hi.
        -- injection Hi as ->. by constructor.
        -- apply picks_later.
           ++ apply (Hbefore 0%nat); [lia | done].
           ++ apply IH. left. exists i, k'. repeat split; try done.
              intros j k'' Hj Hl. apply (Hbefore (S j)); [lia | done].
      * apply picks_later.
        -- apply Hall. by left.
        -- apply IH. right. split; [done|]. intros k' Hk. apply Hall. by right.
Qed.

Lemma get_first_not_dict (v : json) (k : string) (ks : list string) (dflt : json) :
  (∀ m, v ≠ JObj m) → get_first v (k :: ks) dflt = Raise AttributeError.
Proof.
  intros Hv. simpl. destruct v; try reflexivity. by destruct (Hv m).
Qed.

(** ** C1: status classification *)

Lemma status_map_get_range (s : string) : status_map_get s ∈ statuses.
Proof.
  unfold status_map_get, statuses.
  destruct (status_map !! s) as [v|] eqn:Hs; simpl; [|set_solver].
  apply elem_of_list_to_map_2 in Hs.
  repeat (apply elem_of_cons in Hs as [[= _ <-]|Hs]; [set_solver|]).
  by apply elem_of_nil in Hs.
Qed.

Lemma status_map_get_fallback (s : string) :
  s ∉ status_keys → status_map_get s = "unknown".
Proof.
  intros Hs. unfold status_map_get.
  destruct (status_map !! s) as [v|] eqn:Hl; [|done].
  apply elem_of_list_to_map_2 in Hl. exfalso. apply Hs. unfold status_keys.
  repeat (apply elem_of_cons in Hl as [[= -> _]|Hl]; [set_solver|]).
  by apply elem_of_nil in Hl.
Qed.

Lemma status_map_table :
  status_map_get "ready" = "ready" ∧
  status_map_get "building" = "building" ∧
  status_map_get "queued" = "building" ∧
  status_map_get "initializing" = "building" ∧
  status_map_get "error" = "error" ∧
  status_map_get "failed" = "error" ∧
  status_map_get "canceled" = "error" ∧
  status_map_get "cancelled" = "error" ∧
  status_map_get "" = "unknown".
Proof. repeat split; reflexivity. Qed.

Lemma state_value_picks (raw : gmap string json) :
  ∃ v, state_value (JObj raw) = Ok v ∧ picks raw (JStr "") ["readyState"; "state"] v.
Proof. apply get_first_picks. Qed.

Lemma parse_deployment_ready_state `{Builtins} (now : datetime) (raw : json) (d : Deployment) :
  _parse_deployment now raw = Ok d →
  ∃ rs, ready_state_of raw = Ok rs ∧ status d = status_map_get rs.
Proof.
  unfold _parse_deployment. intros Hd.
  destruct (ready_state_of raw) as [rs|e] eqn:Hrs.
  - exists rs. split; [done|].
    unfold mbind, result_bind in Hd.
    repeat match type of Hd with
    | match ?r with _ => _ end = _ => destruct r; try discriminate
    end.
    by injection Hd as <-.
  - exfalso. unfold mbind, result_bind in Hd.
    repeat match type of Hd with
    | match ?r with _ => _ end = _ => destruct r; try discriminate
    end.
Qed.

Lemma get_or_empty (raw : gmap string json) (k : string) :
  obj_or_none (raw !! k) →
  get (JObj raw) k = Ok (value_of raw k) ∧
  (if truthy (value_of raw k) then value_of raw k else JObj ∅) = JObj (dict_or_empty raw k).
Proof.
  intros Ho. split; [done|]. unfold value_of, dict_or_empty.
  destruct (raw !! k) as [[]|]; simpl in *; try done.
  destruct (size m =? 0)%nat eqn:Hsz; simpl; [|done].
  apply Nat.eqb_eq, map_size_empty_inv in Hsz. by subst.
Qed.

Lemma extract_git_meta_picks `{Builtins} (raw : gmap string json) :
  obj_or_none (raw !! "meta") → obj_or_none (raw !! "creator") →
  ∃ bv sv mv a0 av,
    _extract_git_meta (JObj raw) = Ok (py_str bv, py_str sv, py_str mv, py_str av) ∧
    picks (dict_or_empty raw "meta") (JStr "") branch_keys bv ∧
    picks (dict_or_empty raw "meta") (JStr "") sha_keys sv ∧
    picks (dict_or_empty raw "meta") (JStr "") message_keys mv ∧
    picks (dict_or_empty raw "meta") (JStr "") author_keys a0 ∧
    (if truthy a0 then av = a0
     else picks (dict_or_empty raw "creator") (JStr "") creator_keys av).
Proof.
  intros Hm Hc.
  destruct (get_or_empty raw "meta" Hm) as [Hgm Hmeta].
  destruct (get_or_empty raw "creator" Hc) as [Hgc Hcreator].
  destruct (get_first_picks (dict_or_empty raw "meta") branch_keys (JStr "")) as (bv & Hb & Pb).
  destruct (get_first_picks (dict_or_empty raw "meta") sha_keys (JStr "")) as (sv & Hs & Ps).
  destruct (get_first_picks (dict_or_empty raw "meta") message_keys (JStr "")) as (mv & Hmsg & Pm).
  destruct (get_first_picks (dict_or_empty raw "meta") author_keys (JStr "")) as (a0 & Ha & Pa).
  destruct (get_first_picks (dict_or_empty raw "creator") creator_keys (JStr "")) as (cv & Hcv & Pc).
  exists bv, sv, mv, a0, (if truthy a0 then a0 else cv).
  split.
  - unfold _extract_git_meta. rewrite Hgm. cbn [mbind result_bind]. rewrite Hmeta.
    fold branch_keys sha_keys message_keys author_keys.
    rewrite Hb. cbn [mbind result_bind]. rewrite Hs. cbn [mbind result_bind].
    rewrite Hmsg. cbn [mbind result_bind]. rewrite Ha. cbn [mbind result_bind].
    rewrite Hgc. cbn [mbind result_bind]. rewrite Hcreator. fold creator_keys.
    destruct (truthy a0); [done|]. by rewrite Hcv.
  - repeat split; try done. by destruct (truthy a0).
Qed.

Lemma picks_elem (m : gmap string json) dflt keys v :
  picks m dflt keys v →
  v = dflt ∨ ∃ k, k ∈ keys ∧ v = value_of m k ∧ truthy v = true.
Proof.
  induction 1 as [|k ks Ht|k ks v Hf Hp IH].
  - by left.
  - right. exists k. split; [by left | done].
  - destruct IH as [->|(k' & Hk & -> & Ht)]; [by left|].
    right. exists k'. split; [by right | done].
Qed.

Lemma ready_state_typed (raw : gmap string json) :
  str_or_none (raw !! "readyState") → str_or_none (raw !! "state") →
  ∃ s, state_value (JObj raw) = Ok (JStr s) ∧
       picks raw (JStr "") ["readyState"; "state"] (JStr s) ∧
       ready_state_of (JObj raw) = Ok (lower s).
Proof.
  intros H1 H2. destruct (state_value_picks raw) as (v & Hv & Hp).
  assert (∃ s, v = JStr s) as [s ->].
  { destruct (picks_elem _ _ _ _ Hp) as [->|(k & Hk & -> & Ht)]; [by eexists|].
    unfold value_of in *.
    apply elem_of_cons in Hk as [->|Hk]; [|apply list_elem_of_singleton in Hk as ->].
    - destruct (raw !! "readyState") as [[]|]; simpl in *; try done; by eexists.
    - destruct (raw !! "state") as [[]|]; simpl in *; try done; by eexists. }
  exists s. repeat split; try done. unfold ready_state_of. by rewrite Hv.
Qed.

Lemma ready_state_untyped (raw : gmap string json) (v : json) :
  picks raw (JStr "") ["readyState"; "state"] v → (∀ s, v ≠ JStr s) →
  ready_state_of (JObj raw) = Raise AttributeError.
Proof.
  intros Hp Hv. destruct (state_value_picks raw) as (w & Hw & Hp').
  rewrite (picks_fun _ _ _ _ _ Hp' Hp) in Hw.
  unfold ready_state_of. rewrite Hw. cbn [mbind result_bind].
  destruct v; try done. by destruct (Hv s).
Qed.

Lemma created_at_typed `{Builtins} (raw : gmap string json) (now : datetime) :
  (∀ k, k ∈ ["createdAt"; "created_at"] →
     match raw !! k with
     | None | Some JNull => True
     | Some (JInt n) => is_ok (fromtimestamp_ms n) = true
     | _ => False
     end) →
  ∃ created t,
    get_first (JObj raw) ["createdAt"; "created_at"] (JInt 0) = Ok created ∧
    (if truthy created then ms ← py_int created; fromtimestamp_ms ms else Ok now) = Ok t.
Proof.
  intros Hc.
  destruct (get_first_picks raw ["createdAt"; "created_at"] (JInt 0)) as (v & Hv & Hp).
  exists v. destruct (picks_elem _ _ _ _ Hp) as [->|(k & Hk & -> & Ht)].
  - exists now. done.
  - specialize (Hc k Hk). rewrite Ht. unfold value_of in *.
    destruct (raw !! k) as [[]|]; simpl in *; try done.
    destruct (fromtimestamp_ms n) as [t|] eqn:Hts; [|done].
    exists t. done.
Qed.

Lemma parse_deployment_returns `{Builtins} (now : datetime) (raw : gmap string json) :
  well_typed raw → ∃ d, _parse_deployment now (JObj raw) = Ok d.
Proof.
  intros [Hrs Hst Hpr Hcr Hme Hct].
  destruct (get_first_picks raw ["id"; "uid"] (JStr "")) as (vid & Hid & _).
  destruct (get_first_picks raw ["url"; "inspectorUrl"] (JStr "")) as (vu & Hu & _).
  destruct (get_first_picks raw ["target"; "environment"] (JStr "")) as (vt & Htg & _).
  destruct (created_at_typed raw now Hcr) as (vc & t & Hc & Ht).
  destruct (ready_state_typed raw Hrs Hst) as (s & _ & _ & Hs).
  destruct (extract_git_meta_picks raw Hme Hct) as (bv & sv & mv & a0 & av & Hg & _).
  assert (∃ nm, or_else (value_of raw "name")
                  (p ← get_default (JObj raw) "project" (JObj ∅);
                   pn ← get p "name"; or_else pn (Ok (JStr ""))) = Ok nm) as [nm Hnm].
  { unfold or_else. destruct (truthy (value_of raw "name")); [by eexists|].
    simpl. destruct (raw !! "project") as [[]|]; simpl in *; try done.
    - destruct (truthy (default JNull (m !! "name"))); by eexists.
    - by eexists. }
  eexists. unfold _parse_deployment.
  rewrite Hid. cbn [mbind result_bind]. change (get (JObj raw) "name") with (Ok (value_of raw "name")).
  cbn [mbind result_bind]. rewrite Hnm. cbn [mbind result_bind].
  rewrite Hu. cbn [mbind result_bind]. rewrite Hc. cbn [mbind result_bind].
  rewrite Ht. cbn [mbind result_bind]. rewrite Hs. cbn [mbind result_bind].
  rewrite Hg. cbn [mbind result_bind]. rewrite Htg. cbn [mbind result_bind].
  reflexivity.
Qed.

(** C1 (amended).  The table lookup with its default is a total function from
    lowered state strings to the four statuses; every [Deployment] that
    [_parse_deployment] returns carries the status the table gives for the
    lowered [readyState] (else [state], else the empty string), which is a
    string in that case; on a deployment object whose fields have the types
    of the API the call does return; and when the state value it selects is
    not a string, the call raises and no [Deployment] results. *)
Theorem parse_deployment_status `{Builtins} (now : datetime) (raw : gmap string json) :
  (∀ s, status_map_get s ∈ statuses) ∧
  (∀ s, s ∉ status_keys → status_map_get s = "unknown") ∧
  (status_map_get "ready" = "ready" ∧
   status_map_get "building" = "building" ∧
   status_map_get "queued" = "building" ∧
   status_map_get "initializing" = "building" ∧
   status_map_get "error" = "error" ∧
   status_map_get "failed" = "error" ∧
   status_map_get "canceled" = "error" ∧
   status_map_get "cancelled" = "error" ∧
   status_map_get "" = "unknown") ∧
  (∀ d, _parse_deployment now (JObj raw) = Ok d →
     ∃ s, picks raw (JStr "") ["readyState"; "state"] (JStr s) ∧
          status d = status_map_get (lower s) ∧ status d ∈ statuses) ∧
  (well_typed raw →
     ∃ d s, _parse_deployment now (JObj raw) = Ok d ∧
            picks raw (JStr "") ["readyState"; "state"] (JStr s) ∧
            status d = status_map_get (lower s) ∧ status d ∈ statuses) ∧
  (∀ v, picks raw (JStr "") ["readyState"; "state"] v → (∀ s, v ≠ JStr s) →
     ready_state_of (JObj raw) = Raise AttributeError ∧
     ∃ e, _parse_deployment now (JObj raw) = Raise e).
Proof.
  assert (∀ d, _parse_deployment now (JObj raw) = Ok d →
     ∃ s, picks raw (JStr "") ["readyState"; "state"] (JStr s) ∧
          status d = status_map_get (lower s) ∧ status d ∈ statuses) as Hpartial.
  { intros d Hd.
    destruct (parse_deployment_ready_state now _ d Hd) as (rs & Hrs & Hst).
    destruct (state_value_picks raw) as (v & Hv & Hp).
    unfold ready_state_of in Hrs. rewrite Hv in Hrs. cbn [mbind result_bind] in Hrs.
    destruct v; try discriminate. injection Hrs as <-.
    exists s. rewrite Hst. split; [done|]. split; [done|]. apply status_map_get_range. }
  split; [apply status_map_get_range|].
  split; [apply status_map_get_fallback|].
  split; [apply status_map_table|].
  split; [exact Hpartial|].
  split.
  - intros Hwt. destruct (parse_deployment_returns now raw Hwt) as [d Hd].
    destruct (Hpartial d Hd) as (s & ?). by exists d, s.
  - intros v Hp Hv. split; [by apply (ready_state_untyped raw v)|].
    destruct (_parse_deployment now (JObj raw)) as [d|e] eqn:Hd; [|by exists e].
    destruct (Hpartial d eq_refl) as (s & Hp' & _).
    destruct (Hv s). exact (picks_fun _ _ _ _ _ Hp Hp').
Qed.

Lemma fields_ready_well_typed : @well_typed sample_builtins fields_ready.
Proof.
  split; try exact I.
  intros k Hk. apply elem_of_cons in Hk as [->|Hk]; [reflexivity|].
  apply list_elem_of_singleton in Hk as ->. exact I.
Qed.

(** On the sample deployment the parse returns, with status [ready]. *)
Lemma parse_deployment_status_witness :
  ∃ d s, @_parse_deployment sample_builtins 0 (JObj fields_ready) = Ok d ∧
         picks fields_ready (JStr "") ["readyState"; "state"] (JStr s) ∧
         status d = status_map_get (lower s) ∧ status d ∈ statuses.
Proof.
  exact (proj1 (proj2 (proj2 (proj2 (proj2
           (@parse_deployment_status sample_builtins 0 fields_ready)))))
         fields_ready_well_typed).
Defined.

Example parse_ready_sample :
  status <$> @_parse_deployment sample_builtins 0 (JObj fields_ready) = Ok "ready".
Proof. vm_compute. reflexivity. Qed.

Example parse_queued_sample :
  status <$> @_parse_deployment sample_builtins 0 (JObj fields_queued) = Ok "building".
Proof. vm_compute. reflexivity. Qed.

(** A deployment object whose [readyState] is the number 5 is not classified:
    [(5).lower()] raises [AttributeError], whatever the builtins. *)
Lemma numeric_state_raises :
  parse_raises (JObj fields_numeric_state) AttributeError.
Proof. intros B now. reflexivity. Qed.

(** ** C7: git metadata *)

(** C7 (amended).  When [meta] and [creator] are objects (or absent or
    [null]), [_extract_git_meta] returns, for branch, commit sha and commit
    message, [str] of the value under the first key, in the order GitHub,
    GitLab, Bitbucket, generic, whose value is truthy (for a string:
    non-empty), and the empty string when there is none; the author is chosen
    the same way, and when no author key of [meta] has a truthy value it is
    the creator's [name], else [username], else [email], else the empty
    string. *)
Theorem extract_git_meta_priority `{Builtins} (raw : gmap string json) :
  obj_or_none (raw !! "meta") → obj_or_none (raw !! "creator") →
  ∃ bv sv mv av,
    _extract_git_meta (JObj raw) = Ok (py_str bv, py_str sv, py_str mv, py_str av) ∧
    picks (dict_or_empty raw "meta") (JStr "") branch_keys bv ∧
    picks (dict_or_empty raw "meta") (JStr "") sha_keys sv ∧
    picks (dict_or_empty raw "meta") (JStr "") message_keys mv ∧
    ((picks (dict_or_empty raw "meta") (JStr "") author_keys av ∧ truthy av = true)
     ∨ ((∀ k, k ∈ author_keys → truthy (value_of (dict_or_empty raw "meta") k) = false) ∧
        picks (dict_or_empty raw "creator") (JStr "") creator_keys av)).
Proof.
  intros Hm Hc.
  destruct (extract_git_meta_picks raw Hm Hc) as (bv & sv & mv & a0 & av & He & Pb & Ps & Pm & Pa & Hav).
  exists bv, sv, mv, av. repeat (split; [done|]).
  destruct (truthy a0) eqn:Ht.
  - subst av. by left.
  - right. split; [|done].
    apply picks_position in Pa as [(i & k & _ & _ & Ht' & _)|[_ Hall]]; [congruence | done].
Qed.

Lemma extract_git_meta_priority_witness :
  ∃ bv sv mv av,
    @_extract_git_meta sample_builtins (JObj fields_ready)
      = Ok (@py_str sample_builtins bv, @py_str sample_builtins sv,
            @py_str sample_builtins mv, @py_str sample_builtins av) ∧
    picks (dict_or_empty fields_ready "meta") (JStr "") branch_keys bv ∧
    picks (dict_or_empty fields_ready "meta") (JStr "") sha_keys sv ∧
    picks (dict_or_empty fields_ready "meta") (JStr "") message_keys mv ∧
    ((picks (dict_or_empty fields_ready "meta") (JStr "") author_keys av ∧ truthy av = true)
     ∨ ((∀ k, k ∈ author_keys →
           truthy (value_of (dict_or_empty fields_ready "meta") k) = false) ∧
        picks (dict_or_empty fields_ready "creator") (JStr "") creator_keys av)).
Proof.
  exact (@extract_git_meta_priority sample_builtins fields_ready I I).
Defined.

(** The GitHub branch key is empty, so the GitLab one is used; the commit
    message comes from the generic key; the author from the creator. *)
Example extract_ready_sample :
  @_extract_git_meta sample_builtins (JObj fields_ready)
  = Ok ("main", "0123456789abcdef", "fix", "dani").
Proof. vm_compute. reflexivity. Qed.

(** With a [meta] that is a string, [meta.get] raises [AttributeError]. *)
Lemma text_meta_raises : extract_raises (JObj fields_text_meta) AttributeError.
Proof. intros B. reflexivity. Qed.

(** ** C8: [list_deployments] *)

Lemma insert_desc_perm (d : Deployment) (l : list Deployment) :
  insert_desc d l ≡ₚ d :: l.
Proof.
  induction l as [|x l IH]; simpl; [done|].
  destruct (created_at x <=? created_at d); [done|].
  rewrite IH. apply Permutation_swap.
Qed.

Lemma sort_desc_perm (l : list Deployment) : sort_desc l ≡ₚ l.
Proof.
  induction l as [|d l IH]; simpl; [done|].
  unfold sort_desc in *. simpl. rewrite insert_desc_perm. by rewrite IH.
Qed.

Lemma insert_desc_descending (d : Deployment) (l : list Deployment) :
  descending l → descending (insert_desc d l).
Proof.
  unfold descending. induction 1 as [|x l Hl IH Hx]; simpl.
  - repeat constructor.
  - destruct (created_at x <=? created_at d) eqn:Hle.
    + apply Z.leb_le in Hle. constructor; [by constructor|].
      constructor; [done|]. eapply Forall_impl; [exact Hx|]. simpl. lia.
    + apply Z.leb_gt in Hle. constructor; [done|].
      rewrite insert_desc_perm. constructor; [lia | done].
Qed.

Lemma sort_desc_descending (l : list Deployment) : descending (sort_desc l).
Proof.
  induction l as [|d l IH]; [constructor|]. by apply insert_desc_descending.
Qed.

Lemma descending_take (n : nat) (l : list Deployment) :
  descending l → descending (take n l).
Proof.
  unfold descending. intros Hl. rewrite <- (take_drop n l) in Hl.
  by apply StronglySorted_app_1_l in Hl.
Qed.

Lemma slice_to_descending (k : Z) (l : list Deployment) :
  descending l → descending (slice_to k l).
Proof. unfold slice_to. destruct (0 <=? k); apply descending_take. Qed.

Lemma slice_to_nonneg {A} (k : Z) (l : list A) :
  0 ≤ k → slice_to k l = take (Z.to_nat k) l ∧ Z.of_nat (length (slice_to k l)) ≤ k.
Proof.
  intros Hk. unfold slice_to. destruct (0 <=? k) eqn:E; [|apply Z.leb_gt in E; lia].
  split; [done|]. rewrite length_take. lia.
Qed.

Lemma params_limit (self : VercelClient) (limit : Z) (base : string) :
  req_limit (params self limit base) = Z.max 1 (Z.min limit 50) ∧
  1 ≤ req_limit (params self limit base) ≤ 50.
Proof. simpl. lia. Qed.

Lemma try_candidates_sent `{Builtins} self session clock limit bases last_error :
  ∀ q, q ∈ (try_candidates self session clock limit bases last_error).1 →
       ∃ base, base ∈ bases ∧ q = params self limit base.
Proof.
  revert last_error. induction bases as [|base rest IH]; intros last_error q; simpl.
  - intros Hq. by apply elem_of_nil in Hq.
  - destruct (fetch_from self session clock limit base) as [ds|e].
    + simpl. intros ->%list_elem_of_singleton. exists base. split; [by left | done].
    + destruct (try_candidates self session clock limit rest (Some e)) as [sent r] eqn:Ht.
      simpl. intros [->|Hq]%elem_of_cons.
      * exists base. split; [by left | done].
      * specialize (IH (Some e) q). rewrite Ht in IH.
        destruct (IH Hq) as (b & Hb & ->). exists b. split; [by right | done].
Qed.

Lemma try_candidates_ok `{Builtins} self session clock limit bases last_error ds :
  bases ≠ [] →
  (try_candidates self session clock limit bases last_error).2 = Ok ds →
  ∃ base, base ∈ bases ∧ fetch_from self session clock limit base = Ok ds.
Proof.
  revert last_error. induction bases as [|base rest IH]; intros last_error Hne; [done|].
  simpl. destruct (fetch_from self session clock limit base) as [ds'|e] eqn:Hf.
  - simpl. intros [= ->]. exists base. split; [by left | done].
  - destruct (try_candidates self session clock limit rest (Some e)) as [sent r] eqn:Ht.
    simpl. intros ->.
    destruct rest as [|b rest'].
    + simpl in Ht. by injection Ht as _ ?.
    + specialize (IH (Some e)). rewrite Ht in IH.
      destruct (IH ltac:(done) eq_refl) as (b' & Hb & Hok).
      exists b'. split; [by right | done].
Qed.

Lemma fetch_from_ok `{Builtins} self session clock limit base ds :
  fetch_from self session clock limit base = Ok ds ↔
  ∃ res parsed,
    session (params self limit base) = Ok res ∧
    parsed_of clock res = Ok parsed ∧
    ds = slice_to limit (sort_desc parsed).
Proof.
  unfold fetch_from. split.
  - destruct (session (params self limit base)) as [res|]; [|done].
    cbn [mbind result_bind]. destruct (parsed_of clock res) as [parsed|] eqn:Hp; [|done].
    cbn [mbind result_bind]. intros [= <-]. by exists res, parsed.
  - intros (res & parsed & -> & Hp & ->). cbn [mbind result_bind]. by rewrite Hp.
Qed.

Lemma list_deployments_sends `{Builtins} tok team session clock limit :
  (list_deployments (new_client tok team) session clock limit).1 ≠ [].
Proof.
  unfold list_deployments. simpl.
  destruct (fetch_from _ session clock limit "https://api.vercel.com/v13"); [done|].
  by destruct (match fetch_from _ session clock limit "https://api.vercel.com/v6" with
               | Ok ds => _ | Raise e0 => _ end).
Qed.

Lemma list_deployments_first `{Builtins} self session clock limit base rest ds :
  base_url_candidates self = base :: rest →
  fetch_from self session clock limit base = Ok ds →
  list_deployments self session clock limit = ([params self limit base], Ok ds).
Proof.
  intros Hb Hf. unfold list_deployments. rewrite Hb. cbn [try_candidates]. by rewrite Hf.
Qed.

(** C8 (amended).  Every request [list_deployments] sends, and it sends at
    least one, carries the limit clamped into [1, 50].  When it succeeds, the
    result is the slice [parsed[:limit]] of the deployments parsed from the
    answering endpoint, sorted latest first; for [limit >= 0] these are the
    first [limit] of them, hence at most [limit] items, and none for
    [limit = 0] although one was requested.  It succeeds as soon as the first
    endpoint answers with a payload that parses. *)
Theorem list_deployments_limit `{Builtins} (tok : string) (team : option string)
    (session : transport) (clock : nat → datetime) (limit : Z) :
  (list_deployments (new_client tok team) session clock limit).1 ≠ [] ∧
  (∀ q, q ∈ (list_deployments (new_client tok team) session clock limit).1 →
        req_limit q = Z.max 1 (Z.min limit 50) ∧ 1 ≤ req_limit q ≤ 50) ∧
  (∀ ds, (list_deployments (new_client tok team) session clock limit).2 = Ok ds →
     ∃ base res parsed,
       base ∈ base_url_candidates (new_client tok team) ∧
       session (params (new_client tok team) limit base) = Ok res ∧
       parsed_of clock res = Ok parsed ∧
       sort_desc parsed ≡ₚ parsed ∧ descending (sort_desc parsed) ∧
       ds = slice_to limit (sort_desc parsed) ∧ descending ds ∧
       (0 ≤ limit →
          ds = take (Z.to_nat limit) (sort_desc parsed) ∧ Z.of_nat (length ds) ≤ limit) ∧
       (limit = 0 → ds = [])) ∧
  (∀ res parsed,
     session (params (new_client tok team) limit "https://api.vercel.com/v13") = Ok res →
     parsed_of clock res = Ok parsed →
     list_deployments (new_client tok team) session clock limit
     = ([params (new_client tok team) limit "https://api.vercel.com/v13"],
        Ok (slice_to limit (sort_desc parsed)))).
Proof.
  split; [apply list_deployments_sends|]. split; [|split].
  - intros q Hq. unfold list_deployments in Hq.
    destruct (try_candidates_sent _ _ _ _ _ _ q Hq) as (base & _ & ->).
    exact (params_limit _ limit base).
  - intros ds Hds. unfold list_deployments in Hds.
    assert (base_url_candidates (new_client tok team) ≠ []) as Hne by discriminate.
    destruct (try_candidates_ok _ _ _ _ _ _ ds Hne Hds) as (base & Hb & Hf).
    apply fetch_from_ok in Hf as (res & parsed & Hres & Hp & ->).
    exists base, res, parsed.
    split; [exact Hb|]. split; [exact Hres|]. split; [exact Hp|].
    split; [apply sort_desc_perm|]. split; [apply sort_desc_descending|].
    split; [reflexivity|]. split; [apply slice_to_descending, sort_desc_descending|].
    split; [apply slice_to_nonneg|]. intros ->. reflexivity.
  - intros res parsed Hres Hp.
    apply (list_deployments_first _ _ _ _ "https://api.vercel.com/v13"
             ["https://api.vercel.com/v6"]); [reflexivity|].
    apply fetch_from_ok. exists res, parsed.
    split; [exact Hres|]. split; [exact Hp|reflexivity].
Qed.

(** With [limit = 0] one item is requested and none is returned. *)
Example list_deployments_zero :
  let r := @list_deployments sample_builtins (@new_client sample_builtins "tok" None)
             sample_session (λ _, 0) 0 in
  req_limit <$> r.1 = [1] ∧ r.2 = Ok [].
Proof. vm_compute. split; reflexivity. Qed.

Example list_deployments_sorted :
  (λ ds : list Deployment, id <$> ds) <$>
    (@list_deployments sample_builtins (@new_client sample_builtins "tok" None)
       sample_session (λ _, 0) 10).2
  = Ok ["dpl_2"; "dpl_1"].
Proof. vm_compute. reflexivity. Qed.

(** With [limit = -1] the slice drops the last of the two deployments: one
    item is returned, which is more than [limit]. *)
Lemma negative_limit_returns_items :
  ∃ ds, (@list_deployments sample_builtins (@new_client sample_builtins "tok" None)
           sample_session (λ _, 0) (-1)).2 = Ok ds ∧
        id <$> ds = ["dpl_2"] ∧ ¬ (Z.of_nat (length ds) ≤ -1).
Proof.
  eexists. split; [vm_compute; reflexivity|]. split; [reflexivity|]. simpl. lia.
Qed.

(** ** C10: [load_config] *)

Lemma setdefault_union (m : gmap string json) (k : string) (v : json) (rest : gmap string json) :
  (match m !! k with Some _ => m | None => <[k := v]> m end) ∪ rest = m ∪ <[k := v]> rest.
Proof.
  apply map_eq. intros j. rewrite !lookup_union.
  destruct (decide (j = k)) as [->|Hne].
  - destruct (m !! k) as [w|] eqn:Hk.
    + rewrite Hk. simpl. by destruct (rest !! k), (<[k:=v]> rest !! k).
    + rewrite !lookup_insert_eq. simpl. by destruct (rest !! k).
  - rewrite (lookup_insert_ne rest) by done.
    destruct (m !! k); [done|]. by rewrite lookup_insert_ne.
Qed.

Lemma fill_defaults_dict (m : gmap string json) (items : list (string * json)) :
  fill_defaults (JObj m) items = Ok (JObj (m ∪ list_to_map items)).
Proof.
  revert m. induction items as [|[k v] rest IH]; intros m; simpl.
  - by rewrite (right_id_L ∅ (∪)).
  - cbn [mbind result_bind]. rewrite IH. by rewrite setdefault_union.
Qed.

Lemma fill_defaults_not_dict (data : json) :
  (∀ m, data ≠ JObj m) → fill_defaults data default_items = Raise AttributeError.
Proof.
  intros Hd. destruct data; try reflexivity. by destruct (Hd m).
Qed.

Lemma default_map_keys (k : string) : k ∈ config_keys → is_Some (default_map !! k).
Proof.
  unfold config_keys, default_items. simpl. intros Hk.
  repeat (apply elem_of_cons in Hk as [->|Hk]; [by eexists|]).
  by apply elem_of_nil in Hk.
Qed.

(** C10 (amended).  Once the configuration path is obtained and the existence
    check has answered, [load_config] does not raise and returns a dictionary
    containing all five configuration keys: the defaults when the file is
    missing, cannot be read or parsed, or does not hold an object; otherwise
    the parsed object with the default filled in for every absent key and the
    present keys preserved. *)
Theorem load_config_total (json_loads : string → result json) (fs : filesystem) (e : bool) :
  fs_config_path fs = Ok tt → fs_exists fs = Ok e →
  ∃ m, load_config json_loads fs = Ok (JObj m) ∧
       (∀ k, k ∈ config_keys → is_Some (m !! k)) ∧
       (e = false ∨ (∀ m0, parsed_file json_loads fs ≠ Ok (JObj m0)) → m = default_map) ∧
       (∀ m0, e = true → parsed_file json_loads fs = Ok (JObj m0) →
          ∀ k, m !! k = match m0 !! k with
                        | Some v => Some v
                        | None => default_map !! k
                        end).
Proof.
  intros Hp He. unfold load_config. rewrite Hp, He. cbn [mbind result_bind].
  destruct e; cbn [negb].
  - assert ((txt ← fs_read_text fs; data ← json_loads txt; fill_defaults data default_items)
            = (data ← parsed_file json_loads fs; fill_defaults data default_items)) as ->.
    { unfold parsed_file. by destruct (fs_read_text fs). }
    destruct (parsed_file json_loads fs) as [data|err] eqn:Hd; cbn [mbind result_bind].
    + assert ((∃ m0, data = JObj m0) ∨ ¬ (∃ m0, data = JObj m0)) as [[m0 ->]|Hno].
      { destruct data; try (right; intros [? [=]]; fail). left. by eexists. }
      * rewrite fill_defaults_dict. exists (m0 ∪ default_map).
        split; [done|]. split; [|split].
        -- intros k Hk. apply default_map_keys in Hk as [v Hv].
           rewrite lookup_union, Hv. by destruct (m0 !! k); eexists.
        -- intros [?|Hn]; [done|]. by destruct (Hn m0).
        -- intros m1 _ [= <-] k. rewrite lookup_union.
           by destruct (m0 !! k), (default_map !! k).
      * rewrite fill_defaults_not_dict by (intros m0 ->; apply Hno; by eexists).
        exists default_map. split; [done|]. split; [apply default_map_keys|].
        split; [done|]. intros m0 _ [= ->]. destruct Hno. by eexists.
    + exists default_map. split; [done|]. split; [apply default_map_keys|].
      split; [done|]. intros m0 _ [=].
  - exists default_map. split; [done|]. split; [apply default_map_keys|].
    split; [done|]. intros m0 [=].
Qed.

Lemma load_config_total_witness :
  ∃ m, load_config sample_loads fs_empty_object = Ok (JObj m) ∧
       (∀ k, k ∈ config_keys → is_Some (m !! k)) ∧
       (true = false ∨ (∀ m0, parsed_file sample_loads fs_empty_object ≠ Ok (JObj m0))
          → m = default_map) ∧
       (∀ m0, true = true → parsed_file sample_loads fs_empty_object = Ok (JObj m0) →
          ∀ k, m !! k = match m0 !! k with
                        | Some v => Some v
                        | None => default_map !! k
                        end).
Proof.
  exact (load_config_total sample_loads fs_empty_object true eq_refl eq_refl).
Defined.

(** A file that sets two keys, one of them to [null]: both are kept. *)
Example fill_defaults_partial :
  fill_defaults (obj [("token", JStr "abc"); ("max_items", JNull)]) default_items
  = Ok (obj [ ("token", JStr "abc"); ("max_items", JNull); ("team_id", JStr "");
              ("refresh_interval", JInt 30); ("notify_prod_events", JBool true) ]).
Proof. vm_compute. reflexivity. Qed.

(** When the configuration directory cannot be created, [_config_path()]
    raises before the [try] block is entered, and so does [load_config]. *)
Lemma load_config_propagates : load_config_raises fs_read_only PermissionError.
Proof. intros json_loads. reflexivity. Qed.

(** ** The refresh logic of the indicator *)

(** The time labels and message lines of the sample deployments. *)
Example sample_humanize_time :
  @_humanize_time sample_builtins 1700000000000000 = Ok "yesterday at 23:13" ∧
  @_humanize_time sample_builtins 0 = Ok "Jan 01, 01:00" ∧
  @_humanize_time sample_builtins (created_at far_dated) = Raise OverflowError.
Proof. vm_compute. by repeat split. Qed.

Example sample_message_line :
  @message_line sample_builtins (dep "a" "ready" "production") = Ok "" ∧
  @message_line sample_builtins blank_message = Raise IndexError ∧
  @splitlines sample_builtins (String "a" (String "010" (String "010" (String "b" ""))))
  = ["a"; ""; "b"].
Proof. vm_compute. by repeat split. Qed.

Lemma bind_run {A B} (m : action A) (f : A → action B) (s : state) :
  (m ≫= f) s = match m s with
               | (s', Ok a) => f a s'
               | (s', Raise e) => (s', Raise e)
               end.
Proof. reflexivity. Qed.

(** Runs the state-passing primitives of an action applied to a state. *)
Ltac run_action :=
  repeat first
    [ rewrite bind_run
    | progress unfold modify, read, show, lift, mret, action_ret
    | progress cbn beta iota ].

(** A loop whose body never raises is a fold over the state. *)
Lemma for_each_pure {A} (l : list A) (body : A → action unit) (f : A → state → state) (s : state) :
  (∀ x s, body x s = (f x s, Ok tt)) →
  for_each l body s = (foldl (λ s x, f x s) s l, Ok tt).
Proof.
  intros Hbody. revert s. induction l as [|x l IH]; intros s; [done|].
  cbn [for_each foldl]. unfold mbind, action_bind. by rewrite Hbody, IH.
Qed.

Lemma record_all_snoc (l : list Deployment) (d : Deployment) (seen : gmap string string) :
  record_all (l ++ [d]) seen = <[id d := status d]> (record_all l seen).
Proof. unfold record_all. by rewrite foldl_app. Qed.

Lemma record_all_cons (l : list Deployment) (d : Deployment) (seen : gmap string string) :
  record_all (d :: l) seen = record_all l (<[id d := status d]> seen).
Proof. done. Qed.

(** What is recorded under a key: the status of the last deployment of the
    list that carries this id, and the old entry when there is none. *)
Lemma record_all_lookup (l : list Deployment) (seen : gmap string string) (k : string) :
  record_all l seen !! k =
    match last (filter (λ d, id d = k) l) with
    | Some d => Some (status d)
    | None => seen !! k
    end.
Proof.
  induction l as [|d l IH] using rev_ind; [done|].
  rewrite record_all_snoc, filter_app, filter_cons, filter_nil.
  destruct (decide (id d = k)) as [<-|Hne].
  - by rewrite last_snoc, lookup_insert_eq.
  - rewrite (right_id_L [] (++)), lookup_insert_ne by done. exact IH.
Qed.

Lemma record_all_other (l : list Deployment) (seen : gmap string string) (k : string) :
  k ∉ id <$> l → record_all l seen !! k = seen !! k.
Proof.
  revert seen. induction l as [|x l IH]; intros seen Hk; [done|].
  rewrite fmap_cons in Hk. apply not_elem_of_cons in Hk as [Hx Hk].
  rewrite record_all_cons, IH by done. by rewrite lookup_insert_ne.
Qed.

Lemma record_all_distinct (l : list Deployment) (seen : gmap string string) (d : Deployment) :
  NoDup (id <$> l) → d ∈ l → record_all l seen !! id d = Some (status d).
Proof.
  revert seen. induction l as [|x l IH]; intros seen Hnd Hd.
  - by apply elem_of_nil in Hd.
  - rewrite fmap_cons in Hnd. apply NoDup_cons in Hnd as [Hx Hnd].
    rewrite record_all_cons.
    apply elem_of_cons in Hd as [->|Hd]; [|by apply IH].
    rewrite record_all_other by done. apply lookup_insert_eq.
Qed.

Lemma bootstrap_fold (l : list Deployment) (s : state) :
  foldl (λ s d, set_prod_seen (<[id d := status d]> (_prod_seen s)) s) s l
  = set_prod_seen (record_all l (_prod_seen s)) s.
Proof.
  revert s. induction l as [|d l IH]; intros s; [by destruct s|].
  cbn [foldl]. rewrite IH. by destruct s.
Qed.

Lemma unchanged_insert (seen : gmap string string) (d : Deployment) :
  ¬ changed seen d → <[id d := status d]> seen = seen.
Proof.
  unfold changed. intros Hc. apply insert_id.
  destruct (decide (seen !! id d = Some (status d))); [done | by destruct Hc].
Qed.

(** The menu rebuild changes no attribute; it raises when a time label
    cannot be computed. *)
Lemma rebuild_run `{Builtins} (deployments : list Deployment) (s : state) :
  _rebuild_dynamic_items deployments s = (s, humanize_all (listed s deployments)).
Proof.
  unfold _rebuild_dynamic_items, listed. rewrite bind_run. unfold read. cbn beta iota.
  induction (slice_to (max_items s) deployments) as [|d l IH]; [done|].
  cbn [for_each humanize_all]. rewrite !bind_run. unfold lift. cbn beta iota.
  destruct (_humanize_time (created_at d)) as [t|e]; cbn [mbind result_bind]; [|done].
  unfold mret at 1, action_ret at 1. cbn beta iota. exact IH.
Qed.

Lemma humanize_all_ok `{Builtins} (l : list Deployment) :
  humanize_all l = Ok tt ↔ ∀ d, d ∈ l → is_ok (_humanize_time (created_at d)) = true.
Proof.
  induction l as [|d l IH]; cbn [humanize_all].
  - split; [|done]. by intros _ d ?%elem_of_nil.
  - destruct (_humanize_time (created_at d)) as [t|e] eqn:Ht; cbn [mbind result_bind].
    + rewrite IH. split.
      * intros Hl x [->|Hx]%elem_of_cons; [by rewrite Ht | by apply Hl].
      * intros Hl x Hx. apply Hl. by right.
    + split; [done|]. intros Hl. specialize (Hl d (list_elem_of_here _ _)).
      by rewrite Ht in Hl.
Qed.

Lemma listed_nil (s : state) : listed s [] = [].
Proof. unfold listed, slice_to. by destruct (0 <=? max_items s); rewrite take_nil. Qed.

(** [_send_prod_notification] shows the notification unless its text cannot
    be put together. *)
Lemma send_run `{Builtins} (d : Deployment) (s : state) :
  _send_prod_notification d s =
    match composed d with
    | Ok _ => (set_shown (shown s ++ [ProductionEvent d]) s, Ok tt)
    | Raise e => (s, Raise e)
    end.
Proof.
  unfold _send_prod_notification, composed. rewrite bind_run. unfold lift at 1.
  destruct (_humanize_time (created_at d)) as [t|e]; cbn [mbind result_bind]; [|done].
  cbn beta iota. rewrite bind_run. unfold lift.
  by destruct (message_line d) as [m|e]; cbn [mbind result_bind].
Qed.

Lemma notify_body `{Builtins} (d : Deployment) (s : state) :
  (s0 ← read;
   let previous := _prod_seen s0 !! id d in
   if match previous with
      | None => true
      | Some p => negb (String.eqb p (status d))
      end
   then _send_prod_notification d ;;
        modify (λ s, set_prod_seen (<[id d := status d]> (_prod_seen s)) s)
   else mret tt) s
  = if decide (changed (_prod_seen s) d)
    then match composed d with
         | Ok _ => (notify_step d s, Ok tt)
         | Raise e => (s, Raise e)
         end
    else (s, Ok tt).
Proof.
  unfold notify_step. rewrite bind_run. unfold read. cbn beta iota zeta.
  destruct (decide (changed (_prod_seen s) d)) as [Hc|Hc]; unfold changed in Hc.
  - assert (match _prod_seen s !! id d with
            | None => true
            | Some p => negb (String.eqb p (status d))
            end = true) as ->.
    { destruct (_prod_seen s !! id d) as [p|] eqn:Hp; [|done].
      by destruct (String.eqb_spec p (status d)) as [->|Hne]. }
    rewrite bind_run, send_run. by destruct (composed d).
  - assert (match _prod_seen s !! id d with
            | None => true
            | Some p => negb (String.eqb p (status d))
            end = false) as ->; [|done].
    destruct (_prod_seen s !! id d) as [p|] eqn:Hp; [|by destruct Hc].
    destruct (String.eqb_spec p (status d)) as [->|Hne]; [done|].
    destruct Hc. congruence.
Qed.

(** The loop after the bootstrap, as [notify_loop] describes it. *)
Lemma notify_loop_run `{Builtins} (body : Deployment → action unit)
    (l : list Deployment) (s : state) :
  (∀ d s, body d s = if decide (changed (_prod_seen s) d)
                     then match composed d with
                          | Ok _ => (notify_step d s, Ok tt)
                          | Raise e => (s, Raise e)
                          end
                     else (s, Ok tt)) →
  for_each l body s =
    (set_prod_seen (notify_loop (_prod_seen s) l).1.2
       (set_shown (shown s ++ (ProductionEvent <$> (notify_loop (_prod_seen s) l).1.1)) s),
     (notify_loop (_prod_seen s) l).2).
Proof.
  intros Hbody. revert s. induction l as [|d l IH]; intros s.
  - cbn. rewrite (right_id_L [] (++)). by destruct s.
  - cbn [for_each notify_loop]. rewrite bind_run, Hbody.
    destruct (decide (changed (_prod_seen s) d)) as [Hc|Hc].
    + destruct (composed d) as [[]|e]; [|cbn; rewrite (right_id_L [] (++)); by destruct s].
      rewrite IH. unfold notify_step. rewrite decide_True by done.
      cbn [_prod_seen shown set_prod_seen set_shown].
      destruct (notify_loop (<[id d:=status d]> (_prod_seen s)) l) as [[events seen'] r].
      cbn. destruct s; cbn. by rewrite <- (assoc_L (++)).
    + apply IH.
Qed.

Lemma events_from_subset (seen : gmap string string) (l : list Deployment) (d : Deployment) :
  d ∈ events_from seen l → d ∈ l.
Proof.
  revert seen. induction l as [|x l IH]; intros seen; cbn [events_from]; [done|].
  intros [Hd|Hd]%elem_of_app.
  - destruct (decide (changed seen x)); [|by apply elem_of_nil in Hd].
    apply list_elem_of_singleton in Hd as ->. by left.
  - right. by apply (IH _ Hd).
Qed.

(** When every notification that is due can be put together, the loop goes
    through the whole list. *)
Lemma notify_loop_ok `{Builtins} (seen : gmap string string) (l : list Deployment) :
  (∀ d, d ∈ events_from seen l → composes d) →
  notify_loop seen l = (events_from seen l, record_all l seen, Ok tt).
Proof.
  revert seen. induction l as [|d l IH]; intros seen Hall; [done|].
  cbn [notify_loop events_from] in *. rewrite record_all_cons.
  destruct (decide (changed seen d)) as [Hc|Hc].
  - rewrite (Hall d) by (by left). rewrite IH; [done|].
    intros x Hx. apply Hall. by right.
  - rewrite (unchanged_insert _ _ Hc) in Hall |- *. by apply IH.
Qed.

(** In any case the deployments notified are the first of those that are
    due, and their texts could be put together. *)
Lemma notify_loop_events `{Builtins} (seen : gmap string string) (l : list Deployment) :
  ∃ post, events_from seen l = ((notify_loop seen l).1.1 ++ post)%list.
Proof.
  revert seen. induction l as [|d l IH]; intros seen; [by exists []|].
  cbn [notify_loop events_from].
  destruct (decide (changed seen d)) as [Hc|Hc].
  - destruct (composed d) as [[]|e]; [|by eexists].
    destruct (IH (<[id d:=status d]> seen)) as [post Hpost].
    destruct (notify_loop (<[id d:=status d]> seen) l) as [[events seen'] r].
    exists post. cbn in *. by rewrite Hpost.
  - rewrite (unchanged_insert _ _ Hc). apply IH.
Qed.

Lemma notify_loop_composes `{Builtins} (seen : gmap string string) (l : list Deployment)
    (d : Deployment) :
  d ∈ (notify_loop seen l).1.1 → composes d.
Proof.
  revert seen. induction l as [|x l IH]; intros seen; cbn [notify_loop].
  - by intros ?%elem_of_nil.
  - destruct (decide (changed seen x)) as [Hc|Hc]; [|apply IH].
    destruct (composed x) as [[]|e] eqn:Hx; [|by intros ?%elem_of_nil].
    specialize (IH (<[id x:=status x]> seen)).
    destruct (notify_loop (<[id x:=status x]> seen) l) as [[events seen'] r].
    cbn in *. intros [->|Hd]%elem_of_cons; [exact Hx | by apply IH].
Qed.

Lemma notify_loop_other `{Builtins} (seen : gmap string string) (l : list Deployment)
    (k : string) :
  k ∉ id <$> l → (notify_loop seen l).1.2 !! k = seen !! k.
Proof.
  revert seen. induction l as [|x l IH]; intros seen Hk; [done|].
  rewrite fmap_cons in Hk. apply not_elem_of_cons in Hk as [Hx Hk].
  cbn [notify_loop]. destruct (decide (changed seen x)) as [Hc|Hc]; [|by apply IH].
  destruct (composed x) as [[]|e]; [|done].
  specialize (IH (<[id x:=status x]> seen) Hk).
  destruct (notify_loop (<[id x:=status x]> seen) l) as [[events seen'] r].
  cbn in *. by rewrite IH, lookup_insert_ne.
Qed.

(** Run again on what it left, over deployments with distinct ids, the loop
    notifies nothing. *)
Lemma notify_loop_again `{Builtins} (seen : gmap string string) (l : list Deployment) :
  NoDup (id <$> l) → (notify_loop (notify_loop seen l).1.2 l).1.1 = [].
Proof.
  revert seen. induction l as [|x l IH]; intros seen Hnd; [done|].
  rewrite fmap_cons in Hnd. apply NoDup_cons in Hnd as [Hx Hnd].
  cbn [notify_loop]. destruct (decide (changed seen x)) as [Hc|Hc].
  - destruct (composed x) as [[]|e] eqn:Hcx.
    + pose proof (notify_loop_other (<[id x:=status x]> seen) l (id x) Hx) as Hk.
      specialize (IH (<[id x:=status x]> seen) Hnd).
      destruct (notify_loop (<[id x:=status x]> seen) l) as [[events seen'] r].
      cbn in *. rewrite lookup_insert_eq in Hk.
      rewrite decide_False by (intros Hn; by apply Hn). exact IH.
    + cbn [fst snd notify_loop]. by rewrite decide_True by done.
  - pose proof (notify_loop_other seen l (id x) Hx) as Hk.
    assert (¬ changed (notify_loop seen l).1.2 x) as Hc'.
    { unfold changed in *. by rewrite Hk. }
    rewrite decide_False by done. by apply IH.
Qed.

(** [_notify_production_events] as a function on the state. *)
Lemma notify_production_events_run `{Builtins} (deployments : list Deployment) (s : state) :
  _notify_production_events deployments s =
    if _prod_seen_bootstrapped s
    then (set_prod_seen (notify_loop (_prod_seen s) (production_of deployments)).1.2
            (set_shown (shown s ++ (ProductionEvent <$>
               (notify_loop (_prod_seen s) (production_of deployments)).1.1)) s),
          (notify_loop (_prod_seen s) (production_of deployments)).2)
    else (set_prod_seen_bootstrapped true
            (set_prod_seen (record_all (production_of deployments) (_prod_seen s)) s),
          Ok tt).
Proof.
  unfold _notify_production_events. fold (production_of deployments).
  rewrite bind_run. unfold read. destruct (_prod_seen_bootstrapped s) eqn:Hb; cbn [negb].
  - apply notify_loop_run. apply notify_body.
  - rewrite bind_run.
    rewrite (for_each_pure _ _ (λ d s, set_prod_seen (<[id d := status d]> (_prod_seen s)) s))
      by done.
    by rewrite bootstrap_fold.
Qed.

Lemma production_of_spec (deployments : list Deployment) (d : Deployment) :
  d ∈ production_of deployments ↔ d ∈ deployments ∧ lower (target d) = "production".
Proof.
  unfold production_of, is_production. rewrite list_elem_of_filter.
  rewrite String.eqb_eq. tauto.
Qed.

(** ** C2: the first poll *)

(** C2.  While [_prod_seen_bootstrapped] is false, [_notify_production_events]
    shows no notification; it records, in list order, the status of every
    deployment whose lowered target is "production" under the deployment's id
    (so that each such id ends up with the status of its last entry, and the
    other keys keep theirs), sets [_prod_seen_bootstrapped], and changes
    nothing else. *)
Theorem bootstrap_records_production `{Builtins} (deployments : list Deployment) (s : state) :
  _prod_seen_bootstrapped s = false →
  ∃ s',
    _notify_production_events deployments s = (s', Ok tt) ∧
    s' = set_prod_seen_bootstrapped true
           (set_prod_seen (record_all (production_of deployments) (_prod_seen s)) s) ∧
    shown s' = shown s ∧
    _prod_seen_bootstrapped s' = true ∧
    (∀ d, d ∈ production_of deployments ↔
          d ∈ deployments ∧ lower (target d) = "production") ∧
    (∀ k, _prod_seen s' !! k =
            match last (filter (λ d, id d = k) (production_of deployments)) with
            | Some d => Some (status d)
            | None => _prod_seen s !! k
            end) ∧
    (∀ d, d ∈ deployments → lower (target d) = "production" →
          is_Some (_prod_seen s' !! id d)) ∧
    (NoDup (id <$> production_of deployments) →
       ∀ d, d ∈ deployments → lower (target d) = "production" →
            _prod_seen s' !! id d = Some (status d)).
Proof.
  intros Hb. eexists. rewrite notify_production_events_run, Hb.
  split; [reflexivity|]. split; [reflexivity|]. split; [reflexivity|].
  split; [reflexivity|]. split; [apply production_of_spec|].
  cbn [_prod_seen set_prod_seen_bootstrapped set_prod_seen].
  split; [apply record_all_lookup|]. split.
  - intros d Hd Ht. rewrite record_all_lookup.
    assert (d ∈ filter (λ x, id x = id d) (production_of deployments)) as Hin.
    { apply list_elem_of_filter. split; [done|]. by apply production_of_spec. }
    destruct (last (filter (λ x, id x = id d) (production_of deployments))) eqn:Hl;
      [by eexists|].
    apply last_None in Hl. rewrite Hl in Hin. by apply elem_of_nil in Hin.
  - intros Hnd d Hd Ht. apply record_all_distinct; [done|]. by apply production_of_spec.
Qed.

Lemma bootstrap_records_production_witness :
  ∃ s', @_notify_production_events sample_builtins
          [dep "a" "ready" "Production"; dep "b" "building" "preview"] fresh = (s', Ok tt) ∧
        shown s' = [] ∧
        _prod_seen_bootstrapped s' = true ∧
        _prod_seen s' !! "a" = Some "ready" ∧
        _prod_seen s' !! "b" = None.
Proof.
  destruct (@bootstrap_records_production sample_builtins
              [dep "a" "ready" "Production"; dep "b" "building" "preview"] fresh eq_refl)
    as (s' & Hrun & Hs' & Hshown & Hb & _ & Hseen & _).
  exists s'. split; [exact Hrun|]. split; [exact Hshown|]. split; [exact Hb|].
  split; [rewrite Hseen; reflexivity | rewrite Hseen; reflexivity].
Defined.

(** ** C3: later polls *)

Lemma events_from_app (seen : gmap string string) (l1 l2 : list Deployment) :
  events_from seen (l1 ++ l2)
  = (events_from seen l1 ++ events_from (record_all l1 seen) l2)%list.
Proof.
  revert seen. induction l1 as [|d l1 IH]; intros seen; [done|].
  cbn [app events_from]. rewrite IH, record_all_cons. by rewrite (assoc_L (++)).
Qed.

Lemma filter_changed_insert (seen : gmap string string) (k v : string) (l : list Deployment) :
  k ∉ id <$> l → filter (changed (<[k := v]> seen)) l = filter (changed seen) l.
Proof.
  induction l as [|x l IH]; intros Hk; [done|].
  rewrite fmap_cons in Hk. apply not_elem_of_cons in Hk as [Hx Hk].
  assert (changed (<[k := v]> seen) x ↔ changed seen x) as Hiff.
  { unfold changed. by rewrite lookup_insert_ne. }
  rewrite !filter_cons, IH by done.
  destruct (decide (changed (<[k := v]> seen) x)), (decide (changed seen x)); tauto.
Qed.

Lemma events_from_distinct (seen : gmap string string) (l : list Deployment) :
  NoDup (id <$> l) → events_from seen l = filter (changed seen) l.
Proof.
  revert seen. induction l as [|d l IH]; intros seen Hnd; [done|].
  rewrite fmap_cons in Hnd. apply NoDup_cons in Hnd as [Hd Hnd].
  cbn [events_from]. rewrite filter_cons, IH, filter_changed_insert by done.
  by destruct (decide (changed seen d)).
Qed.

(** C3 (amended).  After the bootstrap, and when the text of every
    notification that is due can be put together, [_notify_production_events]
    goes through the production deployments of the poll in order; a
    notification is sent for a deployment exactly when, at its turn, its id
    is absent from [_prod_seen] or stored with another status, where
    [_prod_seen] then already holds the earlier deployments of the same poll;
    in exactly those cases the entry is updated.  Afterwards [_prod_seen]
    holds, under the id of every production deployment, the status of the
    last one carrying that id, and the other keys are unchanged.  When the
    production deployments have pairwise distinct ids, the notified ones are
    those that differ from [_prod_seen] as it was at the call, and afterwards
    [_prod_seen] agrees with the status of every production deployment of the
    poll. *)
Theorem production_changes_notified `{Builtins} (deployments : list Deployment) (s : state) :
  _prod_seen_bootstrapped s = true →
  (∀ d, d ∈ events_from (_prod_seen s) (production_of deployments) → composes d) →
  ∃ s',
    _notify_production_events deployments s = (s', Ok tt) ∧
    s' = set_prod_seen (record_all (production_of deployments) (_prod_seen s))
           (set_shown (shown s ++ (ProductionEvent <$>
                         events_from (_prod_seen s) (production_of deployments))) s) ∧
    (∀ pre d post, production_of deployments = (pre ++ d :: post)%list →
       events_from (_prod_seen s) (production_of deployments)
       = (events_from (_prod_seen s) pre
          ++ (if decide (changed (record_all pre (_prod_seen s)) d) then [d] else [])
          ++ events_from (record_all (pre ++ [d]) (_prod_seen s)) post)%list ∧
       (¬ changed (record_all pre (_prod_seen s)) d →
          record_all (pre ++ [d]) (_prod_seen s) = record_all pre (_prod_seen s))) ∧
    (∀ k, _prod_seen s' !! k =
            match last (filter (λ d, id d = k) (production_of deployments)) with
            | Some d => Some (status d)
            | None => _prod_seen s !! k
            end) ∧
    (NoDup (id <$> production_of deployments) →
       events_from (_prod_seen s) (production_of deployments)
       = filter (changed (_prod_seen s)) (production_of deployments) ∧
       ∀ d, d ∈ deployments → lower (target d) = "production" →
            _prod_seen s' !! id d = Some (status d)).
Proof.
  intros Hb Hall. eexists. rewrite notify_production_events_run, Hb.
  rewrite (notify_loop_ok _ _ Hall). cbn [fst snd].
  split; [reflexivity|]. split; [reflexivity|].
  cbn [_prod_seen set_prod_seen set_shown]. split; [|split].
  - intros pre d post ->. split.
    + rewrite events_from_app. cbn [events_from]. by rewrite record_all_snoc.
    + intros Hc. rewrite record_all_snoc. by apply unchanged_insert.
  - apply record_all_lookup.
  - intros Hnd. split; [by apply events_from_distinct|].
    intros d Hd Ht. apply record_all_distinct; [done|]. by apply production_of_spec.
Qed.

Lemma production_changes_notified_witness :
  ∃ s', @_notify_production_events sample_builtins
          [dep "a" "ready" "production"; dep "b" "error" "Production"; dep "c" "ready" "preview"]
          (set_prod_seen {["a" := "ready"]} polled) = (s', Ok tt) ∧
        shown s' = [ProductionEvent (dep "b" "error" "Production")] ∧
        _prod_seen s' !! "a" = Some "ready" ∧
        _prod_seen s' !! "b" = Some "error" ∧
        _prod_seen s' !! "c" = None.
Proof.
  assert (∀ d, d ∈ events_from (_prod_seen (set_prod_seen {["a" := "ready"]} polled))
                     (production_of [dep "a" "ready" "production";
                                     dep "b" "error" "Production";
                                     dep "c" "ready" "preview"]) →
               @composes sample_builtins d) as Hall.
  { intros d Hd%events_from_subset%production_of_spec. destruct Hd as [Hd _].
    repeat (apply elem_of_cons in Hd as [->|Hd]; [vm_compute; reflexivity|]).
    by apply elem_of_nil in Hd. }
  destruct (@production_changes_notified sample_builtins
              [dep "a" "ready" "production"; dep "b" "error" "Production";
               dep "c" "ready" "preview"]
              (set_prod_seen {["a" := "ready"]} polled) eq_refl Hall)
    as (s' & Hrun & Hs' & _ & Hseen & _).
  exists s'. split; [exact Hrun|]. split; [rewrite Hs'; reflexivity|].
  split; [|split]; rewrite Hseen; reflexivity.
Defined.

(** Two production entries with the same id and different statuses: both are
    notified, and afterwards [_prod_seen] holds the status of the second, not
    of the first. *)
Lemma duplicate_id_disagrees :
  ∃ d, d ∈ [dep "a" "ready" "production"; dep "a" "error" "production"] ∧
       is_production d = true ∧
       _prod_seen (exec (@_notify_production_events sample_builtins
                           [dep "a" "ready" "production"; dep "a" "error" "production"])
                     polled) !! id d ≠ Some (status d).
Proof.
  exists (dep "a" "ready" "production"). split; [by left|]. split; [reflexivity|].
  unfold exec. rewrite notify_production_events_run. vm_compute. discriminate.
Qed.

(** A production deployment whose commit message is blank: the message line
    is taken from an empty list of lines, and the loop ends there, before the
    notification is shown and the entry updated. *)
Example blank_message_raises :
  @_notify_production_events sample_builtins [blank_message; dep "b" "error" "production"]
    polled
  = (polled, Raise IndexError).
Proof. vm_compute. reflexivity. Qed.

(** ** C4 and C9: the overall status *)

Lemma overall_of_eq (deployments : list Deployment) :
  match deployments with
  | [] => "error"
  | _ => _overall_status deployments
  end = overall_of deployments.
Proof. unfold overall_of. by destruct deployments. Qed.

Lemma overall_changed_eq (last : option string) (overall : string) :
  match last with
  | None => false
  | Some l => negb (String.eqb overall l)
  end = bool_decide (overall_changed last overall).
Proof.
  unfold overall_changed. destruct last as [l|].
  - destruct (String.eqb_spec overall l) as [->|Hne]; cbn; symmetry.
    + apply bool_decide_eq_false. tauto.
    + apply bool_decide_eq_true. split; congruence.
  - symmetry. apply bool_decide_eq_false. tauto.
Qed.

(** [_apply_update] as a whole.  When the menu rebuild raises, only the flag
    has been cleared; otherwise the overall status is announced and recorded,
    and the production part follows. *)
Lemma apply_update_run `{Builtins} (deployments : list Deployment) (s : state) :
  _apply_update deployments s =
    match humanize_all (listed s deployments) with
    | Raise e => (set_refresh_in_progress false s, Raise e)
    | Ok _ =>
        (set_prod_seen_bootstrapped (notify_prod_events s || _prod_seen_bootstrapped s)
           (set_prod_seen (production_outcome s deployments).1.2
              (set_shown
                 (shown s
                  ++ (if decide (overall_changed (_last_overall_status s)
                                   (overall_of deployments))
                      then [OverallStatus (overall_of deployments)] else [])
                  ++ (ProductionEvent <$> (production_outcome s deployments).1.1))
                 (set_last_overall_status (Some (overall_of deployments))
                    (set_refresh_in_progress false s)))),
         (production_outcome s deployments).2)
    end.
Proof.
  unfold _apply_update, production_outcome. rewrite overall_of_eq.
  rewrite bind_run. unfold modify at 1. cbn beta iota.
  rewrite bind_run, rebuild_run.
  change (listed (set_refresh_in_progress false s) deployments) with (listed s deployments).
  destruct (humanize_all (listed s deployments)) as [[]|e]; [|done].
  destruct s as [tid flag last seen boot ri mi cl npe tm nx wk idl sh].
  cbn [_last_overall_status notify_prod_events _prod_seen_bootstrapped _prod_seen shown
       set_refresh_in_progress].
  run_action. cbn [_last_overall_status set_refresh_in_progress].
  rewrite overall_changed_eq.
  destruct (decide (overall_changed last (overall_of deployments))) as [Hc|Hc];
    [rewrite bool_decide_eq_true_2 by done | rewrite bool_decide_eq_false_2 by done];
    run_action; cbn [notify_prod_events set_last_overall_status set_shown
                       set_refresh_in_progress];
    destruct npe; rewrite ?notify_production_events_run;
    cbn [_prod_seen_bootstrapped set_last_overall_status set_shown set_refresh_in_progress];
    destruct boot; cbn;
    rewrite <- ?(assoc_L (++)), ?(right_id_L [] (++)); reflexivity.
Qed.

(** Whatever [_apply_update] does, it clears the flag and touches neither
    the timer nor the workers nor the idle queue nor the settings. *)
Lemma apply_update_frame `{Builtins} (deployments : list Deployment) (s : state) :
  _refresh_in_progress (_apply_update deployments s).1 = false ∧
  _refresh_timer_id (_apply_update deployments s).1 = _refresh_timer_id s ∧
  timers (_apply_update deployments s).1 = timers s ∧
  next_source (_apply_update deployments s).1 = next_source s ∧
  workers (_apply_update deployments s).1 = workers s ∧
  idle (_apply_update deployments s).1 = idle s ∧
  refresh_interval (_apply_update deployments s).1 = refresh_interval s ∧
  max_items (_apply_update deployments s).1 = max_items s ∧
  notify_prod_events (_apply_update deployments s).1 = notify_prod_events s.
Proof.
  rewrite apply_update_run. by destruct (humanize_all (listed s deployments)).
Qed.


(** What the production part notifies was due, and its text could be put
    together. *)
Lemma production_outcome_events `{Builtins} (deployments : list Deployment) (s : state)
    (d : Deployment) :
  d ∈ (production_outcome s deployments).1.1 →
  notify_prod_events s = true ∧ _prod_seen_bootstrapped s = true ∧
  d ∈ events_from (_prod_seen s) (production_of deployments) ∧ composes d.
Proof.
  unfold production_outcome.
  destruct (notify_prod_events s), (_prod_seen_bootstrapped s); cbn;
    try by intros ?%elem_of_nil.
  intros Hd. split; [done|]. split; [done|]. split; [|by eapply notify_loop_composes].
  destruct (notify_loop_events (_prod_seen s) (production_of deployments)) as [post ->].
  apply elem_of_app. by left.
Qed.

(** What [_apply_update] does to what was seen and shown. *)
Lemma apply_update_fields `{Builtins} (deployments : list Deployment) (s : state) :
  (∀ e, humanize_all (listed s deployments) = Raise e →
        _apply_update deployments s = (set_refresh_in_progress false s, Raise e)) ∧
  (humanize_all (listed s deployments) = Ok tt →
     (_apply_update deployments s).2 = (production_outcome s deployments).2 ∧
     shown (_apply_update deployments s).1
     = (shown s
        ++ (if decide (overall_changed (_last_overall_status s) (overall_of deployments))
            then [OverallStatus (overall_of deployments)] else [])
        ++ (ProductionEvent <$> (production_outcome s deployments).1.1))%list ∧
     _prod_seen (_apply_update deployments s).1 = (production_outcome s deployments).1.2 ∧
     _prod_seen_bootstrapped (_apply_update deployments s).1
     = notify_prod_events s || _prod_seen_bootstrapped s ∧
     _last_overall_status (_apply_update deployments s).1 = Some (overall_of deployments)).
Proof.
  rewrite apply_update_run. split.
  - by intros e ->.
  - by intros ->.
Qed.

Lemma has_status (st : string) (deployments : list Deployment) :
  existsb (λ d, String.eqb (status d) st) deployments = true ↔
  ∃ d, d ∈ deployments ∧ status d = st.
Proof.
  rewrite existsb_exists. split; intros (d & Hd & Hs); exists d.
  - split; [by apply list_elem_of_In | by apply String.eqb_eq].
  - split; [by apply list_elem_of_In | by apply String.eqb_eq].
Qed.

Lemma overall_notification_inv (o overall : string) (sent : bool) (events : list Deployment) :
  OverallStatus o ∈ ((if sent then [OverallStatus overall] else [])
                     ++ (ProductionEvent <$> events))%list ↔
  o = overall ∧ sent = true.
Proof.
  rewrite elem_of_app, list_elem_of_fmap. split.
  - intros [Ho|(d & [=] & _)]. destruct sent; [|by apply elem_of_nil in Ho].
    apply list_elem_of_singleton in Ho. by injection Ho as ->.
  - intros [-> ->]. left. by left.
Qed.

(** When the menu rebuild returns, [_apply_update] shows an "Overall status"
    notification, for the newly computed overall status, if and only if that
    status differs from [_last_overall_status] and [_last_overall_status] is
    not [None], and [_last_overall_status] is the new overall status
    afterwards; when the rebuild raises, neither happens. *)
Lemma apply_update_overall_notification `{Builtins} (deployments : list Deployment)
    (s : state) :
  (humanize_all (listed s deployments) = Ok tt →
     (∀ o, OverallStatus o ∈ drop (length (shown s)) (shown (exec (_apply_update deployments) s))
           ↔ o = overall_of deployments ∧
             _last_overall_status s ≠ Some (overall_of deployments) ∧
             _last_overall_status s ≠ None) ∧
     _last_overall_status (exec (_apply_update deployments) s)
     = Some (overall_of deployments)) ∧
  (∀ e, humanize_all (listed s deployments) = Raise e →
     shown (exec (_apply_update deployments) s) = shown s ∧
     _last_overall_status (exec (_apply_update deployments) s) = _last_overall_status s).
Proof.
  destruct (apply_update_fields deployments s) as [Hraise Hok]. unfold exec. split.
  - intros Hh. destruct (Hok Hh) as (_ & Hshown & _ & _ & Hlast).
    split; [|exact Hlast]. intros o. rewrite Hshown, drop_app_length.
    destruct (decide (overall_changed (_last_overall_status s) (overall_of deployments)))
      as [Hc|Hc].
    + pose proof (overall_notification_inv o (overall_of deployments) true
                    (production_outcome s deployments).1.1) as Hinv.
      cbn [app] in Hinv |- *. rewrite Hinv. unfold overall_changed in Hc. tauto.
    + pose proof (overall_notification_inv o (overall_of deployments) false
                    (production_outcome s deployments).1.1) as Hinv.
      cbn [app] in Hinv |- *. rewrite Hinv. unfold overall_changed in Hc.
      split; [intros [_ [=]] | tauto].
  - intros e He. by rewrite (Hraise e He).
Qed.

(** The payload from which [_parse_deployment] builds [far_dated]. *)
Example far_dated_parsed :
  @_parse_deployment sample_builtins 0
    (obj [ ("uid", JStr "far"); ("name", JStr "site"); ("createdAt", JInt 253402300799000);
           ("readyState", JStr "ERROR"); ("target", JStr "production") ])
  = Ok far_dated.
Proof. vm_compute. reflexivity. Qed.

(** C4.  An update that lists a deployment created in the last second of
    [datetime]'s range, in a zone east of UTC: the overall status has changed
    from "ready" to "error", but the time label of the menu item cannot be
    computed, [_apply_update] raises [OverflowError] from the menu rebuild,
    and neither is the notification shown nor the new status recorded. *)
Theorem apply_update_far_dated :
  overall_of [far_dated] = "error" ∧
  overall_changed (_last_overall_status configured) (overall_of [far_dated]) ∧
  @_apply_update sample_builtins [far_dated] configured
  = (set_refresh_in_progress false configured, Raise OverflowError) ∧
  shown (exec (@_apply_update sample_builtins [far_dated]) configured) = shown configured ∧
  _last_overall_status (exec (@_apply_update sample_builtins [far_dated]) configured)
  = Some "ready".
Proof.
  split; [reflexivity|]. split; [by split|].
  assert (@humanize_all sample_builtins (listed configured [far_dated]) = Raise OverflowError)
    as Hh by (vm_compute; reflexivity).
  destruct (@apply_update_fields sample_builtins [far_dated] configured) as [Hraise _].
  unfold exec. rewrite (Hraise _ Hh). by repeat split.
Qed.

(** The first refresh is silent; a later change is announced. *)
Example apply_update_first_refresh :
  shown (exec (@_apply_update sample_builtins [dep "a" "building" "preview"]) fresh) = [] ∧
  _last_overall_status (exec (@_apply_update sample_builtins [dep "a" "building" "preview"])
                          fresh)
  = Some "building".
Proof. vm_compute. split; reflexivity. Qed.

Example apply_update_change :
  shown (exec (@_apply_update sample_builtins [dep "a" "building" "preview"]) configured)
  = [OverallStatus "building"].
Proof. vm_compute. reflexivity. Qed.

(** C9.  [_overall_status] is "building" if any deployment is building,
    otherwise "error" if any has status error, otherwise "ready" (so "ready"
    on the empty list); [_apply_update] takes "error" as the overall status
    of an empty list and [_overall_status] of a non-empty one, and records
    it unless the menu rebuild raises. *)
Theorem overall_status_priority `{Builtins} (deployments : list Deployment) :
  ((∃ d, d ∈ deployments ∧ status d = "building") →
     _overall_status deployments = "building") ∧
  ((∀ d, d ∈ deployments → status d ≠ "building") →
   (∃ d, d ∈ deployments ∧ status d = "error") →
     _overall_status deployments = "error") ∧
  ((∀ d, d ∈ deployments → status d ≠ "building" ∧ status d ≠ "error") →
     _overall_status deployments = "ready") ∧
  _overall_status [] = "ready" ∧
  (∀ s, _last_overall_status (exec (_apply_update []) s) = Some "error") ∧
  (∀ s, deployments ≠ [] →
        _last_overall_status (exec (_apply_update deployments) s)
        = if is_ok (humanize_all (listed s deployments))
          then Some (_overall_status deployments)
          else _last_overall_status s).
Proof.
  assert (∀ st, (∀ d, d ∈ deployments → status d ≠ st) →
                existsb (λ d, String.eqb (status d) st) deployments = false) as Hnone.
  { intros st Hall. apply not_true_is_false. intros (d & Hd & Hs)%has_status.
    by apply (Hall d). }
  split; [|split; [|split; [|split; [|split]]]].
  - intros Hb. unfold _overall_status. apply has_status in Hb. by rewrite Hb.
  - intros Hnb He. unfold _overall_status. rewrite (Hnone "building" Hnb).
    apply has_status in He. by rewrite He.
  - intros Hn. unfold _overall_status.
    rewrite (Hnone "building"), (Hnone "error"); [done| |]; intros d Hd; by apply Hn.
  - reflexivity.
  - intros s. unfold exec. rewrite apply_update_run, listed_nil. reflexivity.
  - intros s Hne. unfold exec. rewrite apply_update_run.
    destruct (humanize_all (listed s deployments)) as [[]|e]; cbn; [|done].
    unfold overall_of. by destruct (decide (deployments = [])).
Qed.

Lemma overall_status_priority_witness :
  _overall_status [dep "a" "error" "preview"; dep "b" "building" "preview"] = "building".
Proof.
  apply (proj1 (@overall_status_priority sample_builtins
                  [dep "a" "error" "preview"; dep "b" "building" "preview"])).
  exists (dep "b" "building" "preview"). split; [|reflexivity]. right. left.
Defined.

(** A listed deployment whose time label cannot be computed leaves the
    recorded status as it was. *)
Example far_dated_status_not_recorded :
  _last_overall_status
    (exec (@_apply_update sample_builtins [dep "a" "building" "preview"; far_dated])
       configured)
  = Some "ready".
Proof. vm_compute. reflexivity. Qed.

(** ** C5 and C6: fetches and timers *)

Example sample_state_reached :
  (_refresh_timer_id sample_state, timers sample_state, workers sample_state,
   _refresh_in_progress sample_state, idle sample_state, shown sample_state)
  = (Some 2%nat, {[ 2%nat := 30 ]}, 1%nat, true, [], []).
Proof. vm_compute. reflexivity. Qed.

Lemma spawn_run (s : state) :
  _spawn_refresh_thread s =
    (if _refresh_in_progress s then s
     else set_workers (S (workers s)) (set_refresh_in_progress true s), Ok tt).
Proof.
  unfold _spawn_refresh_thread, start_worker. run_action.
  by destruct (_refresh_in_progress s).
Qed.

Lemma spawn_fetch_inv (s : state) : fetch_inv s → fetch_inv (_spawn_refresh_thread s).1.
Proof.
  rewrite spawn_run. intros Hinv. cbn [fst].
  destruct (_refresh_in_progress s) eqn:Hf; [exact Hinv|].
  destruct Hinv as [Hle Hzero]. specialize (Hzero Hf).
  unfold fetch_inv, outstanding in *. cbn. split; [lia | done].
Qed.

Lemma spawn_same_timers (s : state) :
  timers (_spawn_refresh_thread s).1 = timers s ∧
  _refresh_timer_id (_spawn_refresh_thread s).1 = _refresh_timer_id s ∧
  next_source (_spawn_refresh_thread s).1 = next_source s ∧
  refresh_interval (_spawn_refresh_thread s).1 = refresh_interval s ∧
  idle (_spawn_refresh_thread s).1 = idle s.
Proof. rewrite spawn_run. by destruct (_refresh_in_progress s). Qed.

Lemma valid_interval_test (n : Z) :
  (0 <=? n) && (n <? 2 ^ 32) = bool_decide (valid_interval n).
Proof.
  unfold valid_interval. symmetry.
  destruct ((0 <=? n) && (n <? 2 ^ 32)) eqn:E.
  - apply bool_decide_eq_true. apply andb_true_iff in E as [?%Z.leb_le ?%Z.ltb_lt]. lia.
  - apply bool_decide_eq_false. intros [? ?].
    apply andb_false_iff in E as [?%Z.leb_gt|?%Z.ltb_ge]; lia.
Qed.

(** [_schedule_refresh]: the registered source is removed first, a fetch is
    spawned when asked for, and a source with the current interval is
    registered, unless GLib refuses the interval. *)
Lemma schedule_refresh_run (immediate : bool) (s : state) :
  timer_inv s →
  ∃ s' r,
    _schedule_refresh immediate s = (s', r) ∧
    idle s' = idle s ∧ refresh_interval s' = refresh_interval s ∧
    _refresh_in_progress s' = (if immediate then true else _refresh_in_progress s) ∧
    workers s' = (if immediate && negb (_refresh_in_progress s)
                  then S (workers s) else workers s) ∧
    (valid_interval (refresh_interval s) →
       r = Ok tt ∧ timers s' = {[ next_source s := refresh_interval s ]} ∧
       _refresh_timer_id s' = Some (next_source s) ∧ next_source s' = S (next_source s)) ∧
    (¬ valid_interval (refresh_interval s) →
       r = Raise OverflowError ∧ timers s' = ∅ ∧ _refresh_timer_id s' = None).
Proof.
  intros Hinv. unfold timer_inv in Hinv.
  destruct s as [tid flag last seen boot ri mi cl npe tm nx wk idl sh].
  cbn in Hinv. pose proof (valid_interval_test ri) as Hvt.
  destruct tid as [i|]; [destruct Hinv as [[n ->] Hlt] | subst tm];
    destruct immediate, flag;
    unfold _schedule_refresh, source_remove, timeout_add_seconds, _spawn_refresh_thread,
      start_worker;
    repeat (run_action; cbn -[Z.pow Z.leb Z.ltb]); rewrite ?delete_singleton_eq;
    destruct ((0 <=? ri) && (ri <? 2 ^ 32)) eqn:E;
    symmetry in Hvt;
    (apply bool_decide_eq_true in Hvt || apply bool_decide_eq_false in Hvt);
    repeat (run_action; cbn -[Z.pow Z.leb Z.ltb]);
    eexists _, _; (split; [reflexivity|]); cbn -[Z.pow Z.leb Z.ltb];
    repeat split; try done; try (intros; by rewrite insert_empty).
Qed.

(** Case analysis on every result an action depends on. *)
Ltac run_cases :=
  repeat first
    [ rewrite bind_run
    | progress unfold modify, read, show, lift, idle_add, mret, action_ret
    | progress cbn beta iota
    | match goal with
      | |- context [match ?r with Ok _ => _ | Raise _ => _ end] => destruct r
      end ].

Lemma same_loop_refl (s : state) : same_loop s s.
Proof. by repeat split. Qed.

Lemma reconfigure_same_loop `{Builtins} (cfg : result json) (s : state) :
  same_loop s (_reconfigure cfg s).1.
Proof.
  unfold _reconfigure. run_cases; by repeat split.
Qed.

Lemma same_loop_outstanding (s s' : state) : same_loop s s' → outstanding s' = outstanding s.
Proof. intros (_ & _ & _ & Hw & Hi & _). unfold outstanding. by rewrite Hw, Hi. Qed.

Lemma same_loop_fetch_inv (s s' : state) : same_loop s s' → fetch_inv s → fetch_inv s'.
Proof.
  intros Hs [Hle Hz]. unfold fetch_inv. rewrite (same_loop_outstanding _ _ Hs).
  destruct Hs as (_ & _ & _ & _ & _ & Hf). by rewrite Hf.
Qed.

Lemma same_loop_timer_inv (s s' : state) : same_loop s s' → timer_inv s → timer_inv s'.
Proof. intros (Ht & Hid & Hn & _). unfold timer_inv. by rewrite Ht, Hid, Hn. Qed.

Lemma schedule_fetch_inv (immediate : bool) (s : state) :
  timer_inv s → fetch_inv s → fetch_inv (_schedule_refresh immediate s).1.
Proof.
  intros Ht [Hle Hz].
  destruct (schedule_refresh_run immediate s Ht) as (s' & r & -> & Hi & _ & Hf & Hw & _).
  cbn [fst]. unfold fetch_inv, outstanding in *. rewrite Hi, Hw, Hf.
  destruct immediate; cbn; [|done].
  destruct (_refresh_in_progress s); cbn; [by split|].
  specialize (Hz eq_refl). split; [lia | done].
Qed.

Lemma schedule_timer_inv (immediate : bool) (s : state) :
  timer_inv s → timer_inv (_schedule_refresh immediate s).1.
Proof.
  intros Ht.
  destruct (schedule_refresh_run immediate s Ht) as (s' & r & -> & _ & _ & _ & _ & Hv & Hn).
  cbn [fst]. unfold timer_inv.
  destruct (decide (valid_interval (refresh_interval s))) as [Hok|Hbad].
  - destruct (Hv Hok) as (_ & -> & -> & ->). split; [by eexists | lia].
  - by destruct (Hn Hbad) as (_ & -> & ->).
Qed.

Lemma delete_count (l : list idle_callback) (k : nat) (cb : idle_callback) :
  l !! k = Some cb →
  length (filter (λ c, is_update c = true) l) =
  ((if is_update cb then 1 else 0) + length (filter (λ c, is_update c = true) (delete k l)))%nat.
Proof.
  intros Hk. rewrite <- (take_drop_middle l k cb Hk) at 1.
  rewrite delete_take_drop, !filter_app, filter_cons, !length_app.
  destruct (is_update cb) eqn:Hcb.
  - rewrite decide_True by done. cbn. lia.
  - rewrite decide_False by done. lia.
Qed.

Lemma worker_run (r : result (list Deployment)) (s : state) :
  ∃ s' deployments,
    worker r s = (s', Ok tt) ∧
    workers s' = workers s ∧ _refresh_in_progress s' = _refresh_in_progress s ∧
    timers s' = timers s ∧ _refresh_timer_id s' = _refresh_timer_id s ∧
    next_source s' = next_source s ∧
    length (filter (λ c, is_update c = true) (idle s'))
    = S (length (filter (λ c, is_update c = true) (idle s))) ∧
    deployments = match r with Ok ds => ds | Raise _ => [] end.
Proof.
  unfold worker. destruct r as [ds|e]; run_cases; eexists _, _;
    (split; [reflexivity|]); cbn; repeat split;
    rewrite ?filter_app, ?length_app; cbn;
    repeat case_decide; try done; cbn; lia.
Qed.

Lemma blank_inv `{Builtins} : fetch_inv blank ∧ timer_inv blank.
Proof. repeat split. unfold outstanding. cbn. lia. Qed.

Lemma init_inv `{Builtins} (cfg1 cfg2 : result json) :
  fetch_inv (__init__ cfg1 cfg2 blank).1 ∧ timer_inv (__init__ cfg1 cfg2 blank).1.
Proof.
  unfold __init__. rewrite bind_run.
  pose proof (reconfigure_same_loop cfg1 blank) as Hsame.
  destruct (_reconfigure cfg1 blank) as [s1 [[]|e]]; cbn [fst] in Hsame |- *.
  - destruct blank_inv as [Hf Ht].
    apply (same_loop_fetch_inv _ _ Hsame) in Hf. apply (same_loop_timer_inv _ _ Hsame) in Ht.
    destruct cfg2 as [cfg|e]; [|done].
    destruct (v ← get_first cfg ["token"] (JStr ""); py_strip v) as [tok|e] eqn:Htok;
      rewrite !bind_run; unfold lift; cbn beta iota; rewrite !bind_run, Htok;
      cbn beta iota; [|done].
    destruct (String.eqb tok "").
    + unfold idle_add, modify. cbn [fst]. split.
      * destruct Hf as [Hle Hz]. unfold fetch_inv, outstanding in *. cbn.
        rewrite filter_app, length_app. cbn. rewrite decide_False by done. cbn.
        rewrite Nat.add_0_r. by split.
      * exact Ht.
    + split; [by apply schedule_fetch_inv | by apply schedule_timer_inv].
  - destruct blank_inv as [Hf Ht].
    split; [by apply (same_loop_fetch_inv _ _ Hsame) | by apply (same_loop_timer_inv _ _ Hsame)].
Qed.

Lemma step_inv `{Builtins} (e : event) (s s' : state) :
  fetch_inv s → timer_inv s → step e s = Some s' → fetch_inv s' ∧ timer_inv s'.
Proof.
  intros Hf Ht. destruct e as [|cfg|i|r|k]; cbn [step].
  - intros [= <-]. unfold exec, _manual_refresh.
    split; [by apply schedule_fetch_inv | by apply schedule_timer_inv].
  - intros [= <-]. unfold exec, _on_prefs_saved. rewrite bind_run.
    pose proof (reconfigure_same_loop cfg s) as Hsame.
    destruct (_reconfigure cfg s) as [s1 [[]|err]]; cbn [fst] in Hsame |- *;
      apply (same_loop_fetch_inv _ _ Hsame) in Hf;
      apply (same_loop_timer_inv _ _ Hsame) in Ht; [|done].
    split; [by apply schedule_fetch_inv | by apply schedule_timer_inv].
  - destruct (timers s !! i); [|done]. intros [= <-].
    unfold exec, _refresh_timeout_cb. rewrite bind_run.
    pose proof (spawn_fetch_inv s Hf) as Hf'.
    destruct (spawn_same_timers s) as (Htm & Hid & Hnx & _).
    destruct (_spawn_refresh_thread s) as [s1 [[]|err]] eqn:Hs;
      unfold mret, action_ret; cbn [fst] in *;
      (split; [done|]); unfold timer_inv in *; by rewrite Htm, Hid, Hnx.
  - destruct (workers s) as [|n] eqn:Hw; [done|]. intros [= <-].
    destruct (worker_run r (set_workers n s))
      as (s1 & ds & Hrun & Hw1 & Hf1 & Ht1 & Hid1 & Hnx1 & Hc & _).
    unfold exec. rewrite Hrun. cbn [fst]. split.
    + destruct Hf as [Hle Hz]. unfold fetch_inv, outstanding in *.
      rewrite Hw1, Hc, Hf1. cbn. cbn in Hz. rewrite Hw in *. split; [lia|].
      intros Hflag. specialize (Hz Hflag). lia.
    + unfold timer_inv in *. by rewrite Ht1, Hid1, Hnx1.
  - destruct (idle s !! k) as [cb|] eqn:Hk; [|done]. intros [= <-].
    pose proof (delete_count _ _ _ Hk) as Hcount.
    destruct Hf as [Hle Hz]. unfold fetch_inv, outstanding in *.
    destruct cb as [ds| |]; cbn [run_idle is_update] in *.
    + destruct (apply_update_frame ds (set_idle (delete k (idle s)) s))
        as (Hf1 & Hid1 & Ht1 & Hnx1 & Hw1 & Hi1 & _).
      unfold exec. split.
      * rewrite Hw1, Hi1. cbn. split; [lia|]. intros _. lia.
      * unfold timer_inv in *. by rewrite Ht1, Hid1, Hnx1.
    + unfold exec. cbn. split; [|done]. split; [lia|]. intros Hflag.
      specialize (Hz Hflag). lia.
    + unfold exec. cbn. split; [|done]. split; [lia|]. intros Hflag.
      specialize (Hz Hflag). lia.
Qed.

Lemma run_inv `{Builtins} (es : list event) (s s' : state) :
  fetch_inv s → timer_inv s → run es s = Some s' → fetch_inv s' ∧ timer_inv s'.
Proof.
  revert s. induction es as [|e es IH]; intros s Hf Ht; cbn [run].
  - by intros [= <-].
  - destruct (step e s) as [s1|] eqn:Hs; [|done].
    destruct (step_inv e s s1 Hf Ht Hs) as [Hf1 Ht1]. by apply IH.
Qed.

Lemma reachable_inv `{Builtins} (s : state) : reachable s → fetch_inv s ∧ timer_inv s.
Proof.
  intros (cfg1 & cfg2 & s0 & es & Hstart & Hrun).
  unfold start in Hstart. pose proof (init_inv cfg1 cfg2) as [Hf Ht].
  destruct (__init__ cfg1 cfg2 blank) as [s1 [[]|err]]; [|done].
  injection Hstart as <-. by apply (run_inv es s1).
Qed.

Lemma reachable_step `{Builtins} (e : event) (s s' : state) :
  reachable s → step e s = Some s' → reachable s'.
Proof.
  intros (cfg1 & cfg2 & s0 & es & Hstart & Hrun) Hs.
  exists cfg1, cfg2, s0, (es ++ [e])%list. split; [done|].
  clear Hstart. revert s0 Hrun. induction es as [|e0 es IH]; intros s0; cbn [run app].
  - intros [= ->]. by rewrite Hs.
  - destruct (step e0 s0); [apply IH | done].
Qed.

(** What one turn of the main loop does to the flag and to the workers. *)
Lemma step_flag_workers `{Builtins} (e : event) (s s' : state) :
  timer_inv s → step e s = Some s' →
  (_refresh_in_progress s = true → _refresh_in_progress s' = false →
     ∃ k ds, e = IdleRuns k ∧ idle s !! k = Some (CallApplyUpdate ds)) ∧
  ((workers s < workers s')%nat →
     _refresh_in_progress s = false ∧ workers s' = S (workers s) ∧
     _refresh_in_progress s' = true).
Proof.
  intros Ht. destruct e as [|cfg|i|r|k]; cbn [step].
  - intros [= <-]. unfold exec, _manual_refresh.
    destruct (schedule_refresh_run true s Ht) as (s1 & r & -> & _ & _ & Hf & Hw & _).
    cbn [fst]. rewrite Hf, Hw. split; [congruence|].
    destruct (_refresh_in_progress s); cbn; [lia | done].
  - intros [= <-]. unfold exec, _on_prefs_saved. rewrite bind_run.
    pose proof (reconfigure_same_loop cfg s) as Hsame.
    destruct (_reconfigure cfg s) as [s1 [[]|err]]; cbn [fst] in Hsame |- *.
    + pose proof (same_loop_timer_inv _ _ Hsame Ht) as Ht1.
      destruct Hsame as (_ & _ & _ & Hws & _ & Hfs).
      destruct (schedule_refresh_run true s1 Ht1) as (s2 & r & -> & _ & _ & Hf & Hw & _).
      cbn [fst]. rewrite Hf, Hw, Hfs, Hws. split; [congruence|].
      destruct (_refresh_in_progress s); cbn; [lia | done].
    + destruct Hsame as (_ & _ & _ & Hws & _ & Hfs). rewrite Hfs, Hws.
      split; [congruence | lia].
  - destruct (timers s !! i); [|done]. intros [= <-].
    unfold exec, _refresh_timeout_cb. rewrite bind_run, spawn_run.
    unfold mret, action_ret. cbn [fst].
    destruct (_refresh_in_progress s) eqn:Hf; cbn; rewrite ?Hf;
      [split; [congruence | lia] | done].
  - destruct (workers s) as [|n] eqn:Hw; [done|]. intros [= <-].
    destruct (worker_run r (set_workers n s)) as (s1 & ds & Hrun & Hw1 & Hf1 & _).
    unfold exec. rewrite Hrun. cbn [fst]. rewrite Hw1, Hf1. cbn.
    split; [congruence | lia].
  - destruct (idle s !! k) as [cb|] eqn:Hk; [|done]. intros [= <-].
    destruct cb as [ds| |]; cbn [run_idle].
    + destruct (apply_update_frame ds (set_idle (delete k (idle s)) s))
        as (_ & _ & _ & _ & Hw1 & _).
      unfold exec. rewrite Hw1. cbn.
      split; [by exists k, ds | lia].
    + unfold exec. cbn. split; [congruence | lia].
    + unfold exec. cbn. split; [congruence | lia].
Qed.

(** C5.  In every state the running indicator can reach, at most one fetch
    is outstanding (a running worker, or its update waiting to be applied),
    and none while [_refresh_in_progress] is false.
    [_spawn_refresh_thread] returns without starting a worker when the flag
    is set, and otherwise sets the flag and starts one; a turn of the main
    loop clears the flag only by running [_apply_update]; and a turn that
    starts a worker does so from a state with no fetch outstanding. *)
Theorem single_fetch_in_flight `{Builtins} (s : state) :
  reachable s →
  (outstanding s ≤ 1)%nat ∧
  (_refresh_in_progress s = false → outstanding s = 0%nat) ∧
  (_refresh_in_progress s = true → _spawn_refresh_thread s = (s, Ok tt)) ∧
  (_refresh_in_progress s = false →
     _spawn_refresh_thread s
     = (set_workers (S (workers s)) (set_refresh_in_progress true s), Ok tt)) ∧
  (∀ e s', step e s = Some s' →
     _refresh_in_progress s = true → _refresh_in_progress s' = false →
     ∃ k ds, e = IdleRuns k ∧ idle s !! k = Some (CallApplyUpdate ds)) ∧
  (∀ e s', step e s = Some s' → (workers s < workers s')%nat →
     outstanding s = 0%nat ∧ workers s' = 1%nat ∧ _refresh_in_progress s' = true) ∧
  (∀ e s', step e s = Some s' → (outstanding s' ≤ 1)%nat).
Proof.
  intros Hr. destruct (reachable_inv s Hr) as [[Hle Hz] Ht].
  split; [exact Hle|]. split; [exact Hz|].
  split; [intros Hf; by rewrite spawn_run, Hf|].
  split; [intros Hf; by rewrite spawn_run, Hf|].
  split; [|split].
  - intros e s' Hs. by destruct (step_flag_workers e s s' Ht Hs).
  - intros e s' Hs Hlt. destruct (step_flag_workers e s s' Ht Hs) as [_ Hw].
    destruct (Hw Hlt) as (Hf & Hw' & Hf'). specialize (Hz Hf).
    split; [exact Hz|]. split; [|exact Hf'].
    unfold outstanding in Hz. lia.
  - intros e s' Hs.
    by destruct (reachable_inv s' (reachable_step e s s' Hr Hs)) as [[? _] _].
Qed.

Lemma sample_state_reachable : @reachable sample_builtins sample_state.
Proof.
  exists (Ok cfg_with_token), (Ok cfg_with_token), sample_start, sample_events.
  split; vm_compute; reflexivity.
Defined.

Lemma single_fetch_in_flight_witness :
  (outstanding sample_state ≤ 1)%nat ∧ _refresh_in_progress sample_state = true.
Proof.
  split; [|reflexivity].
  exact (proj1 (@single_fetch_in_flight sample_builtins sample_state sample_state_reachable)).
Defined.

(** While a worker is running, the timer and a manual refresh start no
    second one. *)
Example no_second_fetch :
  workers <$> @run sample_builtins [TimerFires 1; ManualRefresh; TimerFires 2] sample_start
  = Some 1%nat.
Proof. vm_compute. reflexivity. Qed.

Lemma timer_inv_at_most_one (s : state) :
  timer_inv s →
  (size (timers s) ≤ 1)%nat ∧
  (∀ i, is_Some (timers s !! i) ↔ _refresh_timer_id s = Some i).
Proof.
  unfold timer_inv. destruct (_refresh_timer_id s) as [j|].
  - intros [[n ->] _]. rewrite map_size_singleton. split; [done|].
    intros i. split.
    + intros [x [-> _]%lookup_singleton_Some]. done.
    + intros [= ->]. rewrite lookup_singleton_eq. by eexists.
  - intros ->. rewrite map_size_empty. split; [lia|].
    intros i. rewrite lookup_empty. split; [by intros [? ?] | done].
Qed.

(** C6 (amended).  In every state the running indicator can reach, at most
    one timeout source is active, namely the one [_refresh_timer_id] names.
    Every call of [_schedule_refresh] leaves the previously registered source
    removed and, when [refresh_interval] is an interval GLib accepts, a new
    source at that interval as the only one; when GLib refuses the interval,
    the call raises [OverflowError] after the removal and no source is left.
    Every turn of the main loop, among them a manual refresh and saved
    preferences, as well as the start of the indicator, preserves this; a
    source that fires stays registered. *)
Theorem single_refresh_timer `{Builtins} (s : state) :
  reachable s →
  (size (timers s) ≤ 1)%nat ∧
  (∀ i, is_Some (timers s !! i) ↔ _refresh_timer_id s = Some i) ∧
  (∀ immediate, ∃ s' r,
     _schedule_refresh immediate s = (s', r) ∧
     (∀ i, _refresh_timer_id s = Some i → timers s' !! i = None) ∧
     (valid_interval (refresh_interval s) →
        r = Ok tt ∧ timers s' = {[ next_source s := refresh_interval s ]} ∧
        _refresh_timer_id s' = Some (next_source s)) ∧
     (¬ valid_interval (refresh_interval s) →
        r = Raise OverflowError ∧ timers s' = ∅ ∧ _refresh_timer_id s' = None)) ∧
  (∀ e s', step e s = Some s' →
     (size (timers s') ≤ 1)%nat ∧
     (∀ i, is_Some (timers s' !! i) ↔ _refresh_timer_id s' = Some i)) ∧
  (∀ i s', step (TimerFires i) s = Some s' → timers s' = timers s).
Proof.
  intros Hr. destruct (reachable_inv s Hr) as [Hf Ht].
  destruct (timer_inv_at_most_one s Ht) as [Hsize Hdom].
  split; [exact Hsize|]. split; [exact Hdom|]. split; [|split].
  - intros immediate.
    destruct (schedule_refresh_run immediate s Ht) as (s' & r & Hrun & _ & _ & _ & _ & Hv & Hn).
    exists s', r. split; [exact Hrun|]. split; [|split].
    + intros i Hi. unfold timer_inv in Ht. rewrite Hi in Ht. destruct Ht as [_ Hlt].
      destruct (decide (valid_interval (refresh_interval s))) as [Hok|Hbad].
      * destruct (Hv Hok) as (_ & -> & _). apply lookup_singleton_ne. lia.
      * destruct (Hn Hbad) as (_ & -> & _). apply lookup_empty.
    + intros Hok. destruct (Hv Hok) as (? & ? & ? & _). done.
    + exact Hn.
  - intros e s' Hs. apply timer_inv_at_most_one.
    by destruct (reachable_inv s' (reachable_step e s s' Hr Hs)).
  - intros i s'. cbn [step]. destruct (timers s !! i); [|done]. intros [= <-].
    unfold exec, _refresh_timeout_cb. rewrite bind_run.
    destruct (spawn_same_timers s) as (Htm & _).
    destruct (_spawn_refresh_thread s) as [s1 [[]|err]]; exact Htm.
Qed.

Lemma single_refresh_timer_witness :
  (size (timers sample_state) ≤ 1)%nat ∧ timers sample_state = {[ 2%nat := 30 ]}.
Proof.
  split; [|reflexivity].
  exact (proj1 (@single_refresh_timer sample_builtins sample_state sample_state_reachable)).
Defined.

(** Saving preferences with another interval replaces the timer. *)
Example prefs_saved_replaces_timer :
  (λ s : state, (_refresh_timer_id s, timers s)) <$>
    @run sample_builtins
      [PrefsSaved (Ok (obj [("token", JStr "tok"); ("refresh_interval", JInt 60)]))]
      sample_start
  = Some (Some 2%nat, {[ 2%nat := 60 ]}).
Proof. vm_compute. reflexivity. Qed.

(** An interval GLib refuses: once preferences with the interval -5 have
    been saved, no timer is left, and a call of [_schedule_refresh] registers
    none; it raises. *)
Lemma negative_interval_no_timer :
  @reachable sample_builtins refused_interval ∧
  refresh_interval refused_interval = -5 ∧
  timers refused_interval = ∅ ∧
  _schedule_refresh false refused_interval = (refused_interval, Raise OverflowError) ∧
  _schedule_refresh true refused_interval = (refused_interval, Raise OverflowError).
Proof.
  split; [|by vm_compute].
  exists (Ok cfg_with_token), (Ok cfg_with_token), sample_start,
    [PrefsSaved (Ok (obj [("token", JStr "tok"); ("refresh_interval", JInt (-5))]))].
  split; vm_compute; reflexivity.
Qed.

(** * Further properties *)

(** ** [list_deployments]: endpoints and payloads *)

(** X1.  When the attempt on the v13 endpoint fails, whatever the exception,
    and the one on v6 succeeds, [list_deployments] returns the v6 result,
    having sent one request to each endpoint, v13 first. *)
Theorem list_deployments_falls_back `{Builtins} (tok : string) (team : option string)
    (session : transport) (clock : nat → datetime) (limit : Z) (e : exn)
    (ds : list Deployment) :
  fetch_from (new_client tok team) session clock limit "https://api.vercel.com/v13" = Raise e →
  fetch_from (new_client tok team) session clock limit "https://api.vercel.com/v6" = Ok ds →
  list_deployments (new_client tok team) session clock limit
  = ([params (new_client tok team) limit "https://api.vercel.com/v13";
      params (new_client tok team) limit "https://api.vercel.com/v6"], Ok ds).
Proof.
  intros H13 H6. unfold list_deployments.
  change (base_url_candidates (new_client tok team))
    with ["https://api.vercel.com/v13"; "https://api.vercel.com/v6"].
  cbn [try_candidates]. by rewrite H13, H6.
Qed.

Lemma list_deployments_falls_back_witness :
  @list_deployments sample_builtins (@new_client sample_builtins "tok" None)
    legacy_session (λ _, 0) 10
  = ([@params (@new_client sample_builtins "tok" None) 10 "https://api.vercel.com/v13";
      @params (@new_client sample_builtins "tok" None) 10 "https://api.vercel.com/v6"],
     @fetch_from sample_builtins (@new_client sample_builtins "tok" None)
       legacy_session (λ _, 0) 10 "https://api.vercel.com/v6").
Proof.
  assert (∃ ds, @fetch_from sample_builtins (@new_client sample_builtins "tok" None)
                  legacy_session (λ _, 0) 10 "https://api.vercel.com/v6" = Ok ds) as [ds Hds].
  { eexists. vm_compute. reflexivity. }
  rewrite Hds.
  apply (@list_deployments_falls_back sample_builtins "tok" None legacy_session (λ _, 0) 10
           HTTPError ds); [vm_compute; reflexivity | exact Hds].
Defined.

(** X2.  When the attempts on both endpoints fail, [list_deployments] raises
    the exception of the last one (v6); an earlier one, such as the
    [PermissionError] for a 401 on v13, is lost. *)
Theorem list_deployments_raises_last `{Builtins} (tok : string) (team : option string)
    (session : transport) (clock : nat → datetime) (limit : Z) (e1 e2 : exn) :
  fetch_from (new_client tok team) session clock limit "https://api.vercel.com/v13" = Raise e1 →
  fetch_from (new_client tok team) session clock limit "https://api.vercel.com/v6" = Raise e2 →
  list_deployments (new_client tok team) session clock limit
  = ([params (new_client tok team) limit "https://api.vercel.com/v13";
      params (new_client tok team) limit "https://api.vercel.com/v6"], Raise e2).
Proof.
  intros H13 H6. unfold list_deployments.
  change (base_url_candidates (new_client tok team))
    with ["https://api.vercel.com/v13"; "https://api.vercel.com/v6"].
  cbn [try_candidates]. by rewrite H13, H6.
Qed.

Lemma list_deployments_raises_last_witness :
  (@list_deployments sample_builtins (@new_client sample_builtins "tok" None)
     rejecting_session (λ _, 0) 10).2 = Raise ConnectionError.
Proof.
  rewrite (@list_deployments_raises_last sample_builtins "tok" None rejecting_session
             (λ _, 0) 10 PermissionError ConnectionError);
    [reflexivity | vm_compute; reflexivity | vm_compute; reflexivity].
Defined.

Lemma parse_all_not_dict `{Builtins} (clock : nat → datetime) (i : nat) (k : string)
    (rest : list json) :
  parse_all clock i (JStr k :: rest) = Raise AttributeError.
Proof. reflexivity. Qed.

(** X3.  How the answer of an endpoint is read.  A 401 gives
    [PermissionError] and any other 4xx or 5xx status [HTTPError], whatever
    the body.  Otherwise a falsy body ([null], an empty object or list, ...)
    yields no deployments; a body that is a non-empty list, or any other
    truthy value that is not an object, makes [data.get] raise
    [AttributeError]; so does a non-empty object without a truthy
    [deployments] entry, whose keys are then taken for deployments; and an
    object with a non-empty [deployments] list yields the parsed elements of
    that list. *)
Theorem parsed_of_body `{Builtins} (clock : nat → datetime) (res : response) :
  (status_code res = 401 → parsed_of clock res = Raise PermissionError) ∧
  (status_code res ≠ 401 → 400 ≤ status_code res < 600 →
     parsed_of clock res = Raise HTTPError) ∧
  (∀ body, ¬ (400 ≤ status_code res < 600) → json_body res = Ok body →
     (truthy body = false → parsed_of clock res = Ok []) ∧
     (truthy body = true → (∀ m, body ≠ JObj m) →
        parsed_of clock res = Raise AttributeError) ∧
     (∀ m, body = JObj m → truthy body = true →
        truthy (value_of m "deployments") = false →
        parsed_of clock res = Raise AttributeError) ∧
     (∀ m items, body = JObj m → value_of m "deployments" = JList items → items ≠ [] →
        parsed_of clock res = parse_all clock 0 items)).
Proof.
  unfold parsed_of, raise_for_status. split; [|split].
  - intros ->. reflexivity.
  - intros Hne [Hlo Hhi]. apply Z.eqb_neq in Hne. rewrite Hne.
    apply Z.leb_le in Hlo. apply Z.ltb_lt in Hhi. by rewrite Hlo, Hhi.
  - intros body Hst Hbody.
    assert ((status_code res =? 401) = false) as ->.
    { apply Z.eqb_neq. intros Heq. apply Hst. lia. }
    assert (((400 <=? status_code res) && (status_code res <? 600)) = false) as ->.
    { apply andb_false_iff.
      destruct (Z.leb_spec 400 (status_code res)); [|by left].
      right. apply Z.ltb_ge. lia. }
    rewrite Hbody. cbn [mbind result_bind]. split; [|split; [|split]].
    + intros ->. reflexivity.
    + intros -> Hnd. destruct body; try reflexivity. by destruct (Hnd m).
    + intros m -> Ht Hd. rewrite Ht. cbn [get mbind result_bind].
      fold (value_of m "deployments"). rewrite Hd. cbn [py_iter mbind result_bind].
      destruct (map_to_list m) as [|[k v] rest] eqn:Hl; [|reflexivity].
      apply map_to_list_empty_iff in Hl. subst m. discriminate Ht.
    + intros m items -> Hitems Hne.
      assert (truthy (JList items) = true) as Hti by (by destruct items).
      assert (truthy (JObj m) = true) as ->.
      { cbn. destruct (size m =? 0)%nat eqn:Hsz; [|done].
        apply Nat.eqb_eq, map_size_empty_inv in Hsz. subst m.
        unfold value_of in Hitems. by rewrite lookup_empty in Hitems. }
      cbn [get mbind result_bind]. fold (value_of m "deployments").
      rewrite Hitems, Hti. reflexivity.
Qed.

(** The v6 shape mentioned in the source, a bare list, is not accepted. *)
Example bare_list_body_raises :
  @parsed_of sample_builtins (λ _, 0)
    {| status_code := 200; json_body := Ok (JList [JObj fields_queued]) |}
  = Raise AttributeError.
Proof. reflexivity. Qed.

(** ** Sorting and parsed fields *)

Lemma insert_desc_front (d : Deployment) (l : list Deployment) :
  Forall (λ x, created_at x ≤ created_at d) l → insert_desc d l = d :: l.
Proof.
  destruct l as [|x l]; [done|]. intros [Hx _]%Forall_cons. cbn.
  apply Z.leb_le in Hx. by rewrite Hx.
Qed.

Lemma insert_desc_filter (t : datetime) (d : Deployment) (l : list Deployment) :
  descending l →
  filter (λ x, created_at x = t) (insert_desc d l)
  = filter (λ x, created_at x = t) (d :: l).
Proof.
  unfold descending. induction 1 as [|x l Hl IH Hx]; [done|]. cbn [insert_desc].
  destruct (created_at x <=? created_at d) eqn:Hle; [done|]. apply Z.leb_gt in Hle.
  rewrite (filter_cons _ x), IH, !filter_cons.
  destruct (decide (created_at x = t)), (decide (created_at d = t)); try done. lia.
Qed.

(** X4.  The sort of [list_deployments] is stable and leaves a list that is
    already latest-first as it is: deployments with the same creation time
    keep the order of the response. *)
Theorem sort_desc_stable (l : list Deployment) :
  (∀ t, filter (λ d, created_at d = t) (sort_desc l) = filter (λ d, created_at d = t) l) ∧
  (descending l → sort_desc l = l).
Proof.
  split.
  - intros t. induction l as [|d l IH]; [done|].
    change (sort_desc (d :: l)) with (insert_desc d (sort_desc l)).
    rewrite insert_desc_filter by apply sort_desc_descending.
    by rewrite !filter_cons, IH.
  - unfold descending. induction 1 as [|d l Hl IH Hd]; [done|].
    change (sort_desc (d :: l)) with (insert_desc d (sort_desc l)).
    rewrite IH. by apply insert_desc_front.
Qed.

Example sort_desc_ties :
  id <$> sort_desc [dep_at "a" 5; dep_at "b" 7; dep_at "c" 5; dep_at "d" 7]
  = ["b"; "d"; "a"; "c"].
Proof. reflexivity. Qed.

(** X5.  A [Deployment] that [_parse_deployment] returns never has an empty
    name: the name is "(unknown)" when neither [name] nor the name of
    [project] is truthy. *)
Theorem parse_deployment_name `{Builtins} (now : datetime) (raw : gmap string json)
    (d : Deployment) :
  _parse_deployment now (JObj raw) = Ok d →
  name d ≠ "" ∧
  (truthy (value_of raw "name") = true → py_str (value_of raw "name") ≠ "" →
     name d = py_str (value_of raw "name")) ∧
  (truthy (value_of raw "name") = false →
   truthy (value_of (dict_or_empty raw "project") "name") = false →
     name d = "(unknown)").
Proof.
  unfold _parse_deployment. intros Hd.
  destruct (get_first (JObj raw) ["id"; "uid"] (JStr "")) as [vid|]; [|done].
  cbn [mbind result_bind] in Hd.
  change (get (JObj raw) "name") with (Ok (value_of raw "name")) in Hd.
  cbn [mbind result_bind] in Hd.
  destruct (or_else (value_of raw "name") _) as [nm|] eqn:Hnm; [|done].
  cbn [mbind result_bind] in Hd.
  assert (name d = (let s := py_str nm in if String.eqb s "" then "(unknown)" else s)) as Hname.
  { repeat match type of Hd with
           | match ?r with _ => _ end = _ => destruct r; try discriminate
           | (_ ≫= _) = _ => unfold mbind, result_bind in Hd
           end.
    by injection Hd as <-. }
  clear Hd. cbn zeta in Hname. split; [|split].
  - rewrite Hname. destruct (String.eqb_spec (py_str nm) ""); [done|]. done.
  - intros Ht Hne. unfold or_else in Hnm. rewrite Ht in Hnm. injection Hnm as <-.
    rewrite Hname. by destruct (String.eqb_spec (py_str (value_of raw "name")) "").
  - intros Hf Hp. unfold or_else in Hnm. rewrite Hf in Hnm. cbn in Hnm.
    unfold dict_or_empty, value_of in Hp.
    destruct (raw !! "project") as [[]|] eqn:Hproj; cbn in Hnm; try discriminate.
    + unfold or_else in Hnm. rewrite Hp in Hnm. injection Hnm as <-.
      by rewrite Hname.
    + unfold or_else in Hnm. cbn in Hnm. injection Hnm as <-. by rewrite Hname.
Qed.

Lemma parse_deployment_name_witness :
  ∃ d, @_parse_deployment sample_builtins 0 (JObj fields_ready) = Ok d ∧ name d ≠ "".
Proof.
  destruct (@_parse_deployment sample_builtins 0 (JObj fields_ready)) as [d|] eqn:Hd;
    [|vm_compute in Hd; discriminate].
  exists d. split; [reflexivity|].
  exact (proj1 (@parse_deployment_name sample_builtins 0 fields_ready d Hd)).
Defined.

(** ** The overall status and the notifications *)

(** X6.  [_overall_status] depends only on which statuses occur among the
    deployments, not on their order or number, and is never "unknown":
    deployments that are neither building nor in error do not influence
    it. *)
Theorem overall_status_by_statuses (l1 l2 : list Deployment) :
  (∀ st, (∃ d, d ∈ l1 ∧ status d = st) ↔ (∃ d, d ∈ l2 ∧ status d = st)) →
  _overall_status l1 = _overall_status l2 ∧
  _overall_status l1 ∈ ["building"; "error"; "ready"] ∧
  _overall_status (filter (λ d, status d = "building" ∨ status d = "error") l1)
  = _overall_status l1.
Proof.
  intros Hsame.
  assert (∀ st l l', (∀ st, (∃ d, d ∈ l ∧ status d = st) → (∃ d, d ∈ l' ∧ status d = st)) →
            existsb (λ d, String.eqb (status d) st) l = true →
            existsb (λ d, String.eqb (status d) st) l' = true) as Hmono.
  { intros st l l' Hsub Hl. apply has_status. apply Hsub. by apply has_status. }
  assert (∀ st l l', (∀ st, (∃ d, d ∈ l ∧ status d = st) ↔ (∃ d, d ∈ l' ∧ status d = st)) →
            existsb (λ d, String.eqb (status d) st) l
            = existsb (λ d, String.eqb (status d) st) l') as Heq.
  { intros st l l' Hiff.
    destruct (existsb _ l) eqn:Hl, (existsb _ l') eqn:Hl'; try done.
    - rewrite (Hmono st l l') in Hl'; [done | apply Hiff | done].
    - rewrite (Hmono st l' l) in Hl; [done | apply Hiff | done]. }
  split; [|split].
  - unfold _overall_status. by rewrite (Heq "building" l1 l2), (Heq "error" l1 l2).
  - unfold _overall_status.
    destruct (existsb _ l1); [by left|].
    destruct (existsb _ l1); [right; by left | right; right; by left].
  - unfold _overall_status.
    assert (∀ st, st = "building" ∨ st = "error" →
              existsb (λ d, String.eqb (status d) st)
                (filter (λ d, status d = "building" ∨ status d = "error") l1)
              = existsb (λ d, String.eqb (status d) st) l1) as Hf.
    { intros st Hst.
      destruct (existsb _ l1) eqn:Hl.
      - apply has_status in Hl as (d & Hd & Hs). apply has_status. exists d.
        split; [|done]. apply list_elem_of_filter. split; [|done].
        rewrite Hs. exact Hst.
      - destruct (existsb _ (filter _ l1)) eqn:Hl'; [|done].
        apply has_status in Hl' as (d & Hd & Hs).
        apply list_elem_of_filter in Hd as [_ Hd].
        assert (existsb (λ d, String.eqb (status d) st) l1 = true) as Hc.
        { apply has_status. by exists d. }
        congruence. }
    by rewrite (Hf "building"), (Hf "error") by auto.
Qed.

Lemma overall_status_by_statuses_witness :
  _overall_status [dep "a" "error" ""; dep "b" "unknown" ""; dep "c" "error" ""]
  = _overall_status [dep "z" "unknown" ""; dep "y" "error" ""].
Proof.
  apply overall_status_by_statuses. intros st. split.
  - intros (d & Hd & <-).
    apply elem_of_cons in Hd as [->|Hd]; [exists (dep "y" "error" ""); set_solver|].
    apply elem_of_cons in Hd as [->|Hd]; [exists (dep "z" "unknown" ""); set_solver|].
    apply list_elem_of_singleton in Hd as ->. exists (dep "y" "error" ""). set_solver.
  - intros (d & Hd & <-).
    apply elem_of_cons in Hd as [->|Hd]; [exists (dep "b" "unknown" ""); set_solver|].
    apply list_elem_of_singleton in Hd as ->. exists (dep "a" "error" ""). set_solver.
Defined.

(** X7.  The first refresh is silent: while no overall status has been
    recorded and the production deployments have not been bootstrapped,
    [_apply_update] shows no notification, whatever was fetched. *)
Theorem first_refresh_is_silent `{Builtins} (deployments : list Deployment) (s : state) :
  _last_overall_status s = None → _prod_seen_bootstrapped s = false →
  shown (exec (_apply_update deployments) s) = shown s.
Proof.
  intros Hlast Hboot. unfold exec. rewrite apply_update_run.
  destruct (humanize_all (listed s deployments)) as [[]|e]; [|done].
  cbn [fst shown set_prod_seen_bootstrapped set_prod_seen set_shown].
  unfold production_outcome. rewrite Hlast, Hboot.
  rewrite decide_False by (by intros [? _]).
  destruct (notify_prod_events s); cbn; by rewrite ?(right_id_L [] (++)).
Qed.

Lemma first_refresh_is_silent_witness :
  shown (exec (@_apply_update sample_builtins
                 [dep "a" "error" "production"; dep "b" "building" "preview"])
           fresh) = [].
Proof.
  exact (@first_refresh_is_silent sample_builtins
           [dep "a" "error" "production"; dep "b" "building" "preview"] fresh eq_refl eq_refl).
Defined.

Lemma events_from_recorded (l : list Deployment) (seen : gmap string string) :
  NoDup (id <$> l) → events_from (record_all l seen) l = [].
Proof.
  intros Hnd. rewrite events_from_distinct by done.
  apply elem_of_nil_inv. intros d [Hc Hd]%list_elem_of_filter.
  apply Hc. by apply record_all_distinct.
Qed.

(** After an update, the production part of the same update notifies
    nothing. *)
Lemma production_outcome_again `{Builtins} (deployments : list Deployment) (s s1 : state) :
  NoDup (id <$> production_of deployments) →
  notify_prod_events s1 = notify_prod_events s →
  _prod_seen_bootstrapped s1 = notify_prod_events s || _prod_seen_bootstrapped s →
  _prod_seen s1 = (production_outcome s deployments).1.2 →
  (production_outcome s1 deployments).1.1 = [].
Proof.
  intros Hnd Hnpe Hboot Hseen. unfold production_outcome in *.
  rewrite Hnpe, Hboot, Hseen.
  destruct (notify_prod_events s); [|done].
  destruct (_prod_seen_bootstrapped s); cbn [orb fst snd].
  - by apply notify_loop_again.
  - destruct (notify_loop_events (record_all (production_of deployments) (_prod_seen s))
                (production_of deployments)) as [post Hpost].
    rewrite events_from_recorded in Hpost by done.
    symmetry in Hpost. by apply app_eq_nil in Hpost as [-> _].
Qed.

(** X8.  A poll that brings the same deployments as the one before sends
    nothing: applying the same update twice shows no notification the second
    time, provided the production deployments have pairwise distinct ids. *)
Theorem repeated_poll_is_silent `{Builtins} (deployments : list Deployment) (s : state) :
  NoDup (id <$> production_of deployments) →
  shown (exec (_apply_update deployments) (exec (_apply_update deployments) s))
  = shown (exec (_apply_update deployments) s).
Proof.
  intros Hnd. unfold exec.
  destruct (apply_update_frame deployments s) as (_ & _ & _ & _ & _ & _ & _ & Hmi & Hnpe).
  destruct (apply_update_fields deployments s) as [Hraise Hok].
  destruct (apply_update_fields deployments (_apply_update deployments s).1)
    as [Hraise2 Hok2].
  assert (listed (_apply_update deployments s).1 deployments = listed s deployments)
    as Hl by (unfold listed; by rewrite Hmi).
  rewrite Hl in Hraise2, Hok2.
  destruct (humanize_all (listed s deployments)) as [[]|e] eqn:Hh.
  - destruct (Hok eq_refl) as (_ & _ & Hseen & Hboot & Hlast).
    destruct (Hok2 eq_refl) as (_ & Hshown2 & _).
    rewrite Hshown2.
    rewrite decide_False by (rewrite Hlast; by intros [_ ?]).
    rewrite (production_outcome_again deployments s) by done.
    cbn. by rewrite ?(right_id_L [] (++)).
  - by rewrite (Hraise2 e eq_refl).
Qed.

Lemma repeated_poll_is_silent_witness :
  shown (exec (@_apply_update sample_builtins
                 [dep "a" "error" "production"; dep "b" "building" "production"])
           (exec (@_apply_update sample_builtins
                    [dep "a" "error" "production"; dep "b" "building" "production"])
              configured))
  = shown (exec (@_apply_update sample_builtins
                   [dep "a" "error" "production"; dep "b" "building" "production"])
             configured).
Proof.
  apply (@repeated_poll_is_silent sample_builtins). vm_compute.
  apply NoDup_cons. split; [|apply NoDup_singleton].
  intros Hin. apply list_elem_of_singleton in Hin. discriminate.
Defined.

(** What the first of these polls shows, and that entries sharing an id with
    different statuses are announced again at every poll. *)
Example changed_poll_notifies :
  shown (exec (@_apply_update sample_builtins
                 [dep "a" "error" "production"; dep "b" "building" "production"])
           configured)
  = [OverallStatus "building"; ProductionEvent (dep "a" "error" "production");
     ProductionEvent (dep "b" "building" "production")].
Proof. vm_compute. reflexivity. Qed.

Example duplicate_id_repeats :
  length (shown (exec (@_apply_update sample_builtins
                         [dep "a" "ready" "production"; dep "a" "error" "production"])
                   (exec (@_apply_update sample_builtins
                            [dep "a" "ready" "production"; dep "a" "error" "production"])
                      configured)))
  = 5%nat.
Proof. vm_compute. reflexivity. Qed.

(** X9.  With production notifications switched off, [_apply_update] shows no
    production notification and leaves [_prod_seen] and its bootstrap flag as
    they are. *)
Theorem production_events_disabled `{Builtins} (deployments : list Deployment) (s : state) :
  notify_prod_events s = false →
  _prod_seen (exec (_apply_update deployments) s) = _prod_seen s ∧
  _prod_seen_bootstrapped (exec (_apply_update deployments) s) = _prod_seen_bootstrapped s ∧
  (∀ d, ProductionEvent d ∉ drop (length (shown s))
                                 (shown (exec (_apply_update deployments) s))).
Proof.
  intros Hoff. unfold exec. rewrite apply_update_run.
  destruct (humanize_all (listed s deployments)) as [[]|e];
    cbn [fst shown _prod_seen _prod_seen_bootstrapped set_prod_seen_bootstrapped
         set_prod_seen set_shown set_last_overall_status set_refresh_in_progress].
  - unfold production_outcome. rewrite Hoff. cbn [fst snd orb fmap list_fmap].
    split; [done|]. split; [done|]. intros d. rewrite drop_app_length.
    rewrite ?(right_id_L [] (++)).
    destruct (decide (overall_changed _ _)); [|apply not_elem_of_nil].
    intros [=]%list_elem_of_singleton.
  - split; [done|]. split; [done|]. intros d. rewrite drop_all. apply not_elem_of_nil.
Qed.

Lemma production_events_disabled_witness :
  _prod_seen (exec (@_apply_update sample_builtins [dep "a" "error" "production"])
                (set_notify_prod_events false configured)) = ∅.
Proof.
  exact (proj1 (@production_events_disabled sample_builtins [dep "a" "error" "production"]
                  (set_notify_prod_events false configured) eq_refl)).
Defined.

(** Switching production notifications off and on again does not make the
    next poll a bootstrap: a deployment that changed meanwhile is
    announced. *)
Example switched_on_again_notifies :
  shown (exec (@_apply_update sample_builtins [dep "a" "ready" "production"])
           (set_notify_prod_events true
              (exec (@_apply_update sample_builtins [dep "a" "error" "production"])
                 (set_notify_prod_events false configured))))
  = [OverallStatus "error"; OverallStatus "ready";
     ProductionEvent (dep "a" "ready" "production")].
Proof. vm_compute. reflexivity. Qed.

(** ** Fetch failures, configuration and start *)

Lemma production_outcome_nil `{Builtins} (s : state) :
  production_outcome s [] = ([], _prod_seen s, Ok tt).
Proof.
  unfold production_outcome.
  by destruct (notify_prod_events s), (_prod_seen_bootstrapped s).
Qed.

Lemma worker_raise_run (e : exn) (s : state) :
  worker (Raise e) s
  = (set_idle (idle s ++ [CallSetIcon "error"; CallApplyUpdate []])
       (set_shown (shown s ++ [FetchFailed e]) s), Ok tt).
Proof.
  destruct s. unfold worker. run_cases. cbn. by rewrite <- (assoc_L (++)).
Qed.

(** X10.  When the fetch of a worker raises, the failure is shown, and the
    update the worker queues is the one for an empty list: once applied, the
    flag is clear again, the overall status is "error" (announced if the last
    one was another), and nothing is recorded as seen; yet the production
    bootstrap counts as done when production notifications are on. *)
Theorem failed_fetch_reports_error `{Builtins} (e : exn) (s : state) (n : nat) :
  workers s = S n →
  ∃ s1 s2,
    step (WorkerDone (Raise e)) s = Some s1 ∧
    shown s1 = (shown s ++ [FetchFailed e])%list ∧
    idle s1 = (idle s ++ [CallSetIcon "error"; CallApplyUpdate []])%list ∧
    step (IdleRuns (S (length (idle s)))) s1 = Some s2 ∧
    workers s2 = n ∧
    _refresh_in_progress s2 = false ∧
    _last_overall_status s2 = Some "error" ∧
    shown s2 = (shown s ++ [FetchFailed e]
                ++ (if decide (overall_changed (_last_overall_status s) "error")
                    then [OverallStatus "error"] else []))%list ∧
    _prod_seen s2 = _prod_seen s ∧
    _prod_seen_bootstrapped s2 = notify_prod_events s || _prod_seen_bootstrapped s.
Proof.
  intros Hw.
  pose (s1 := set_idle (idle s ++ [CallSetIcon "error"; CallApplyUpdate []])
                (set_shown (shown s ++ [FetchFailed e]) (set_workers n s))).
  pose (s1' := set_idle (idle s ++ [CallSetIcon "error"]) s1).
  exists s1, (_apply_update [] s1').1.
  split. { cbn [step]. rewrite Hw. unfold exec. by rewrite worker_raise_run. }
  split; [reflexivity|]. split; [reflexivity|].
  split.
  { cbn [step].
    change (idle s1) with (idle s ++ [CallSetIcon "error"; CallApplyUpdate []])%list.
    assert ((idle s ++ [CallSetIcon "error"; CallApplyUpdate []])%list !! S (length (idle s))
            = Some (CallApplyUpdate [])) as ->.
    { rewrite lookup_app_r by lia.
      replace (S (length (idle s)) - length (idle s))%nat with 1%nat by lia. reflexivity. }
    assert (delete (S (length (idle s)))
              (idle s ++ [CallSetIcon "error"; CallApplyUpdate []])%list
            = (idle s ++ [CallSetIcon "error"])%list) as ->.
    { rewrite delete_take_drop. rewrite take_app_ge, drop_app_ge by lia.
      replace (S (length (idle s)) - length (idle s))%nat with 1%nat by lia.
      replace (S (S (length (idle s))) - length (idle s))%nat with 2%nat by lia.
      cbn. by rewrite (right_id_L [] (++)). }
    cbn [run_idle]. reflexivity. }
  rewrite apply_update_run, listed_nil, production_outcome_nil.
  cbn [humanize_all fst snd fmap list_fmap workers _refresh_in_progress _last_overall_status
       shown _prod_seen _prod_seen_bootstrapped set_prod_seen_bootstrapped set_prod_seen
       set_shown set_last_overall_status set_refresh_in_progress].
  split; [reflexivity|]. split; [reflexivity|]. split; [reflexivity|].
  split; [|by split].
  change (shown s1') with (shown s ++ [FetchFailed e])%list.
  change (_last_overall_status s1') with (_last_overall_status s).
  change (overall_of []) with "error".
  by rewrite (right_id_L [] (++)), <- (assoc_L (++)).
Qed.

Lemma failed_fetch_reports_error_witness :
  ∃ s2, @run sample_builtins [WorkerDone (Raise ConnectionError); IdleRuns 1] sample_state
        = Some s2 ∧
        _last_overall_status s2 = Some "error" ∧ _refresh_in_progress s2 = false ∧
        shown s2 = [FetchFailed ConnectionError; OverallStatus "error"].
Proof.
  destruct (@failed_fetch_reports_error sample_builtins ConnectionError sample_state 0 eq_refl)
    as (s1 & s2 & Hs1 & _ & _ & Hs2 & _ & Hflag & Hlast & Hshown & _).
  exists s2. split.
  - cbn [run]. rewrite Hs1. change (length (idle sample_state)) with 0%nat in Hs2.
    by rewrite Hs2.
  - split; [exact Hlast|]. split; [exact Hflag|]. rewrite Hshown. reflexivity.
Defined.

Lemma int_setting_read `{Builtins} (m : gmap string json) (k : string) (d a : Z) :
  int_setting (value_of m k) d = Some a →
  (v ← get (JObj m) k; py_int (if truthy v then v else JInt d)) = Ok a.
Proof.
  unfold value_of. cbn [get mbind result_bind].
  destruct (default JNull (m !! k)) as [| |n| | | |]; cbn; try discriminate.
  - by intros [= <-].
  - intros [= <-]. by destruct (Z.eqb_spec n 0).
Qed.

Lemma str_setting_read (m : gmap string json) (k tok : string) :
  str_setting (value_of m k) = Some tok →
  get_first (JObj m) [k] (JStr "") = Ok (JStr tok).
Proof.
  unfold value_of. cbn [get_first get mbind result_bind]. unfold or_else.
  destruct (default JNull (m !! k)) as [| | | |t| |]; cbn; try discriminate.
  - by intros [= <-].
  - intros [= <-]. by destruct (String.eqb_spec t "") as [->|].
Qed.

(** [_reconfigure] on a configuration whose settings have the types that
    [save_config] stores. *)
Lemma reconfigure_run `{Builtins} (cfg : gmap string json) (s : state) (a b : Z)
    (tok team : string) :
  int_setting (value_of cfg "refresh_interval") 30 = Some a →
  int_setting (value_of cfg "max_items") 10 = Some b →
  str_setting (value_of cfg "token") = Some tok →
  str_setting (value_of cfg "team_id") = Some team →
  _reconfigure (Ok (JObj cfg)) s
  = (set_notify_prod_events (flag_setting (value_of cfg "notify_prod_events"))
       (set_client (new_client tok (if String.eqb team "" then None else Some team))
          (set_max_items b (set_refresh_interval a s))), Ok tt).
Proof.
  intros Ha Hb Htok Hteam. unfold _reconfigure.
  rewrite bind_run. unfold lift at 1. cbn beta iota.
  rewrite (int_setting_read _ _ _ _ Ha), (int_setting_read _ _ _ _ Hb).
  rewrite (str_setting_read _ _ _ Htok), (str_setting_read _ _ _ Hteam).
  change (get (JObj cfg) "notify_prod_events") with (Ok (value_of cfg "notify_prod_events")).
  run_action. reflexivity.
Qed.

(** X11.  [_reconfigure] reads a missing, [null] or zero [refresh_interval]
    as 30 and [max_items] as 10, a missing or [null] [notify_prod_events] as
    on and any other value by its truth value; it replaces the client and
    leaves the timer, the fetch in progress and everything seen and shown
    untouched. *)
Theorem reconfigure_settings `{Builtins} (cfg : gmap string json) (s : state) (a b : Z)
    (tok team : string) :
  int_setting (value_of cfg "refresh_interval") 30 = Some a →
  int_setting (value_of cfg "max_items") 10 = Some b →
  str_setting (value_of cfg "token") = Some tok →
  str_setting (value_of cfg "team_id") = Some team →
  ∃ s',
    _reconfigure (Ok (JObj cfg)) s = (s', Ok tt) ∧
    refresh_interval s' = a ∧ max_items s' = b ∧
    (cfg !! "refresh_interval" = None ∨ cfg !! "refresh_interval" = Some (JInt 0) → a = 30) ∧
    (cfg !! "max_items" = None ∨ cfg !! "max_items" = Some (JInt 0) → b = 10) ∧
    token (client s') = strip tok ∧
    team_id (client s') = (if String.eqb (strip team) "" then None else Some (strip team)) ∧
    notify_prod_events s' = flag_setting (value_of cfg "notify_prod_events") ∧
    (cfg !! "notify_prod_events" = None → notify_prod_events s' = true) ∧
    same_loop s s' ∧
    _prod_seen s' = _prod_seen s ∧
    _prod_seen_bootstrapped s' = _prod_seen_bootstrapped s ∧
    _last_overall_status s' = _last_overall_status s ∧
    shown s' = shown s.
Proof.
  intros Ha Hb Htok Hteam. eexists.
  rewrite (reconfigure_run cfg s a b tok team Ha Hb Htok Hteam).
  split; [reflexivity|]. cbn. split; [reflexivity|]. split; [reflexivity|].
  split; [|split; [|split; [|split]]].
  - unfold value_of in Ha. intros [Hk|Hk]; rewrite Hk in Ha; cbn in Ha; congruence.
  - unfold value_of in Hb. intros [Hk|Hk]; rewrite Hk in Hb; cbn in Hb; congruence.
  - reflexivity.
  - destruct (String.eqb_spec team "") as [->|Hne]; cbn; [reflexivity|].
    reflexivity.
  - split; [reflexivity|]. split.
    + intros Hk. unfold value_of. by rewrite Hk.
    + repeat split.
Qed.

Lemma reconfigure_settings_witness :
  ∃ s', @_reconfigure sample_builtins
          (Ok (obj [("token", JStr " tok "); ("refresh_interval", JInt 0);
                    ("notify_prod_events", JInt 0)])) sample_state = (s', Ok tt) ∧
        refresh_interval s' = 30 ∧ max_items s' = 10 ∧
        token (client s') = "tok" ∧ notify_prod_events s' = false ∧
        timers s' = timers sample_state.
Proof.
  pose (cfg := list_to_map [("token", JStr " tok "); ("refresh_interval", JInt 0);
                            ("notify_prod_events", JInt 0)] : gmap string json).
  assert (int_setting (value_of cfg "refresh_interval") 30 = Some 30) as H1
    by (vm_compute; reflexivity).
  assert (int_setting (value_of cfg "max_items") 10 = Some 10) as H2
    by (vm_compute; reflexivity).
  assert (str_setting (value_of cfg "token") = Some " tok ") as H3
    by (vm_compute; reflexivity).
  assert (str_setting (value_of cfg "team_id") = Some "") as H4
    by (vm_compute; reflexivity).
  destruct (@reconfigure_settings sample_builtins cfg sample_state 30 10 " tok " ""
              H1 H2 H3 H4)
    as (s' & Hrun & Ha & Hb & _ & _ & Htok & _ & Hnpe & _ & (Htm & _) & _).
  exists s'. split; [exact Hrun|]. split; [exact Ha|]. split; [exact Hb|].
  split; [rewrite Htok; reflexivity|]. split; [rewrite Hnpe; reflexivity | exact Htm].
Defined.

(** The state [__init__] reaches after [_reconfigure], for a configuration
    as in [reconfigure_run]. *)
Lemma init_run `{Builtins} (cfg : gmap string json) (a b : Z) (tok team : string) :
  int_setting (value_of cfg "refresh_interval") 30 = Some a →
  int_setting (value_of cfg "max_items") 10 = Some b →
  str_setting (value_of cfg "token") = Some tok →
  str_setting (value_of cfg "team_id") = Some team →
  ∃ s1,
    same_loop blank s1 ∧ refresh_interval s1 = a ∧ shown s1 = [] ∧
    __init__ (Ok (JObj cfg)) (Ok (JObj cfg)) blank
    = (if String.eqb (strip tok) "" then idle_add CallOpenPreferences
       else _schedule_refresh true) s1.
Proof.
  intros Ha Hb Htok Hteam. eexists. split; [|split; [|split]]; cycle 3.
  - unfold __init__. rewrite bind_run.
    rewrite (reconfigure_run cfg blank a b tok team Ha Hb Htok Hteam). cbn beta iota.
    rewrite bind_run. unfold lift at 1. cbn beta iota.
    rewrite (str_setting_read _ _ _ Htok). cbn [mbind result_bind py_strip].
    rewrite bind_run. unfold lift at 1. cbn beta iota. reflexivity.
  - repeat split.
  - reflexivity.
  - reflexivity.
Qed.

(** X12.  Started on a configuration without a token (absent, empty or
    blank), the indicator queues the preferences dialog and neither registers
    a timer nor starts a fetch. *)
Theorem start_without_token `{Builtins} (cfg : gmap string json) (a b : Z) (tok team : string) :
  int_setting (value_of cfg "refresh_interval") 30 = Some a →
  int_setting (value_of cfg "max_items") 10 = Some b →
  str_setting (value_of cfg "token") = Some tok →
  str_setting (value_of cfg "team_id") = Some team →
  strip tok = "" →
  ∃ s, start (Ok (JObj cfg)) (Ok (JObj cfg)) = Some s ∧
       idle s = [CallOpenPreferences] ∧ timers s = ∅ ∧ _refresh_timer_id s = None ∧
       workers s = 0%nat ∧ _refresh_in_progress s = false ∧ shown s = [].
Proof.
  intros Ha Hb Htok Hteam Hblank.
  destruct (init_run cfg a b tok team Ha Hb Htok Hteam)
    as (s1 & (Htm & Hid & _ & Hw & Hi & Hf) & _ & Hsh & Hinit).
  unfold start. rewrite Hinit, Hblank. cbn [String.eqb]. unfold idle_add, modify.
  eexists. split; [reflexivity|]. cbn. rewrite Hi, Htm, Hid, Hw, Hf, Hsh. by repeat split.
Qed.

Lemma start_without_token_witness :
  ∃ s, @start sample_builtins (load_config sample_loads fs_missing)
         (load_config sample_loads fs_missing) = Some s ∧
       idle s = [CallOpenPreferences] ∧ timers s = ∅ ∧ workers s = 0%nat.
Proof.
  assert (int_setting (value_of default_map "refresh_interval") 30 = Some 30) as H1
    by (vm_compute; reflexivity).
  assert (int_setting (value_of default_map "max_items") 10 = Some 10) as H2
    by (vm_compute; reflexivity).
  assert (str_setting (value_of default_map "token") = Some "") as H3
    by (vm_compute; reflexivity).
  assert (str_setting (value_of default_map "team_id") = Some "") as H4
    by (vm_compute; reflexivity).
  assert (@strip sample_builtins "" = "") as H5 by (vm_compute; reflexivity).
  destruct (@start_without_token sample_builtins default_map 30 10 "" ""
              H1 H2 H3 H4 H5)
    as (s & Hs & Hi & Ht & _ & Hw & _).
  exists s. split; [exact Hs|]. split; [exact Hi|]. split; [exact Ht | exact Hw].
Defined.

(** X13.  Started on a configuration with a token and an interval GLib
    accepts, the indicator registers exactly one timer, at that interval, and
    starts one fetch at once. *)
Theorem start_with_token `{Builtins} (cfg : gmap string json) (a b : Z) (tok team : string) :
  int_setting (value_of cfg "refresh_interval") 30 = Some a →
  int_setting (value_of cfg "max_items") 10 = Some b →
  str_setting (value_of cfg "token") = Some tok →
  str_setting (value_of cfg "team_id") = Some team →
  strip tok ≠ "" → valid_interval a →
  ∃ s, start (Ok (JObj cfg)) (Ok (JObj cfg)) = Some s ∧
       timers s = {[ 1%nat := a ]} ∧ _refresh_timer_id s = Some 1%nat ∧
       workers s = 1%nat ∧ _refresh_in_progress s = true ∧ idle s = [] ∧
       refresh_interval s = a.
Proof.
  intros Ha Hb Htok Hteam Htoken Hvalid.
  destruct (init_run cfg a b tok team Ha Hb Htok Hteam)
    as (s1 & Hsame & Hri & _ & Hinit).
  pose proof (same_loop_timer_inv _ _ Hsame (proj2 blank_inv)) as Hinv.
  destruct Hsame as (_ & _ & Hnx & Hw & Hi & Hf).
  destruct (schedule_refresh_run true s1 Hinv)
    as (s' & r & Hrun & Hi' & Hri' & Hf' & Hw' & Hv & _).
  rewrite Hri in Hv. destruct (Hv Hvalid) as (-> & Htm' & Hid' & _).
  unfold start. rewrite Hinit.
  destruct (String.eqb_spec (strip tok) ""); [done|]. rewrite Hrun.
  exists s'. split; [reflexivity|].
  rewrite Htm', Hid', Hw', Hf', Hi', Hri', Hnx, Hw, Hi, Hf, Hri. by repeat split.
Qed.

Lemma start_with_token_witness :
  timers sample_start = {[ 1%nat := 30 ]} ∧ workers sample_start = 1%nat.
Proof.
  pose (cfg := list_to_map [ ("token", JStr "tok"); ("team_id", JStr "");
                             ("refresh_interval", JInt 30); ("max_items", JInt 10);
                             ("notify_prod_events", JBool true) ] : gmap string json).
  assert (int_setting (value_of cfg "refresh_interval") 30 = Some 30) as H1
    by (vm_compute; reflexivity).
  assert (int_setting (value_of cfg "max_items") 10 = Some 10) as H2
    by (vm_compute; reflexivity).
  assert (str_setting (value_of cfg "token") = Some "tok") as H3
    by (vm_compute; reflexivity).
  assert (str_setting (value_of cfg "team_id") = Some "") as H4
    by (vm_compute; reflexivity).
  assert (@strip sample_builtins "tok" ≠ "") as H5 by (vm_compute; discriminate).
  assert (valid_interval 30) as H6 by (unfold valid_interval; lia).
  destruct (@start_with_token sample_builtins cfg 30 10 "tok" "" H1 H2 H3 H4 H5 H6)
    as (s & Hs & Ht & _ & Hw & _).
  assert (Some s = Some sample_start) as [= <-]
    by (rewrite <- Hs; vm_compute; reflexivity).
  by split.
Defined.

(** ** The refresh loop *)

(** [_schedule_refresh] touches nothing but the loop. *)
Lemma schedule_refresh_settings (immediate : bool) (s : state) :
  max_items (_schedule_refresh immediate s).1 = max_items s ∧
  client (_schedule_refresh immediate s).1 = client s ∧
  notify_prod_events (_schedule_refresh immediate s).1 = notify_prod_events s ∧
  shown (_schedule_refresh immediate s).1 = shown s ∧
  _prod_seen (_schedule_refresh immediate s).1 = _prod_seen s ∧
  _prod_seen_bootstrapped (_schedule_refresh immediate s).1 = _prod_seen_bootstrapped s ∧
  _last_overall_status (_schedule_refresh immediate s).1 = _last_overall_status s.
Proof.
  destruct s as [tid flag last seen boot ri mi cl npe tm nx wk idl sh].
  destruct tid as [i|], immediate, flag;
    unfold _schedule_refresh, source_remove, timeout_add_seconds, _spawn_refresh_thread,
      start_worker;
    repeat (run_action; cbn -[Z.pow Z.leb Z.ltb]);
    destruct ((0 <=? ri) && (ri <? 2 ^ 32)) eqn:E;
    repeat (run_action; cbn -[Z.pow Z.leb Z.ltb]); repeat split.
Qed.

(** [_on_prefs_saved] on a configuration as in [reconfigure_run]: the state
    in which [_schedule_refresh] runs. *)
Lemma prefs_saved_run `{Builtins} (cfg : gmap string json) (s : state) (a b : Z)
    (tok team : string) :
  int_setting (value_of cfg "refresh_interval") 30 = Some a →
  int_setting (value_of cfg "max_items") 10 = Some b →
  str_setting (value_of cfg "token") = Some tok →
  str_setting (value_of cfg "team_id") = Some team →
  ∃ s1,
    same_loop s s1 ∧ refresh_interval s1 = a ∧ max_items s1 = b ∧
    token (client s1) = strip tok ∧ shown s1 = shown s ∧
    _on_prefs_saved (Ok (JObj cfg)) s = _schedule_refresh true s1.
Proof.
  intros Ha Hb Htok Hteam. eexists. split; [|split; [|split; [|split; [|split]]]]; cycle 5.
  - unfold _on_prefs_saved. rewrite bind_run.
    rewrite (reconfigure_run cfg s a b tok team Ha Hb Htok Hteam). cbn beta iota.
    reflexivity.
  - repeat split.
  - reflexivity.
  - reflexivity.
  - reflexivity.
  - reflexivity.
Qed.

(** X14.  An interval GLib refuses (negative, or 2^32 and more) stops the
    periodic refresh: saving such preferences removes the timer and registers
    none, so that no tick can follow, and an indicator started on such a
    configuration with a token does not come up, its constructor raising
    [OverflowError]. *)
Theorem invalid_interval_stops_refresh `{Builtins} (cfg : gmap string json) (s : state)
    (a b : Z) (tok team : string) :
  int_setting (value_of cfg "refresh_interval") 30 = Some a →
  int_setting (value_of cfg "max_items") 10 = Some b →
  str_setting (value_of cfg "token") = Some tok →
  str_setting (value_of cfg "team_id") = Some team →
  ¬ valid_interval a → timer_inv s →
  (∃ s', step (PrefsSaved (Ok (JObj cfg))) s = Some s' ∧
         (_on_prefs_saved (Ok (JObj cfg)) s).2 = Raise OverflowError ∧
         timers s' = ∅ ∧ _refresh_timer_id s' = None ∧
         (∀ i, step (TimerFires i) s' = None)) ∧
  (strip tok ≠ "" →
   (__init__ (Ok (JObj cfg)) (Ok (JObj cfg)) blank).2 = Raise OverflowError ∧
   start (Ok (JObj cfg)) (Ok (JObj cfg)) = None).
Proof.
  intros Ha Hb Htok Hteam Hbad Hinv. split.
  - destruct (prefs_saved_run cfg s a b tok team Ha Hb Htok Hteam)
      as (s1 & Hsame & Hri & _ & _ & _ & Hrun).
    pose proof (same_loop_timer_inv _ _ Hsame Hinv) as Hinv1.
    destruct (schedule_refresh_run true s1 Hinv1) as (s' & r & Hs' & _ & _ & _ & _ & _ & Hno).
    rewrite Hri in Hno. destruct (Hno Hbad) as (-> & Htm & Hid).
    exists s'. cbn [step]. unfold exec. rewrite Hrun, Hs'. cbn [fst snd].
    split; [reflexivity|]. split; [reflexivity|]. split; [exact Htm|]. split; [exact Hid|].
    intros i. by rewrite Htm, lookup_empty.
  - intros Htoken.
    destruct (init_run cfg a b tok team Ha Hb Htok Hteam) as (s1 & Hsame & Hri & _ & Hinit).
    pose proof (same_loop_timer_inv _ _ Hsame (proj2 blank_inv)) as Hinv1.
    destruct (schedule_refresh_run true s1 Hinv1) as (s' & r & Hs' & _ & _ & _ & _ & _ & Hno).
    rewrite Hri in Hno. destruct (Hno Hbad) as (-> & _).
    unfold start. rewrite Hinit. destruct (String.eqb_spec (strip tok) ""); [done|].
    by rewrite Hs'.
Qed.

Lemma invalid_interval_stops_refresh_witness :
  (∃ s', @step sample_builtins
           (PrefsSaved (Ok (obj [("token", JStr "tok"); ("refresh_interval", JInt (-5))])))
           sample_state = Some s' ∧ timers s' = ∅) ∧
  @start sample_builtins
    (Ok (obj [("token", JStr "tok"); ("refresh_interval", JInt (-5))]))
    (Ok (obj [("token", JStr "tok"); ("refresh_interval", JInt (-5))])) = None.
Proof.
  pose (cfg := list_to_map [("token", JStr "tok"); ("refresh_interval", JInt (-5))]
               : gmap string json).
  assert (int_setting (value_of cfg "refresh_interval") 30 = Some (-5)) as H1
    by (vm_compute; reflexivity).
  assert (int_setting (value_of cfg "max_items") 10 = Some 10) as H2
    by (vm_compute; reflexivity).
  assert (str_setting (value_of cfg "token") = Some "tok") as H3
    by (vm_compute; reflexivity).
  assert (str_setting (value_of cfg "team_id") = Some "") as H4
    by (vm_compute; reflexivity).
  assert (¬ valid_interval (-5)) as H5 by (unfold valid_interval; lia).
  assert (timer_inv sample_state) as H6.
  { unfold timer_inv. vm_compute. split; [by eexists | lia]. }
  assert (@strip sample_builtins "tok" ≠ "") as H7 by (vm_compute; discriminate).
  destruct (@invalid_interval_stops_refresh sample_builtins cfg sample_state (-5) 10 "tok" ""
              H1 H2 H3 H4 H5 H6) as [(s' & Hs' & _ & Htm & _) Hstart].
  split; [exists s'; by split | exact (proj2 (Hstart H7))].
Defined.

(** X15.  Saving preferences with an interval GLib accepts restarts the
    loop at the new interval: the only timer left is a new one with that
    interval, the former one can no longer fire, and a fetch is started unless
    one is in progress; the new limit and token are in force and nothing is
    shown. *)
Theorem prefs_saved_restarts_loop `{Builtins} (cfg : gmap string json) (s : state)
    (a b : Z) (tok team : string) :
  int_setting (value_of cfg "refresh_interval") 30 = Some a →
  int_setting (value_of cfg "max_items") 10 = Some b →
  str_setting (value_of cfg "token") = Some tok →
  str_setting (value_of cfg "team_id") = Some team →
  valid_interval a → timer_inv s →
  ∃ s', step (PrefsSaved (Ok (JObj cfg))) s = Some s' ∧
        timers s' = {[ next_source s := a ]} ∧
        _refresh_timer_id s' = Some (next_source s) ∧
        (∀ i, i ≠ next_source s → step (TimerFires i) s' = None) ∧
        _refresh_in_progress s' = true ∧
        workers s' = (if _refresh_in_progress s then workers s else S (workers s)) ∧
        idle s' = idle s ∧
        refresh_interval s' = a ∧ max_items s' = b ∧ token (client s') = strip tok ∧
        shown s' = shown s.
Proof.
  intros Ha Hb Htok Hteam Hvalid Hinv.
  destruct (prefs_saved_run cfg s a b tok team Ha Hb Htok Hteam)
    as (s1 & Hsame & Hri & Hmi & Hcl & Hsh & Hrun).
  pose proof (same_loop_timer_inv _ _ Hsame Hinv) as Hinv1.
  destruct Hsame as (_ & _ & Hnx & Hw & Hi & Hf).
  destruct (schedule_refresh_run true s1 Hinv1)
    as (s' & r & Hs' & Hi' & Hri' & Hf' & Hw' & Hv & _).
  rewrite Hri in Hv. destruct (Hv Hvalid) as (-> & Htm & Hid & _).
  pose proof (schedule_refresh_settings true s1) as (Hmi' & Hcl' & _ & Hsh' & _).
  rewrite Hs' in Hmi', Hcl', Hsh'. cbn [fst] in Hmi', Hcl', Hsh'.
  exists s'. cbn [step]. unfold exec. rewrite Hrun, Hs'. cbn [fst].
  split; [reflexivity|]. rewrite Htm, Hid, Hf', Hw', Hi', Hri', Hmi', Hcl', Hsh'.
  rewrite Hnx, Hw, Hi, Hf, Hri, Hmi, Hcl, Hsh.
  split; [reflexivity|]. split; [reflexivity|].
  split. { intros i Hne. by rewrite lookup_singleton_ne. }
  split; [reflexivity|]. split; [by destruct (_refresh_in_progress s)|]. by repeat split.
Qed.

Lemma prefs_saved_restarts_loop_witness :
  ∃ s', @step sample_builtins
          (PrefsSaved (Ok (obj [("token", JStr "tok"); ("refresh_interval", JInt 60)])))
          sample_state = Some s' ∧
        timers s' = {[ next_source sample_state := 60 ]} ∧ max_items s' = 10.
Proof.
  pose (cfg := list_to_map [("token", JStr "tok"); ("refresh_interval", JInt 60)]
               : gmap string json).
  assert (int_setting (value_of cfg "refresh_interval") 30 = Some 60) as H1
    by (vm_compute; reflexivity).
  assert (int_setting (value_of cfg "max_items") 10 = Some 10) as H2
    by (vm_compute; reflexivity).
  assert (str_setting (value_of cfg "token") = Some "tok") as H3
    by (vm_compute; reflexivity).
  assert (str_setting (value_of cfg "team_id") = Some "") as H4
    by (vm_compute; reflexivity).
  assert (valid_interval 60) as H5 by (unfold valid_interval; lia).
  assert (timer_inv sample_state) as H6.
  { unfold timer_inv. vm_compute. split; [by eexists | lia]. }
  destruct (@prefs_saved_restarts_loop sample_builtins cfg sample_state 60 10 "tok" ""
              H1 H2 H3 H4 H5 H6) as (s' & Hs' & Htm & _ & _ & _ & _ & _ & _ & Hmi & _).
  exists s'. by repeat split.
Defined.



(** ** Saving the configuration *)

Lemma settings_keys (t u a b f : json) (k : string) :
  is_Some ((list_to_map [ ("token", t); ("team_id", u); ("refresh_interval", a);
                          ("max_items", b); ("notify_prod_events", f) ]
            : gmap string json) !! k)
  ↔ k ∈ config_keys.
Proof.
  rewrite <- not_eq_None_Some, <- not_elem_of_list_to_map.
  change ([ ("token", t); ("team_id", u); ("refresh_interval", a);
            ("max_items", b); ("notify_prod_events", f) ].*1) with config_keys.
  split; [apply dec_stable | by intros ? ?].
Qed.

(** A dictionary with the five settings takes nothing from the defaults. *)
Lemma settings_union (t u a b f : json) :
  (list_to_map [ ("token", t); ("team_id", u); ("refresh_interval", a);
                 ("max_items", b); ("notify_prod_events", f) ]
   : gmap string json) ∪ default_map
  = list_to_map [ ("token", t); ("team_id", u); ("refresh_interval", a);
                  ("max_items", b); ("notify_prod_events", f) ].
Proof.
  apply map_eq. intros k. rewrite lookup_union.
  pose proof (settings_keys t u a b f k) as Hm.
  pose proof (settings_keys (JStr "") (JStr "") (JInt 30) (JInt 10) (JBool true) k) as Hd.
  fold default_items in Hd. fold default_map in Hd.
  destruct (list_to_map _ !! k) as [v|] eqn:Hk.
  - by destruct (default_map !! k).
  - destruct (default_map !! k) as [w|] eqn:Hw; [|done].
    assert (is_Some (None : option json)) as [? [=]].
    apply Hm, Hd. by eexists.
Qed.

(** The dictionary [save_config] stores always has the five settings, with a
    string, an integer or a boolean each. *)
Lemma config_of_shape `{Builtins} (data c : json) :
  config_of data = Ok c →
  ∃ (t u : string) (a b : Z) (f : bool),
    c = JObj (list_to_map [ ("token", JStr t); ("team_id", JStr u);
                            ("refresh_interval", JInt a); ("max_items", JInt b);
                            ("notify_prod_events", JBool f) ]).
Proof.
  unfold config_of.
  destruct (get_first data ["token"] (JStr "")) as [tok|]; [|discriminate].
  destruct (get_first data ["team_id"] (JStr "")) as [team|]; [|discriminate].
  cbn [mbind result_bind].
  destruct (get data "refresh_interval") as [v1|]; [|discriminate]. cbn [mbind result_bind].
  destruct (py_int _) as [ri|]; [|discriminate]. cbn [mbind result_bind].
  destruct (get data "max_items") as [v2|]; [|discriminate]. cbn [mbind result_bind].
  destruct (py_int _) as [mi|]; [|discriminate]. cbn [mbind result_bind].
  destruct (get data "notify_prod_events") as [npe|]; [|discriminate]. cbn [mbind result_bind].
  intros [= <-]. by eexists _, _, _, _, _.
Qed.

(** Settings of the types the preferences dialog passes (or absent). *)
Lemma config_of_dict `{Builtins} (m : gmap string json) (a b : Z) (tok team : string) :
  int_setting (value_of m "refresh_interval") 30 = Some a →
  int_setting (value_of m "max_items") 10 = Some b →
  str_setting (value_of m "token") = Some tok →
  str_setting (value_of m "team_id") = Some team →
  config_of (JObj m)
  = Ok (JObj (list_to_map
                [ ("token", JStr tok); ("team_id", JStr team);
                  ("refresh_interval", JInt a); ("max_items", JInt b);
                  ("notify_prod_events",
                   JBool (flag_setting (value_of m "notify_prod_events"))) ])).
Proof.
  intros Ha Hb Htok Hteam. unfold config_of.
  rewrite (str_setting_read _ _ _ Htok), (str_setting_read _ _ _ Hteam).
  cbn [mbind result_bind].
  rewrite (int_setting_read _ _ _ _ Ha). cbn [mbind result_bind].
  rewrite (int_setting_read _ _ _ _ Hb). reflexivity.
Qed.

Lemma int_setting_nonzero (v : json) (d a : Z) : d ≠ 0 → int_setting v d = Some a → a ≠ 0.
Proof.
  intros Hd. destruct v as [| |n| | | |]; cbn; try discriminate.
  - by intros [= <-].
  - intros [= <-]. by destruct (Z.eqb_spec n 0).
Qed.

(** What [load_config] reads after [save_config] has returned, for a printer
    and a parser that agree on the document written. *)
Lemma save_load_run `{Builtins} (json_dumps : json → string)
    (json_loads : string → result json) (data : json) (fs fs' : filesystem)
    (write : result unit) :
  save_config json_dumps data fs write = Ok fs' →
  (∀ c, config_of data = Ok c → json_loads (json_dumps c) = Ok c) →
  ∃ (t u : string) (a b : Z) (f : bool),
    config_of data
    = Ok (JObj (list_to_map [ ("token", JStr t); ("team_id", JStr u);
                              ("refresh_interval", JInt a); ("max_items", JInt b);
                              ("notify_prod_events", JBool f) ])) ∧
    load_config json_loads fs' = config_of data.
Proof.
  intros Hsave Hrt. unfold save_config in Hsave.
  destruct (config_of data) as [c|] eqn:Hc; [|discriminate]. cbn [mbind result_bind] in Hsave.
  destruct (fs_config_path fs) as [[]|] eqn:Hp; [|discriminate].
  cbn [mbind result_bind] in Hsave. destruct write as [[]|]; [|discriminate].
  cbn [mbind result_bind] in Hsave. injection Hsave as <-.
  destruct (config_of_shape data c Hc) as (t & u & a & b & f & ->).
  exists t, u, a, b, f. split; [reflexivity|].
  unfold load_config. cbn [fs_config_path fs_exists fs_read_text mbind result_bind negb].
  rewrite ?Hp. cbn [mbind result_bind]. rewrite (Hrt _ eq_refl). cbn [mbind result_bind].
  rewrite fill_defaults_dict. fold default_map. by rewrite settings_union.
Qed.

(** X17.  What [load_config] returns after [save_config] is the dictionary
    [save_config] built, when [json.loads] reads back what [json.dumps] wrote:
    it has the five settings and no other key, whatever else the saved
    dictionary held, and no default replaces a stored value. *)
Theorem save_then_load `{Builtins} (json_dumps : json → string)
    (json_loads : string → result json) (data : json) (fs fs' : filesystem)
    (write : result unit) :
  save_config json_dumps data fs write = Ok fs' →
  (∀ c, config_of data = Ok c → json_loads (json_dumps c) = Ok c) →
  ∃ m, config_of data = Ok (JObj m) ∧
       load_config json_loads fs' = Ok (JObj m) ∧
       fs_read_text fs' = Ok (json_dumps (JObj m)) ∧
       (∀ k, is_Some (m !! k) ↔ k ∈ config_keys).
Proof.
  intros Hsave Hrt.
  destruct (save_load_run json_dumps json_loads data fs fs' write Hsave Hrt)
    as (t & u & a & b & f & Hc & Hload).
  eexists. split; [exact Hc|]. split; [by rewrite Hload|]. split.
  - unfold save_config in Hsave. rewrite Hc in Hsave. cbn [mbind result_bind] in Hsave.
    destruct (fs_config_path fs) as [[]|]; [|discriminate].
    cbn [mbind result_bind] in Hsave. destruct write as [[]|]; [|discriminate].
    cbn [mbind result_bind] in Hsave. by injection Hsave as <-.
  - intros k. apply settings_keys.
Qed.

Lemma save_then_load_witness :
  ∃ fs' m,
    @save_config sample_builtins
      (one_document (obj [ ("token", JStr "tok"); ("team_id", JStr "");
                           ("refresh_interval", JInt 30); ("max_items", JInt 7);
                           ("notify_prod_events", JBool false) ])).1
      (obj [("token", JStr "tok"); ("max_items", JInt 7); ("notify_prod_events", JInt 0);
            ("theme", JStr "dark")])
      fs_missing (Ok tt) = Ok fs' ∧
    load_config
      (one_document (obj [ ("token", JStr "tok"); ("team_id", JStr "");
                           ("refresh_interval", JInt 30); ("max_items", JInt 7);
                           ("notify_prod_events", JBool false) ])).2 fs' = Ok (JObj m) ∧
    m !! "max_items" = Some (JInt 7) ∧ m !! "theme" = None.
Proof.
  pose (c0 := obj [ ("token", JStr "tok"); ("team_id", JStr "");
                    ("refresh_interval", JInt 30); ("max_items", JInt 7);
                    ("notify_prod_events", JBool false) ]).
  pose (data := obj [("token", JStr "tok"); ("max_items", JInt 7);
                     ("notify_prod_events", JInt 0); ("theme", JStr "dark")]).
  pose (fs' := {| fs_config_path := Ok tt; fs_exists := Ok true; fs_read_text := Ok "cfg" |}).
  assert (@config_of sample_builtins data = Ok c0) as Hc by (vm_compute; reflexivity).
  assert (@save_config sample_builtins (one_document c0).1 data fs_missing (Ok tt) = Ok fs')
    as H1 by (vm_compute; reflexivity).
  assert (∀ c, @config_of sample_builtins data = Ok c →
               (one_document c0).2 ((one_document c0).1 c) = Ok c) as H2.
  { intros c Hc'. rewrite Hc in Hc'. injection Hc' as <-. reflexivity. }
  destruct (@save_then_load sample_builtins (one_document c0).1 (one_document c0).2 data
              fs_missing fs' (Ok tt) H1 H2) as (m & Hm & Hload & _ & Hkeys).
  exists fs', m. split; [exact H1|]. split; [exact Hload|].
  rewrite Hc in Hm. injection Hm as <-. split; [vm_compute; reflexivity|].
  apply eq_None_not_Some. rewrite Hkeys. unfold config_keys, default_items. cbn.
  rewrite !elem_of_cons, elem_of_nil. intros [?|[?|[?|[?|[?|[]]]]]]; discriminate.
Defined.

(** X18.  Saving settings and loading them back does not change what the
    indicator is configured with: [_reconfigure] on the configuration loaded
    after [save_config] ends in the state it ends in on the saved dictionary
    itself, for settings of the types the preferences dialog passes. *)
Theorem saved_settings_read_back `{Builtins} (json_dumps : json → string)
    (json_loads : string → result json) (m : gmap string json) (fs fs' : filesystem)
    (write : result unit) (s : state) (a b : Z) (tok team : string) :
  int_setting (value_of m "refresh_interval") 30 = Some a →
  int_setting (value_of m "max_items") 10 = Some b →
  str_setting (value_of m "token") = Some tok →
  str_setting (value_of m "team_id") = Some team →
  save_config json_dumps (JObj m) fs write = Ok fs' →
  (∀ c, config_of (JObj m) = Ok c → json_loads (json_dumps c) = Ok c) →
  _reconfigure (load_config json_loads fs') s = _reconfigure (Ok (JObj m)) s ∧
  refresh_interval (_reconfigure (load_config json_loads fs') s).1 = a ∧
  max_items (_reconfigure (load_config json_loads fs') s).1 = b ∧
  token (client (_reconfigure (load_config json_loads fs') s).1) = strip tok.
Proof.
  intros Ha Hb Htok Hteam Hsave Hrt.
  destruct (save_load_run json_dumps json_loads (JObj m) fs fs' write Hsave Hrt)
    as (t & u & a' & b' & f & _ & ->).
  rewrite (config_of_dict m a b tok team Ha Hb Htok Hteam).
  pose proof (int_setting_nonzero _ 30 a ltac:(done) Ha) as Ha0.
  pose proof (int_setting_nonzero _ 10 b ltac:(done) Hb) as Hb0.
  rewrite (reconfigure_run m s a b tok team Ha Hb Htok Hteam).
  erewrite (reconfigure_run _ s a b tok team).
  - split; [reflexivity|]. by repeat split.
  - change (int_setting (JInt a) 30 = Some a). cbn. by destruct (Z.eqb_spec a 0).
  - change (int_setting (JInt b) 10 = Some b). cbn. by destruct (Z.eqb_spec b 0).
  - reflexivity.
  - reflexivity.
Qed.

Lemma saved_settings_read_back_witness :
  ∃ fs',
    @save_config sample_builtins
      (one_document (obj [ ("token", JStr " tok "); ("team_id", JStr "");
                           ("refresh_interval", JInt 30); ("max_items", JInt 7);
                           ("notify_prod_events", JBool true) ])).1
      (obj [("token", JStr " tok "); ("refresh_interval", JInt 0); ("max_items", JInt 7)])
      fs_missing (Ok tt) = Ok fs' ∧
    refresh_interval
      (@_reconfigure sample_builtins
         (load_config
            (one_document (obj [ ("token", JStr " tok "); ("team_id", JStr "");
                                 ("refresh_interval", JInt 30); ("max_items", JInt 7);
                                 ("notify_prod_events", JBool true) ])).2 fs')
         sample_state).1 = 30.
Proof.
  pose (c0 := obj [ ("token", JStr " tok "); ("team_id", JStr "");
                    ("refresh_interval", JInt 30); ("max_items", JInt 7);
                    ("notify_prod_events", JBool true) ]).
  pose (m := list_to_map [("token", JStr " tok "); ("refresh_interval", JInt 0);
                          ("max_items", JInt 7)] : gmap string json).
  pose (fs' := {| fs_config_path := Ok tt; fs_exists := Ok true; fs_read_text := Ok "cfg" |}).
  assert (int_setting (value_of m "refresh_interval") 30 = Some 30) as H1
    by (vm_compute; reflexivity).
  assert (int_setting (value_of m "max_items") 10 = Some 7) as H2
    by (vm_compute; reflexivity).
  assert (str_setting (value_of m "token") = Some " tok ") as H3
    by (vm_compute; reflexivity).
  assert (str_setting (value_of m "team_id") = Some "") as H4
    by (vm_compute; reflexivity).
  assert (@config_of sample_builtins (JObj m) = Ok c0) as Hc by (vm_compute; reflexivity).
  assert (@save_config sample_builtins (one_document c0).1 (JObj m) fs_missing (Ok tt)
          = Ok fs') as H5 by (vm_compute; reflexivity).
  assert (∀ c, @config_of sample_builtins (JObj m) = Ok c →
               (one_document c0).2 ((one_document c0).1 c) = Ok c) as H6.
  { intros c Hc'. rewrite Hc in Hc'. injection Hc' as <-. reflexivity. }
  exists fs'. split; [exact H5|].
  exact (proj1 (proj2 (@saved_settings_read_back sample_builtins (one_document c0).1
                         (one_document c0).2 m fs_missing fs' (Ok tt) sample_state
                         30 7 " tok " "" H1 H2 H3 H4 H5 H6))).
Defined.
